(** * Trade ledger of the stock trading simulator (backend/database.js)

    A shallow embedding of the storage layer of the simulator: the in-memory
    fallback store ([memoryStore]), the SQLite store driven through the
    statement queue of the [sqlite3] binding, and the operations
    [initMemoryData], [createUser] and [executeTrade] on both.

    Numbers.  JavaScript numbers are IEEE-754 doubles, and so are the
    numbers here: [float] is the binary64 type of the kernel, with its
    rounding, its infinities, its two zeros and NaN; a literal such as
    [170.11] denotes the nearest double, as in JavaScript.  [price] and
    [quantity] are numbers: the caller of [executeTrade] passes the results
    of [parseFloat] and [parseInt], NaN included.  A value read from the
    database is a number or [null]; SQLite has no NaN, the binding stores
    NaN as NULL, and arithmetic done in SQL ([balance - ?]) gives NULL on a
    NULL operand and for a NaN result.

    Time.  [new Date().toISOString()] is the argument [now].

    Storage.  The SQLite path of [executeTrade] is a chain of callbacks on
    one connection.  Only BEGIN and the balance query are issued inside
    [db.serialize]; every other statement is issued from a callback, where
    the binding runs statements in parallel, so the order in which they
    complete is not fixed by the code.  A call therefore takes a completion
    order as an argument, together with [record_fails], which says whether
    the INSERT into [transactions] fails.

    Around the ledger.  The read operations of database.js
    ([getUserById], [getUserByUsername], [getPortfolio], [getTransactions]),
    the routes of server.js that use them and [executeTrade] and
    [createUser], and [handleTrade] of the trading panel are embedded after
    the ledger.  An id that comes from a query string is a string; what
    SQLite makes of a string compared with an INTEGER column is a parameter
    ([numeric]).  The quantity and the price of a request body are JSON
    numbers or strings, converted by [parseInt] and [parseFloat].

    The file has two parts: the definitions that embed the code, then the
    lemmas and theorems about them. *)

From Stdlib Require Import ZArith QArith Qround Lia Floats Ascii.
From Stdlib Require OrderedTypeEx.
From stdpp Require Import base decidable option numbers strings list gmap fin_maps.
From stdpp Require Import pretty sorting.

Set Warnings "-inexact-float".

Local Open Scope Z_scope.

(** * Definitions *)

(** ** Numbers *)

(** Equality of numbers as values: NaN is equal to itself, and 0 is not
    equal to -0.  (The [===] of JavaScript is [PrimFloat.eqb].) *)
#[global] Instance float_eq_dec : EqDecision float.
Proof.
  intros x y. destruct (PrimFloat.Leibniz.eqb x y) eqn:H.
  - left. by apply FloatAxioms.Leibniz.eqb_spec.
  - right. intros Heq. apply FloatAxioms.Leibniz.eqb_spec in Heq. congruence.
Defined.

(** The sign and the class of a number, read off its representation. *)
Module Double.

Inductive shape : Type := Zero | Finite | Infinite | NotANumber.

Definition shape_of (s : spec_float) : shape :=
  match s with
  | S754_zero _ => Zero
  | S754_finite _ _ _ => Finite
  | S754_infinity _ => Infinite
  | S754_nan => NotANumber
  end.

Definition sign_of (s : spec_float) : bool :=
  match s with
  | S754_zero b | S754_finite b _ _ | S754_infinity b => b
  | S754_nan => false
  end.

(** [s >= 0], [s > 0], [s >= 0] and not the negative zero, [s] finite. *)
Definition nonneg (s : spec_float) : Prop :=
  match s with
  | S754_zero _ => True
  | S754_finite b _ _ | S754_infinity b => b = false
  | S754_nan => False
  end.

Definition positive (s : spec_float) : Prop :=
  match s with
  | S754_finite b _ _ | S754_infinity b => b = false
  | _ => False
  end.

Definition unsigned (s : spec_float) : Prop :=
  match s with
  | S754_zero b | S754_finite b _ _ | S754_infinity b => b = false
  | S754_nan => False
  end.

Definition finite (s : spec_float) : Prop :=
  match s with
  | S754_zero _ | S754_finite _ _ _ => True
  | _ => False
  end.

End Double.

Module JS.

(** A value that is a number or [null]. *)
Inductive value : Type :=
| Number (x : float)
| Null.

#[global] Instance value_eq_dec : EqDecision value.
Proof. solve_decision. Defined.

(** ToNumber: [null] counts as 0 in arithmetic and in comparisons. *)
Definition to_number (v : value) : float :=
  match v with
  | Number x => x
  | Null => 0%float
  end.

(** [a < b] *)
Definition lt (a b : value) : bool := (to_number a <? to_number b)%float.

(** A number that is at least 0, above 0. *)
Definition at_least_zero (v : value) : bool :=
  match v with
  | Number x => (0 <=? x)%float
  | Null => false
  end.

Definition above_zero (v : value) : bool :=
  match v with
  | Number x => (0 <? x)%float
  | Null => false
  end.

(** A number with the sign bit clear: above 0, or the zero that is not
    -0. *)
Definition unsigned (x : float) : Prop := Double.unsigned (Prim2SF x).

(** The number nearest to an integer or to a rational, ties to the even
    mantissa, an infinity beyond the largest number. *)
Definition of_Z (z : Z) : float := SF2Prim (binary_normalize prec emax z 0 false).

Definition of_Q (q : Q) : float :=
  match Qnum q with
  | Z0 => 0%float
  | Zpos n =>
      SF2Prim (SFdiv prec emax (S754_finite false n 0) (S754_finite false (Qden q) 0))
  | Zneg n =>
      SF2Prim (SFdiv prec emax (S754_finite true n 0) (S754_finite false (Qden q) 0))
  end.

(** The value of a finite number. *)
Definition exact (x : float) : option Q :=
  match Prim2SF x with
  | S754_zero _ => Some 0%Q
  | S754_finite s m e => Some (inject_Z (cond_Zopp s (Z.pos m)) * 2 ^ e)%Q
  | _ => None
  end.

(** *** Number::toString *)

(** [n] with [10^(n-1) <= v < 10^n], searched upwards from a lower bound. *)
Fixpoint magnitude (fuel : nat) (n : Z) (v : Q) : Z :=
  match fuel with
  | O => n
  | S fuel' => if Qle_bool (10 ^ n) v then magnitude fuel' (n + 1) v else n
  end.

(** A lower bound of it from the binary exponent: [log 2 / log 10] lies
    between 0.30102 and 0.30103. *)
Definition decimal_estimate (m : positive) (e : Z) : Z :=
  let l := Z.log2 (Z.pos m) + e in
  (l * (if bool_decide (l < 0) then 30103 else 30102)) `div` 100000.

(** Step 5: the shortest decimal [s * 10^(n-k)], [s] of [k] digits, that
    reads back as [x]; of two, the one nearer to [x]. *)
Fixpoint shortest (x : float) (v : Q) (n0 : Z) (digits : nat) (k : Z) : Z * Z :=
  let t := n0 - k in
  let c1 := Qfloor (v / 10 ^ t) in
  let c2 := c1 + 1 in
  let reads_back (c : Z) := bool_decide (of_Q (inject_Z c * 10 ^ t) = x) in
  let normal (c : Z) := if bool_decide (c = 10 ^ k) then (1, n0 + 1) else (c, n0) in
  match digits with
  | O => (c1, n0)
  | S digits' =>
      match reads_back c1, reads_back c2 with
      | true, true =>
          match (v - inject_Z c1 * 10 ^ t ?= inject_Z c2 * 10 ^ t - v)%Q with
          | Lt => normal c1
          | Gt => normal c2
          | Eq => if Z.even c1 then normal c1 else normal c2
          end
      | true, false => normal c1
      | false, true => normal c2
      | false, false => shortest x v n0 digits' (k + 1)
      end
  end.

Definition zeros (n : Z) : string := String.concat "" (replicate (Z.to_nat n) "0"%string).

(** Steps 6 to 10: the digits laid out, with an exponent from 10^21 on and
    below 10^-6. *)
Definition layout (s n : Z) : string :=
  let ds := pretty s in
  let k := Z.of_nat (String.length ds) in
  if bool_decide (k <= n <= 21) then ds +:+ zeros (n - k)
  else if bool_decide (0 < n <= 21) then
    String.substring 0 (Z.to_nat n) ds +:+ "." +:+
    String.substring (Z.to_nat n) (Z.to_nat (k - n)) ds
  else if bool_decide (-6 < n <= 0) then "0." +:+ zeros (- n) +:+ ds
  else
    let e := n - 1 in
    let exponent := (if bool_decide (e < 0) then "e-" else "e+") +:+ pretty (Z.abs e) in
    if bool_decide (k = 1) then ds +:+ exponent
    else String.substring 0 1 ds +:+ "." +:+ String.substring 1 (Z.to_nat (k - 1)) ds
         +:+ exponent.

Definition to_string (x : float) : string :=
  match Prim2SF x with
  | S754_nan => "NaN"
  | S754_zero _ => "0"
  | S754_infinity s => if s then "-Infinity" else "Infinity"
  | S754_finite s m e =>
      let v := (inject_Z (Z.pos m) * 2 ^ e)%Q in
      let '(d, n) := shortest (abs x) v (magnitude 8 (decimal_estimate m e) v) 17 1 in
      (if s then "-" else "") +:+ layout d n
  end.

(** *** parseInt and parseFloat *)

(** White space and line terminators, among the ASCII characters. *)
Definition is_space (c : ascii) : bool :=
  bool_decide (nat_of_ascii c ∈ [9; 10; 11; 12; 13; 32]%nat).

Fixpoint trim_start (s : string) : string :=
  match s with
  | String c s' => if is_space c then trim_start s' else s
  | EmptyString => s
  end.

Definition digit (radix : N) (c : ascii) : option N :=
  let n := N_of_ascii c in
  let d :=
    if bool_decide (48 <= n <= 57)%N then Some (n - 48)%N
    else if bool_decide (97 <= n <= 122)%N then Some (n - 87)%N
    else if bool_decide (65 <= n <= 90)%N then Some (n - 55)%N
    else None in
  d ≫= fun v => if bool_decide (v < radix)%N then Some v else None.

(** The longest prefix of digits: its value, its length and the rest. *)
Fixpoint digits (radix : N) (s : string) (value : N) (count : nat) : N * nat * string :=
  match s with
  | String c s' =>
      match digit radix c with
      | Some d => digits radix s' (value * radix + d)%N (S count)
      | None => (value, count, s)
      end
  | EmptyString => (value, count, s)
  end.

Definition signed (s : string) : bool * string :=
  match s with
  | String "-" s' => (true, s')
  | String "+" s' => (false, s')
  | _ => (false, s)
  end.

(** [parseInt(string)] without a radix. *)
Definition parseInt_string (s : string) : float :=
  let '(negative, s1) := signed (trim_start s) in
  let '(radix, s2) :=
    match s1 with
    | String "0" (String "x" s') | String "0" (String "X" s') => (16%N, s')
    | _ => (10%N, s1)
    end in
  let '(value, count, _) := digits radix s2 0 0 in
  if bool_decide (count = 0%nat) then nan
  else if bool_decide (value = 0%N) then (if negative then (-0)%float else 0%float)
  else of_Z (if negative then - Z.of_N value else Z.of_N value).

Definition starts_with (p s : string) : bool :=
  bool_decide (String.substring 0 (String.length p) s = p).

(** [parseFloat(string)]: the longest prefix that is a decimal literal. *)
Definition parseFloat_string (s : string) : float :=
  let '(negative, s1) := signed (trim_start s) in
  let sign (x : float) : float := if negative then (- x)%float else x in
  if starts_with "Infinity" s1 then sign infinity
  else
    let '(whole, n1, s2) := digits 10 s1 0 0 in
    let '(mantissa, n2, s3) :=
      match s2 with
      | String "." s' => digits 10 s' whole 0
      | _ => (whole, 0%nat, s2)
      end in
    if bool_decide (n1 + n2 = 0)%nat then nan
    else
      let exponent : Z :=
        match s3 with
        | String "e" s' | String "E" s' =>
            let '(minus, s4) := signed s' in
            let '(e, n3, _) := digits 10 s4 0 0 in
            if bool_decide (n3 = 0%nat) then 0 else if minus then - Z.of_N e else Z.of_N e
        | _ => 0
        end in
      let scale := exponent - Z.of_nat n2 in
      if bool_decide (mantissa = 0%N) then sign 0%float
      else if bool_decide (0 <= scale) then sign (of_Z (Z.of_N mantissa * 10 ^ scale))
      else sign (of_Q (Z.of_N mantissa # Z.to_pos (10 ^ (- scale)))).

(** A JSON number or string. *)
Inductive json : Type :=
| JNumber (x : float)
| JString (s : string).

#[global] Instance json_eq_dec : EqDecision json.
Proof. solve_decision. Defined.

(** ToString *)
Definition text (v : json) : string :=
  match v with
  | JNumber x => to_string x
  | JString s => s
  end.

Definition parseInt (v : json) : float := parseInt_string (text v).
Definition parseFloat (v : json) : float := parseFloat_string (text v).

(** [!v] is false: a number other than 0, -0 and NaN, a string that is
    not empty. *)
Definition truthy (v : json) : bool :=
  match v with
  | JNumber x => negb ((x =? 0)%float || is_nan x)
  | JString s => negb (bool_decide (s = ""%string))
  end.

(** A number in the body of a request or of an answer:
    [JSON.stringify] writes NaN and the infinities as [null], and -0
    as 0. *)
Definition stringify (x : float) : option json :=
  if is_finite x then Some (JNumber (if (x =? 0)%float then 0%float else x)) else None.

End JS.

Arguments JS.lt : simpl never.

(** ** Rows, stores and results *)

(** A row of [users] / an element of [memoryStore.users]. *)
Record user : Type := User {
  id : Z;
  username : string;
  password : string;
  balance : JS.value;
  created_at : string
}.

(** A row of [portfolios] / a value of [memoryStore.portfolios]. *)
Record holding : Type := Holding {
  user_id : Z;
  symbol : string;
  quantity : JS.value;
  average_price : JS.value;
  updated_at : string
}.

(** A row of [transactions] / an element of [memoryStore.transactions]. *)
Record transaction : Type := Transaction {
  tx_id : Z;
  tx_user_id : Z;
  tx_symbol : string;
  tx_type : string;
  tx_price : JS.value;
  tx_quantity : JS.value;
  total_amount : JS.value;
  timestamp : string
}.

#[global] Instance user_eq_dec : EqDecision user.
Proof. solve_decision. Defined.
#[global] Instance holding_eq_dec : EqDecision holding.
Proof. solve_decision. Defined.
#[global] Instance transaction_eq_dec : EqDecision transaction.
Proof. solve_decision. Defined.

(** The key of [memoryStore.portfolios] is the string [`${userId}-${symbol}`].
    The decimal form of an integer has no ['-'] after its first character, so
    the string determines the pair; the map is indexed by the pair, which is
    also the primary key of the [portfolios] table. *)
Abbreviation key := (Z * string)%type.

Record store : Type := Store {
  users : list user;
  portfolios : gmap key holding;
  transactions : list transaction
}.

#[global] Instance store_eq_dec : EqDecision store.
Proof. solve_decision. Defined.

(** What the promise returned by [executeTrade] settles to. *)
Inductive error : Type :=
| User_not_found
| Insufficient_funds
| Insufficient_holdings
| Storage_error.

Inductive outcome : Type :=
| Resolved (new_balance : JS.value) (tx : option transaction)
| Rejected (e : error)
| Pending.

#[global] Instance error_eq_dec : EqDecision error.
Proof. solve_decision. Defined.
#[global] Instance outcome_eq_dec : EqDecision outcome.
Proof. solve_decision. Defined.

(** [users.find(u => u.id === userId)] *)
Definition find_user (userId : Z) (us : list user) : option user :=
  List.find (fun u => bool_decide (id u = userId)) us.

Definition set_balance (b : JS.value) (u : user) : user :=
  {| id := id u; username := username u; password := password u;
     balance := b; created_at := created_at u |}.

(** The object found by [find] is mutated in place: the first element with
    that id changes. *)
Fixpoint update_first (userId : Z) (f : user -> user) (us : list user) : list user :=
  match us with
  | [] => []
  | u :: us' =>
      if bool_decide (id u = userId) then f u :: us'
      else u :: update_first userId f us'
  end.

(** ** The in-memory backend *)

Module Memory.

(** The body of [executeTrade] under [if (useMemory)]. *)
Definition executeTrade (m : store) (userId : Z) (sym type : string)
    (price qty : float) (now : string) : outcome * store :=
  let total := (price * qty)%float in
  match find_user userId (users m) with
  | None => (Rejected User_not_found, m)
  | Some user =>
      if bool_decide (type = "BUY"%string) then
        if JS.lt (balance user) (JS.Number total) then (Rejected Insufficient_funds, m)
        else
          let bal := JS.Number (JS.to_number (balance user) - total) in
          let k := (userId, sym) in
          let p := default (Holding userId sym (JS.Number 0) (JS.Number 0) now)
                     (portfolios m !! k) in
          let oldTotalVal := (JS.to_number (quantity p) * JS.to_number (average_price p))%float in
          let q' := (JS.to_number (quantity p) + qty)%float in
          let p' := Holding (user_id p) (symbol p) (JS.Number q')
                      (JS.Number ((oldTotalVal + total) / q')) now in
          let tx := Transaction (Z.of_nat (length (transactions m)) + 1)
                      userId sym type (JS.Number price) (JS.Number qty) (JS.Number total) now in
          (Resolved bal (Some tx),
           {| users := update_first userId (set_balance bal) (users m);
              portfolios := <[k := p']> (portfolios m);
              transactions := transactions m ++ [tx] |})
      else
        let k := (userId, sym) in
        match portfolios m !! k with
        | None => (Rejected Insufficient_holdings, m)
        | Some p =>
            if JS.lt (quantity p) (JS.Number qty) then (Rejected Insufficient_holdings, m)
            else
              let q' := (JS.to_number (quantity p) - qty)%float in
              let bal := JS.Number (JS.to_number (balance user) + total) in
              let tx := Transaction (Z.of_nat (length (transactions m)) + 1)
                          userId sym type (JS.Number price) (JS.Number qty) (JS.Number total)
                          now in
              (Resolved bal (Some tx),
               {| users := update_first userId (set_balance bal) (users m);
                  portfolios :=
                    if (q' =? 0)%float then delete k (portfolios m)
                    else <[k := Holding (user_id p) (symbol p) (JS.Number q')
                                  (average_price p) now]> (portfolios m);
                  transactions := transactions m ++ [tx] |})
        end
  end.

End Memory.

(** ** The SQLite backend *)

Module Sqlite.

(** The three tables.  [users.id] is an INTEGER PRIMARY KEY and
    [(user_id, symbol)] the primary key of [portfolios], so both are maps
    from the key to the row; [transactions] is kept in insertion order, its
    AUTOINCREMENT id being one more than the largest id in the table (no
    row of it is ever deleted).  No column is declared NOT NULL. *)
Record tables : Type := Tables {
  users_table : gmap Z user;
  portfolios_table : gmap key holding;
  transactions_table : list transaction
}.

#[global] Instance tables_eq_dec : EqDecision tables.
Proof. solve_decision. Defined.

(** The connection: the tables as the connection sees them, and inside a
    transaction the tables as they were at BEGIN. *)
Record database : Type := Database {
  current : tables;
  at_begin : option tables
}.

#[global] Instance database_eq_dec : EqDecision database.
Proof. solve_decision. Defined.

Definition next_id (txs : list transaction) : Z :=
  1 + foldr Z.max 0%Z (tx_id <$> txs).

(** A number bound to a parameter of a statement.  The binding binds NaN
    as NULL, and a number equal to its 32-bit integer value as that
    integer, so -0 as 0; every other number is stored and read back as it
    is. *)
Definition bind (x : float) : JS.value :=
  if is_nan x then JS.Null
  else if (x =? 0)%float then JS.Number 0
  else JS.Number x.

(** The result of arithmetic on reals: NULL in place of NaN. *)
Definition real (x : float) : JS.value :=
  if is_nan x then JS.Null else JS.Number x.

(** [a - b] and [a + b] in SQL: NULL when an operand is NULL. *)
Definition minus (a b : JS.value) : JS.value :=
  match a, b with
  | JS.Number x, JS.Number y => real (x - y)
  | _, _ => JS.Null
  end.

Definition plus (a b : JS.value) : JS.value :=
  match a, b with
  | JS.Number x, JS.Number y => real (x + y)
  | _, _ => JS.Null
  end.

(** The statements [executeTrade] issues, with the numbers given for their
    parameters. *)
Inductive sql : Type :=
| BEGIN_TRANSACTION
| ROLLBACK
| COMMIT
| SELECT_balance (userId : Z)
| UPDATE_balance_minus (total : float) (userId : Z)
| UPDATE_balance_plus (total : float) (userId : Z)
| SELECT_portfolio (userId : Z) (sym : string)
| UPDATE_portfolio_quantity_average (newQty newAvg : float) (now : string)
    (userId : Z) (sym : string)
| INSERT_portfolio (userId : Z) (sym : string) (qty price : float) (now : string)
| DELETE_portfolio (userId : Z) (sym : string)
| UPDATE_portfolio_quantity (newQty : float) (now : string) (userId : Z) (sym : string)
| INSERT_transaction (userId : Z) (sym type : string) (price qty total : float)
    (now : string).

(** What a completion callback receives besides the error. *)
Inductive row : Type :=
| No_row
| User_row (u : user)
| Portfolio_row (p : holding).

Definition set_users (f : gmap Z user -> gmap Z user) (t : tables) : tables :=
  {| users_table := f (users_table t);
     portfolios_table := portfolios_table t;
     transactions_table := transactions_table t |}.

Definition set_portfolios (f : gmap key holding -> gmap key holding) (t : tables) : tables :=
  {| users_table := users_table t;
     portfolios_table := f (portfolios_table t);
     transactions_table := transactions_table t |}.

Definition change (f : tables -> tables) (d : database) : database :=
  {| current := f (current d); at_begin := at_begin d |}.

(** One statement on the connection: the connection afterwards, whether
    the statement reported an error, and the row handed to the callback.
    [record_fails] injects the one storage failure the code handles on a
    write: the INSERT into [transactions].  The other statements succeed
    when SQLite accepts them; BEGIN inside a transaction, and COMMIT or
    ROLLBACK outside one, are errors that change nothing. *)
Definition exec (record_fails : bool) (s : sql) (d : database) : database * bool * row :=
  match s with
  | BEGIN_TRANSACTION =>
      match at_begin d with
      | None => ({| current := current d; at_begin := Some (current d) |}, false, No_row)
      | Some _ => (d, true, No_row)
      end
  | ROLLBACK =>
      match at_begin d with
      | Some t => ({| current := t; at_begin := None |}, false, No_row)
      | None => (d, true, No_row)
      end
  | COMMIT =>
      match at_begin d with
      | Some _ => ({| current := current d; at_begin := None |}, false, No_row)
      | None => (d, true, No_row)
      end
  | SELECT_balance userId =>
      (d, false, from_option User_row No_row (users_table (current d) !! userId))
  | UPDATE_balance_minus total userId =>
      (change (set_users (alter (fun u =>
         set_balance (minus (balance u) (bind total)) u) userId)) d, false, No_row)
  | UPDATE_balance_plus total userId =>
      (change (set_users (alter (fun u =>
         set_balance (plus (balance u) (bind total)) u) userId)) d, false, No_row)
  | SELECT_portfolio userId sym =>
      (d, false,
       from_option Portfolio_row No_row (portfolios_table (current d) !! (userId, sym)))
  | UPDATE_portfolio_quantity_average newQty newAvg now userId sym =>
      (change (set_portfolios (alter (fun p =>
         Holding (user_id p) (symbol p) (bind newQty) (bind newAvg) now) (userId, sym))) d,
       false, No_row)
  | INSERT_portfolio userId sym qty price now =>
      match portfolios_table (current d) !! (userId, sym) with
      | Some _ => (d, true, No_row)
      | None =>
          (change (set_portfolios
             <[(userId, sym) := Holding userId sym (bind qty) (bind price) now]>) d,
           false, No_row)
      end
  | DELETE_portfolio userId sym =>
      (change (set_portfolios (delete (userId, sym))) d, false, No_row)
  | UPDATE_portfolio_quantity newQty now userId sym =>
      (change (set_portfolios (alter (fun p =>
         Holding (user_id p) (symbol p) (bind newQty) (average_price p) now) (userId, sym))) d,
       false, No_row)
  | INSERT_transaction userId sym type price qty total now =>
      if record_fails then (d, true, No_row)
      else
        (change (fun t =>
           {| users_table := users_table t;
              portfolios_table := portfolios_table t;
              transactions_table := transactions_table t ++
                [Transaction (next_id (transactions_table t))
                   userId sym type (bind price) (bind qty) (bind total) now] |}) d,
         false, No_row)
  end.

(** The completion callbacks of [executeTrade], by the statement they are
    attached to. *)
Inductive callback : Type :=
| checkUser
| buy_portfolio
| sell_portfolio
| record_trade
| latest_balance.

(** A statement handed to the binding: its callback, if it has one, and
    whether it was issued in serialized mode. *)
Record issued : Type := Issued {
  statement : sql;
  on_completion : option callback;
  serialized : bool
}.

(** [db.run(sql)] and [db.get(sql, cb)] outside [db.serialize]. *)
Definition db_run (s : sql) : issued := Issued s None false.
Definition db_get (s : sql) (cb : callback) : issued := Issued s (Some cb) false.

Section executeTrade.

Variables (userId : Z) (sym type : string) (price qty : float) (now : string).

Definition total : float := (price * qty)%float.

(** What a callback does when its statement completes: the statements it
    issues, in order, and how it settles the promise, if it does.  The
    [.then] and [.catch] handlers of [checkUser] run with its callback. *)
Definition complete (cb : callback) (err : bool) (r : row)
    : list issued * option outcome :=
  match cb with
  | checkUser =>
      match err, r with
      | false, User_row userRow =>
          if bool_decide (type = "BUY"%string) then
            if JS.lt (balance userRow) (JS.Number total) then
              ([db_run ROLLBACK], Some (Rejected Insufficient_funds))
            else
              ([db_run (UPDATE_balance_minus total userId);
                db_get (SELECT_portfolio userId sym) buy_portfolio;
                db_get (INSERT_transaction userId sym type price qty total now)
                  record_trade], None)
          else
            ([db_get (SELECT_portfolio userId sym) sell_portfolio;
              db_get (INSERT_transaction userId sym type price qty total now)
                record_trade], None)
      | _, _ => ([db_run ROLLBACK], Some (Rejected User_not_found))
      end
  | buy_portfolio =>
      if err then ([], None)
      else
        match r with
        | Portfolio_row pf =>
            let newQty := (JS.to_number (quantity pf) + qty)%float in
            let newAvg :=
              ((JS.to_number (quantity pf) * JS.to_number (average_price pf) + total)
               / newQty)%float in
            ([db_run (UPDATE_portfolio_quantity_average newQty newAvg now userId sym)],
             None)
        | _ => ([db_run (INSERT_portfolio userId sym qty price now)], None)
        end
  | sell_portfolio =>
      if err then ([db_run ROLLBACK], Some (Rejected Storage_error))
      else
        match r with
        | Portfolio_row pf =>
            if JS.lt (quantity pf) (JS.Number qty) then
              ([db_run ROLLBACK], Some (Rejected Insufficient_holdings))
            else
              let newQty := (JS.to_number (quantity pf) - qty)%float in
              ([db_run (UPDATE_balance_plus total userId);
                db_run (if (newQty =? 0)%float then DELETE_portfolio userId sym
                        else UPDATE_portfolio_quantity newQty now userId sym)], None)
        | _ => ([db_run ROLLBACK], Some (Rejected Insufficient_holdings))
        end
  | record_trade =>
      if err then ([db_run ROLLBACK], Some (Rejected Storage_error))
      else ([db_run COMMIT; db_get (SELECT_balance userId) latest_balance], None)
  | latest_balance =>
      ([], Some (Resolved (match r with User_row u => balance u | _ => JS.Number 0 end)
                   None))
  end.

(** A call in progress: the connection, the statements issued and not
    yet run, and the promise. *)
Record call : Type := Call {
  conn : database;
  queue : list issued;
  promise : outcome
}.

(** A promise settles once. *)
Definition settle (o : option outcome) (p : outcome) : outcome :=
  match p, o with
  | Pending, Some o' => o'
  | _, _ => p
  end.

(** One statement runs on the connection and its callback runs when it
    completes; what the callback issues goes to the back of the queue. *)
Definition step (record_fails : bool) (s : issued) (c : call) : call :=
  let '(d, err, r) := exec record_fails (statement s) (conn c) in
  match on_completion s with
  | None => {| conn := d; queue := queue c; promise := promise c |}
  | Some cb =>
      let '(more, o) := complete cb err r in
      {| conn := d; queue := queue c ++ more; promise := settle o (promise c) |}
  end.

(** Which statement completes next.  A statement issued in serialized mode
    runs alone and in its turn.  Statements issued outside [db.serialize],
    as all those issued from callbacks are (the callback runs after
    [db.serialize] has returned), are in the binding's parallel mode: any
    of those at the front of the queue may complete first.  [n] is the
    position of the one that does, the last of them when [n] is too
    large. *)
Fixpoint pick (n : nat) (q : list issued) : option (issued * list issued) :=
  match q with
  | [] => None
  | s :: rest =>
      match n, rest with
      | S n', s' :: _ =>
          if serialized s || serialized s' then Some (s, rest)
          else
            match pick n' rest with
            | Some (x, rest') => Some (x, s :: rest')
            | None => Some (s, rest)
            end
      | _, _ => Some (s, rest)
      end
  end.

(** The run of the queue under a completion order: one position for every
    statement that runs; an order that ends early stands for "the first
    in the queue" from then on. *)
Fixpoint run (record_fails : bool) (order : list nat) (fuel : nat) (c : call) : call :=
  match fuel with
  | O => c
  | S fuel' =>
      match pick (hd O order) (queue c) with
      | None => c
      | Some (s, rest) =>
          run record_fails (tl order) fuel'
            (step record_fails s
               {| conn := conn c; queue := rest; promise := promise c |})
      end
  end.

(** The part of [executeTrade] after the [if (useMemory)] block: inside
    [db.serialize] the code issues BEGIN and the balance query; the rest
    is issued by callbacks.  No path issues more than eight statements. *)
Definition start (d : database) : call :=
  {| conn := d;
     queue := [Issued BEGIN_TRANSACTION None true;
               Issued (SELECT_balance userId) (Some checkUser) true];
     promise := Pending |}.

Definition executeTrade (record_fails : bool) (order : list nat) (d : database) : call :=
  run record_fails order 8 (start d).

(** The call in closed form when the statements complete in the order in
    which they were issued ([executeTrade_in_order] below). *)
Definition record (t : tables) : transaction :=
  Transaction (next_id (transactions_table t)) userId sym type (bind price) (bind qty)
    (bind total) now.

(** The tables after some of the three writes of a trade: the balance,
    the portfolio row, the transaction record. *)
Definition written (balance_too portfolio_too record_too : bool)
    (bal : JS.value -> JS.value) (pf' : gmap key holding) (t : tables) : tables :=
  {| users_table :=
       if balance_too
       then alter (fun u => set_balance (bal (balance u)) u) userId (users_table t)
       else users_table t;
     portfolios_table := if portfolio_too then pf' else portfolios_table t;
     transactions_table :=
       if record_too then transactions_table t ++ [record t] else transactions_table t |}.

Definition debit (b : JS.value) : JS.value := minus b (bind total).
Definition credit (b : JS.value) : JS.value := plus b (bind total).

Definition bought (t : tables) : gmap key holding :=
  match portfolios_table t !! (userId, sym) with
  | Some pf =>
      <[(userId, sym) :=
          Holding (user_id pf) (symbol pf) (bind (JS.to_number (quantity pf) + qty))
            (bind ((JS.to_number (quantity pf) * JS.to_number (average_price pf) + total)
                   / (JS.to_number (quantity pf) + qty))) now]> (portfolios_table t)
  | None =>
      <[(userId, sym) := Holding userId sym (bind qty) (bind price) now]> (portfolios_table t)
  end.

Definition sold (pf : holding) (t : tables) : gmap key holding :=
  if (JS.to_number (quantity pf) - qty =? 0)%float then delete (userId, sym) (portfolios_table t)
  else <[(userId, sym) := Holding (user_id pf) (symbol pf)
                            (bind (JS.to_number (quantity pf) - qty))
                            (average_price pf) now]> (portfolios_table t).

Definition net_effect (record_fails : bool) (t : tables) : outcome * tables :=
  match users_table t !! userId with
  | None => (Rejected User_not_found, t)
  | Some u =>
      if bool_decide (type = "BUY"%string) then
        if JS.lt (balance u) (JS.Number total) then (Rejected Insufficient_funds, t)
        else if record_fails then (Rejected Storage_error, t)
        else (Resolved (debit (balance u)) None,
              written true true true debit (bought t) t)
      else
        match portfolios_table t !! (userId, sym) with
        | None => (Rejected Insufficient_holdings, t)
        | Some pf =>
            if JS.lt (quantity pf) (JS.Number qty) then (Rejected Insufficient_holdings, t)
            else if record_fails then (Rejected Storage_error, t)
            else (Resolved (credit (balance u)) None,
                  written true true true credit (sold pf t) t)
        end
  end.

(** What a call can do whatever the order in which its statements
    complete ([executeTrade_in_any_order] below). *)
Definition unheld (record_fails : bool) (u : user) (t : tables) (o : outcome)
    (t' : tables) : Prop :=
  if record_fails then
    (o = Rejected Insufficient_holdings \/ o = Rejected Storage_error) /\ t' = t
  else
    (o = Rejected Insufficient_holdings \/ o = Resolved (balance u) None) /\
    exists r, t' = written false false r credit ∅ t.

Definition in_any_order (record_fails : bool) (t : tables) (o : outcome) (t' : tables)
    : Prop :=
  match users_table t !! userId with
  | None => o = Rejected User_not_found /\ t' = t
  | Some u =>
      if bool_decide (type = "BUY"%string) then
        if JS.lt (balance u) (JS.Number total) then o = Rejected Insufficient_funds /\ t' = t
        else if record_fails then
          o = Rejected Storage_error /\
          exists b p, t' = written b p false debit (bought t) t
        else
          (o = Resolved (debit (balance u)) None \/ o = Resolved (balance u) None) /\
          t' = written true true true debit (bought t) t
      else
        match portfolios_table t !! (userId, sym) with
        | None => unheld record_fails u t o t'
        | Some pf =>
            if JS.lt (quantity pf) (JS.Number qty) then unheld record_fails u t o t'
            else if record_fails then
              o = Rejected Storage_error /\
              exists b p, t' = written b p false credit (sold pf t) t
            else
              (o = Resolved (credit (balance u)) None \/ o = Resolved (balance u) None) /\
              t' = written true true true credit (sold pf t) t
        end
  end.

End executeTrade.

End Sqlite.

Arguments Sqlite.bind : simpl never.
Arguments Sqlite.minus : simpl never.
Arguments Sqlite.plus : simpl never.

(** ** The active backend *)

(** The module state of database.js: [useMemory], [memoryStore] and the
    connection [db] (with empty tables when it could not be opened). *)
Record backend : Type := Backend {
  useMemory : bool;
  memoryStore : store;
  db : Sqlite.database
}.

#[global] Instance backend_eq_dec : EqDecision backend.
Proof. solve_decision. Defined.

Definition no_tables : Sqlite.tables := Sqlite.Tables ∅ ∅ [].

Section Accounts.

(** [bcrypt.hashSync(password, 10)] for a password that is a string; for
    any other value it throws. *)
Variable hashSync : string -> string.

Definition initMemoryData (now : string) (m : store) : store :=
  {| users := users m ++ [User 1 "demo" (hashSync "password123") (JS.Number 100000) now];
     portfolios := portfolios m;
     transactions := transactions m |}.

Definition next_user_id (us : gmap Z user) : Z :=
  1 + map_fold (fun i _ acc => Z.max i acc) 0%Z us.

(** [INSERT INTO users (username, password, balance, created_at)]: refused
    when the username is taken (UNIQUE). *)
Definition insert_user (name hash : string) (bal : JS.value) (now : string)
    (t : Sqlite.tables) : option (user * Sqlite.tables) :=
  if bool_decide (map_Exists (fun _ u => username u = name) (Sqlite.users_table t)) then None
  else
    let u := User (next_user_id (Sqlite.users_table t)) name hash bal now in
    Some (u, {| Sqlite.users_table := <[id u := u]> (Sqlite.users_table t);
                Sqlite.portfolios_table := Sqlite.portfolios_table t;
                Sqlite.transactions_table := Sqlite.transactions_table t |}).

(** [initDatabase]: [opened] is the content of the database file when the
    connection opens, [created] whether [createTables] went through. *)
Definition initDatabase (opened : option Sqlite.tables) (created : bool) (now : string)
    : backend :=
  let memoryStore0 := Store [] ∅ [] in
  match opened with
  | None => Backend true (initMemoryData now memoryStore0) (Sqlite.Database no_tables None)
  | Some t =>
      if created then
        if bool_decide (size (Sqlite.users_table t) = 0%nat) then
          match insert_user "demo" (hashSync "password123") (JS.Number 100000) now t with
          | Some (_, t') => Backend false memoryStore0 (Sqlite.Database t' None)
          | None => Backend false memoryStore0 (Sqlite.Database t None)
          end
        else Backend false memoryStore0 (Sqlite.Database t None)
      else Backend true (initMemoryData now memoryStore0) (Sqlite.Database t None)
  end.

(** [createUser]: the new account, or [None] when the promise is rejected.
    [pass] is the password when it is a string and [None] for any other
    value (a missing one, a number): [hashSync] then throws, before the
    store is touched.  On SQLite the promise resolves with the id, the name
    and the balance of the row only; the row itself is what is returned
    here. *)
Definition createUser (w : backend) (name : string) (pass : option string) (now : string)
    : option user * backend :=
  match pass with
  | None => (None, w)
  | Some pass =>
      let hash := hashSync pass in
      if useMemory w then
        let m := memoryStore w in
        let newUser :=
          User (Z.of_nat (length (users m)) + 1) name hash (JS.Number 100000) now in
        (Some newUser,
         Backend true
           {| users := users m ++ [newUser];
              portfolios := portfolios m;
              transactions := transactions m |} (db w))
      else
        match insert_user name hash (JS.Number 100000) now (Sqlite.current (db w)) with
        | Some (u, t') =>
            (Some u, Backend false (memoryStore w) (Sqlite.change (fun _ => t') (db w)))
        | None => (None, w)
        end
  end.

End Accounts.

(** [executeTrade] on the active backend.  [record_fails] and [order] are
    the behaviour of the storage during the call: whether the INSERT into
    [transactions] fails, and the order in which the binding completes the
    statements that run in parallel. *)
Definition executeTrade (w : backend) (record_fails : bool) (order : list nat) (userId : Z)
    (sym type : string) (price qty : float) (now : string) : outcome * backend :=
  if useMemory w then
    let r := Memory.executeTrade (memoryStore w) userId sym type price qty now in
    (fst r, Backend true (snd r) (db w))
  else
    let c := Sqlite.executeTrade userId sym type price qty now record_fails order (db w) in
    (Sqlite.promise c, Backend false (memoryStore w) (Sqlite.conn c)).

Definition account (w : backend) (userId : Z) : option user :=
  if useMemory w then find_user userId (users (memoryStore w))
  else Sqlite.users_table (Sqlite.current (db w)) !! userId.

Definition positions (w : backend) : gmap key holding :=
  if useMemory w then portfolios (memoryStore w)
  else Sqlite.portfolios_table (Sqlite.current (db w)).

Definition ledger (w : backend) : list transaction :=
  if useMemory w then transactions (memoryStore w)
  else Sqlite.transactions_table (Sqlite.current (db w)).

Definition every_account (P : user -> Prop) (w : backend) : Prop :=
  if useMemory w then Forall P (users (memoryStore w))
  else map_Forall (fun _ => P) (Sqlite.users_table (Sqlite.current (db w))).

(** The connection is outside a transaction: the case between two calls. *)
Definition idle (w : backend) : Prop := Sqlite.at_begin (db w) = None.

(** ** The ends of a call in closed form *)

(** The store after some of the three writes of a trade: the balance of the
    account, the portfolio map, the transaction log. *)
Definition applied (balance_too portfolio_too record_too : bool) (userId : Z) (u : user)
    (bal : JS.value) (pf : gmap key holding) (tx : transaction) (w : backend) : backend :=
  if useMemory w then
    Backend true
      {| users :=
           if balance_too
           then update_first userId (set_balance bal) (users (memoryStore w))
           else users (memoryStore w);
         portfolios := if portfolio_too then pf else portfolios (memoryStore w);
         transactions :=
           if record_too then transactions (memoryStore w) ++ [tx]
           else transactions (memoryStore w) |} (db w)
  else
    Backend false (memoryStore w)
      (Sqlite.Database
         {| Sqlite.users_table :=
              if balance_too
              then <[userId := set_balance bal u]> (Sqlite.users_table (Sqlite.current (db w)))
              else Sqlite.users_table (Sqlite.current (db w));
            Sqlite.portfolios_table :=
              if portfolio_too then pf else Sqlite.portfolios_table (Sqlite.current (db w));
            Sqlite.transactions_table :=
              if record_too then Sqlite.transactions_table (Sqlite.current (db w)) ++ [tx]
              else Sqlite.transactions_table (Sqlite.current (db w)) |} None).

(** The store after a committed trade: the three writes together. *)
Definition commit (userId : Z) (u : user) (bal : JS.value) (pf : gmap key holding)
    (tx : transaction) (w : backend) : backend :=
  applied true true true userId u bal pf tx w.

(** The two backends differ in the id of the new transaction record, in
    the numbers they keep (the in-memory store keeps the number computed,
    SQLite the number as bound), in the arithmetic on the balance (done in
    JavaScript, done in SQL), in the first purchase of a symbol, in whether
    the write of the record can fail, and in whether the record is
    returned. *)
Definition next_record_id (w : backend) : Z :=
  if useMemory w then (Z.of_nat (length (transactions (memoryStore w))) + 1)%Z
  else Sqlite.next_id (Sqlite.transactions_table (Sqlite.current (db w))).

Definition stored (w : backend) (x : float) : JS.value :=
  if useMemory w then JS.Number x else Sqlite.bind x.

Definition debited (w : backend) (b : JS.value) (total : float) : JS.value :=
  if useMemory w then JS.Number (JS.to_number b - total)
  else Sqlite.minus b (Sqlite.bind total).

Definition credited (w : backend) (b : JS.value) (total : float) : JS.value :=
  if useMemory w then JS.Number (JS.to_number b + total)
  else Sqlite.plus b (Sqlite.bind total).

Definition first_quantity (w : backend) (qty : float) : JS.value :=
  if useMemory w then JS.Number (0 + qty) else Sqlite.bind qty.

Definition first_average (w : backend) (price qty : float) : JS.value :=
  if useMemory w then JS.Number ((0 * 0 + price * qty) / (0 + qty))
  else Sqlite.bind price.

Definition write_fails (w : backend) (record_fails : bool) : bool :=
  negb (useMemory w) && record_fails.

Definition returned (w : backend) (tx : transaction) : option transaction :=
  if useMemory w then Some tx else None.

(** The record of a trade. *)
Definition recorded (w : backend) (userId : Z) (sym type : string) (price qty : float)
    (now : string) : transaction :=
  Transaction (next_record_id w) userId sym type (stored w price) (stored w qty)
    (stored w (price * qty)) now.

Definition bought (w : backend) (userId : Z) (sym : string) (price qty : float)
    (now : string) : holding :=
  match positions w !! (userId, sym) with
  | Some p =>
      Holding (user_id p) (symbol p) (stored w (JS.to_number (quantity p) + qty))
        (stored w ((JS.to_number (quantity p) * JS.to_number (average_price p) + price * qty)
                   / (JS.to_number (quantity p) + qty))) now
  | None => Holding userId sym (first_quantity w qty) (first_average w price qty) now
  end.

Definition sold (w : backend) (p : holding) (userId : Z) (sym : string) (qty : float)
    (now : string) : gmap key holding :=
  if (JS.to_number (quantity p) - qty =? 0)%float then delete (userId, sym) (positions w)
  else <[(userId, sym) := Holding (user_id p) (symbol p)
                            (stored w (JS.to_number (quantity p) - qty))
                            (average_price p) now]> (positions w).

(** The call when the statements of the SQLite backend complete in the
    order in which they were issued, and on the in-memory backend. *)
Definition closed_form (w : backend) (record_fails : bool) (userId : Z)
    (sym type : string) (price qty : float) (now : string) : outcome * backend :=
  let total := (price * qty)%float in
  let tx := recorded w userId sym type price qty now in
  match account w userId with
  | None => (Rejected User_not_found, w)
  | Some u =>
      if bool_decide (type = "BUY"%string) then
        if JS.lt (balance u) (JS.Number total) then (Rejected Insufficient_funds, w)
        else if write_fails w record_fails then (Rejected Storage_error, w)
        else
          (Resolved (debited w (balance u) total) (returned w tx),
           commit userId u (debited w (balance u) total)
             (<[(userId, sym) := bought w userId sym price qty now]> (positions w)) tx w)
      else
        match positions w !! (userId, sym) with
        | None => (Rejected Insufficient_holdings, w)
        | Some p =>
            if JS.lt (quantity p) (JS.Number qty) then (Rejected Insufficient_holdings, w)
            else if write_fails w record_fails then (Rejected Storage_error, w)
            else
              (Resolved (credited w (balance u) total) (returned w tx),
               commit userId u (credited w (balance u) total)
                 (sold w p userId sym qty now) tx w)
        end
  end.

(** The ways a call can end whatever the order of completion.  A request
    that fails the holdings test: *)
Definition unheld (w : backend) (record_fails : bool) (userId : Z) (u : user)
    (tx : transaction) (r : outcome * backend) : Prop :=
  if useMemory w then r = (Rejected Insufficient_holdings, w)
  else if record_fails then
    (fst r = Rejected Insufficient_holdings \/ fst r = Rejected Storage_error) /\ snd r = w
  else
    (fst r = Rejected Insufficient_holdings \/ fst r = Resolved (balance u) None) /\
    exists recorded,
      snd r = applied false false recorded userId u (balance u) (positions w) tx w.

(** A request that passes its test, with the new balance and portfolio: *)
Definition passed (w : backend) (record_fails : bool) (userId : Z) (u : user)
    (bal : JS.value) (pf : gmap key holding) (tx : transaction) (r : outcome * backend)
    : Prop :=
  if write_fails w record_fails then
    fst r = Rejected Storage_error /\
    exists balance_too portfolio_too,
      snd r = applied balance_too portfolio_too false userId u bal pf tx w
  else
    (fst r = Resolved bal (returned w tx) \/
     (useMemory w = false /\ fst r = Resolved (balance u) None)) /\
    snd r = commit userId u bal pf tx w.

Definition may_end (w : backend) (record_fails : bool) (userId : Z)
    (sym type : string) (price qty : float) (now : string) (r : outcome * backend)
    : Prop :=
  let total := (price * qty)%float in
  let tx := recorded w userId sym type price qty now in
  match account w userId with
  | None => r = (Rejected User_not_found, w)
  | Some u =>
      if bool_decide (type = "BUY"%string) then
        if JS.lt (balance u) (JS.Number total) then r = (Rejected Insufficient_funds, w)
        else
          passed w record_fails userId u (debited w (balance u) total)
            (<[(userId, sym) := bought w userId sym price qty now]> (positions w)) tx r
      else
        match positions w !! (userId, sym) with
        | None => unheld w record_fails userId u tx r
        | Some p =>
            if JS.lt (quantity p) (JS.Number qty) then unheld w record_fails userId u tx r
            else
              passed w record_fails userId u (credited w (balance u) total)
                (sold w p userId sym qty now) tx r
        end
  end.

(** ** Scenarios, sequences of trades and invariants *)

(** A stand-in for bcrypt in the concrete runs below. *)
Definition clear_text (pass : string) : string := pass.

(** The connection could not be opened: the in-memory store with [demo]. *)
Definition memory0 : backend := initDatabase clear_text None false "2025-05-14T09:00:00.000Z".

(** A new database file: the tables with [demo] inserted. *)
Definition sqlite0 : backend :=
  initDatabase clear_text (Some no_tables) true "2025-05-14T09:00:00.000Z".

(** The account of the specification's example: a balance of 50.00. *)
Definition poor : backend :=
  Backend true
    (Store [User 1 "demo" "password123" (JS.Number 50) "2025-05-14T09:00:00.000Z"] ∅ [])
    (Sqlite.Database no_tables None).

(** One call of [executeTrade]: its arguments, the time of the call, whether
    the write of the transaction record fails and the order in which the
    statements complete. *)
Record trade : Type := Trade {
  by_user : Z;
  on_symbol : string;
  side : string;
  at_price : float;
  of_quantity : float;
  at_time : string;
  storage_fails : bool;
  completion : list nat
}.

Definition submit (w : backend) (t : trade) : outcome * backend :=
  executeTrade w (storage_fails t) (completion t) (by_user t) (on_symbol t) (side t)
    (at_price t) (of_quantity t) (at_time t).

(** The store after the calls [ts], one after the other. *)
Definition after (w : backend) (ts : list trade) : backend :=
  foldl (fun w' t => snd (submit w' t)) w ts.

(** [price * quantity] as [executeTrade] computes it. *)
Definition amount (t : trade) : float := (at_price t * of_quantity t)%float.

(** Every balance is a number that is at least 0. *)
Definition solvent (w : backend) : Prop :=
  every_account (fun u => JS.at_least_zero (balance u) = true) w.

#[global] Instance every_account_dec (P : user -> Prop) `{!forall u, Decision (P u)}
    (w : backend) : Decision (every_account P w).
Proof. unfold every_account. destruct (useMemory w); apply _. Defined.

#[global] Instance solvent_dec (w : backend) : Decision (solvent w).
Proof. unfold solvent. apply _. Defined.

(** The quantity held by an account in a symbol: that of the position
    entry, zero without an entry. *)
Definition held (w : backend) (userId : Z) (sym : string) : JS.value :=
  from_option quantity (JS.Number 0) (positions w !! (userId, sym)).

(** Every position entry has a quantity that is a number above 0. *)
Definition positive_holdings (w : backend) : Prop :=
  map_Forall (fun _ p => JS.above_zero (quantity p) = true) (positions w).

#[global] Instance positive_holdings_dec (w : backend) : Decision (positive_holdings w).
Proof. unfold positive_holdings. apply _. Defined.

(** The store after the first trade of the specification's example,
    BUY 10 @ 100.00 (the second is BUY 10 @ 200.00 on the same symbol). *)
Definition memory1 : backend :=
  snd (executeTrade memory0 false [] 1 "AAPL" "BUY" 100 10 "2025-05-14T09:30:00.000Z").

(** The store after BUY 5 @ 10.00 on the SQLite backend. *)
Definition sqlite1 : backend :=
  snd (executeTrade sqlite0 false [] 1 "AAPL" "BUY" 10 5 "2025-05-14T09:30:00.000Z").

(** ** Replay of the transaction log *)

(** The transaction log of one account, oldest first. *)
Definition log (w : backend) (userId : Z) : list transaction :=
  filter (fun tx => tx_user_id tx = userId) (ledger w).

(** Replay, following the specification (4.2, steps 5 and 6), in the
    arithmetic of the code: the cash and the positions of one account, by
    symbol. *)
Record account_state : Type := AccountState {
  cash : float;
  holdings : gmap string holding
}.

#[global] Instance account_state_eq_dec : EqDecision account_state.
Proof. solve_decision. Defined.

Definition replay_step (userId : Z) (a : account_state) (tx : transaction)
    : account_state :=
  let price := JS.to_number (tx_price tx) in
  let qty := JS.to_number (tx_quantity tx) in
  let cost := (price * qty)%float in
  let sym := tx_symbol tx in
  if bool_decide (tx_type tx = "BUY"%string) then
    {| cash := (cash a - cost)%float;
       holdings :=
         <[sym :=
             match holdings a !! sym with
             | None => Holding userId sym (JS.Number qty) (JS.Number price) (timestamp tx)
             | Some p =>
                 let oldQty := JS.to_number (quantity p) in
                 let oldAvg := JS.to_number (average_price p) in
                 Holding (user_id p) (symbol p) (JS.Number (oldQty + qty))
                   (JS.Number ((oldQty * oldAvg + cost) / (oldQty + qty))) (timestamp tx)
             end]> (holdings a) |}
  else
    {| cash := (cash a + cost)%float;
       holdings :=
         match holdings a !! sym with
         | None => holdings a
         | Some p =>
             let newQty := (JS.to_number (quantity p) - qty)%float in
             if (newQty =? 0)%float then delete sym (holdings a)
             else <[sym := Holding (user_id p) (symbol p) (JS.Number newQty)
                             (average_price p) (timestamp tx)]> (holdings a)
         end |}.

Definition replay (userId : Z) (opening : float) (txs : list transaction) : account_state :=
  foldl (replay_step userId) (AccountState opening ∅) txs.

(** Every account opens with this balance ([initDatabase], [createUser]). *)
Definition opening_balance : float := 100000%float.

(** A position without its average cost. *)
Definition without_average (p : holding) : holding :=
  Holding (user_id p) (symbol p) (quantity p) JS.Null (updated_at p).

(** The store agrees with the replay of its log in the balances and in the
    positions, their average cost apart.  Besides the agreement itself the
    invariant records that the connection is idle, that the balances and
    the quantities are numbers with the sign bit clear, that every record
    of the log belongs to an existing account and, for the in-memory store,
    that ids are within [1 .. users.length], so that the id given to the
    next account is new. *)
Record consistent (w : backend) : Prop := Consistent {
  consistent_idle : idle w;
  consistent_cash : forall userId u,
    account w userId = Some u ->
    balance u = JS.Number (cash (replay userId opening_balance (log w userId))) /\
    JS.unsigned (cash (replay userId opening_balance (log w userId)));
  consistent_holdings : forall userId sym,
    without_average <$> positions w !! (userId, sym)
    = without_average <$> holdings (replay userId opening_balance (log w userId)) !! sym;
  consistent_quantities :
    map_Forall (fun _ p => exists q, quantity p = JS.Number q /\ JS.unsigned q) (positions w);
  consistent_owner :
    Forall (fun tx => is_Some (account w (tx_user_id tx))) (ledger w);
  consistent_ids :
    useMemory w = true ->
    Forall (fun u => (1 <= id u <= Z.of_nat (length (users (memoryStore w))))%Z)
      (users (memoryStore w))
}.

Section Events.

Variable hashSync : string -> string.

(** What happens to a backend after start-up: accounts are registered
    (with a password that is a string, or with another value) and trades
    are submitted. *)
Inductive event : Type :=
| Register (name : string) (pass : option string) (now : string)
| Submit (t : trade).

Definition handle (w : backend) (e : event) : backend :=
  match e with
  | Register name pass now => snd (createUser hashSync w name pass now)
  | Submit t => snd (submit w t)
  end.

Definition history (w : backend) (es : list event) : backend := foldl handle w es.

(** Every call is for a price and a quantity above zero, with a finite
    amount. *)
Definition ordinary (e : event) : Prop :=
  match e with
  | Register _ _ _ => True
  | Submit t =>
      (0 <? at_price t)%float = true /\ (0 <? of_quantity t)%float = true /\
      is_finite (amount t) = true
  end.

(** The statements of every call complete in the order in which they were
    issued. *)
Definition in_issue_order (e : event) : Prop :=
  match e with
  | Register _ _ _ => True
  | Submit t => completion t = []
  end.

#[global] Instance ordinary_dec (e : event) : Decision (ordinary e).
Proof. destruct e; cbn; apply _. Defined.

#[global] Instance in_issue_order_dec (e : event) : Decision (in_issue_order e).
Proof. destruct e; cbn; apply _. Defined.

End Events.

(** A morning: [demo] buys twice and sells; alice registers, buys, and
    tries to sell what she does not hold. *)
Definition morning : list event :=
  [Submit (Trade 1 "AAPL" "BUY" 100 10 "2025-05-14T09:30:00.000Z" false []);
   Register "alice" (Some "s3cret"%string) "2025-05-14T09:31:00.000Z";
   Submit (Trade 2 "MSFT" "BUY" 50.25 3 "2025-05-14T09:32:00.000Z" false []);
   Submit (Trade 1 "AAPL" "BUY" 200 10 "2025-05-14T09:33:00.000Z" false []);
   Submit (Trade 2 "AAPL" "SELL" 210 1 "2025-05-14T09:34:00.000Z" false []);
   Submit (Trade 1 "AAPL" "SELL" 180.1 5 "2025-05-14T09:35:00.000Z" false [])].

(** ** Reading the store *)

(** The key of [memoryStore.portfolios], [`${userId}-${symbol}`], for an
    integer that JavaScript prints in decimal digits (below 10^21 in
    absolute value). *)
Definition portfolio_key (userId : Z) (sym : string) : string :=
  pretty userId +:+ "-" +:+ sym.

(** [Number.MAX_SAFE_INTEGER] bounds the integers a JavaScript number
    holds exactly. *)
Definition safe_integer (n : Z) : Prop := (- (2 ^ 53 - 1) <= n <= 2 ^ 53 - 1)%Z.

#[global] Instance safe_integer_dec (n : Z) : Decision (safe_integer n).
Proof. unfold safe_integer. apply _. Defined.

(** A user id as a read operation receives it: a number, or a string when
    it is taken from the query string of a request. *)
Inductive param : Type :=
| Num (n : Z)
| Str (s : string).

#[global] Instance param_eq_dec : EqDecision param.
Proof. solve_decision. Defined.

(** [u.id === id], [p.user_id === userId], [t.user_id === userId]: the ids
    kept in [memoryStore] are numbers, and a string is never strictly equal
    to a number. *)
Definition same_id (i : Z) (p : param) : bool :=
  match p with
  | Num n => bool_decide (i = n)
  | Str _ => false
  end.

(** The object [getUserById] returns: the whole element of
    [memoryStore.users], or the columns [id, username, balance] of the
    row. *)
Record user_view : Type := UserView {
  view_id : Z;
  view_username : string;
  view_password : option string;
  view_balance : JS.value;
  view_created_at : option string
}.

#[global] Instance user_view_eq_dec : EqDecision user_view.
Proof. solve_decision. Defined.

Definition whole (u : user) : user_view :=
  UserView (id u) (username u) (Some (password u)) (balance u) (Some (created_at u)).

Definition id_username_balance (u : user) : user_view :=
  UserView (id u) (username u) None (balance u) None.

(** The values of an object, the rows of a table.  The order in which
    JavaScript enumerates the keys of [memoryStore.portfolios] and the order
    of an SQL result without ORDER BY are not part of the model: the lemmas
    speak of membership only. *)
Definition rows {K A : Type} `{Countable K} (m : gmap K A) : list A := (map_to_list m).*2.

(** The ORDER BY of [getTransactions]: [timestamp] is a TEXT column, compared
    byte by byte. *)
Definition not_before (a b : transaction) : Prop :=
  String.leb (timestamp b) (timestamp a) = true.

#[global] Instance not_before_dec (a b : transaction) : Decision (not_before a b).
Proof. unfold not_before. apply _. Defined.

Section Reads.

(** The value SQLite compares with an INTEGER column when the bound
    parameter is a text: the integer the text converts to, if it does. *)
Variable numeric : string -> option Z.

Definition bound (p : param) : option Z :=
  match p with
  | Num n => Some n
  | Str s => numeric s
  end.

(** [getUserByUsername]: [None] stands for [undefined] (no such user) and
    for [null] (the query failed). *)
Definition getUserByUsername (w : backend) (query_fails : bool) (name : string)
    : option user :=
  if useMemory w then
    List.find (fun u => bool_decide (username u = name)) (users (memoryStore w))
  else if query_fails then None
  else head (filter (fun u => username u = name)
               (rows (Sqlite.users_table (Sqlite.current (db w))))).

(** [getUserById] *)
Definition getUserById (w : backend) (query_fails : bool) (p : param) : option user_view :=
  if useMemory w then
    whole <$> List.find (fun u => same_id (id u) p) (users (memoryStore w))
  else if query_fails then None
  else
    id_username_balance <$>
      (bound p ≫= fun n => Sqlite.users_table (Sqlite.current (db w)) !! n).

(** [getPortfolio] *)
Definition getPortfolio (w : backend) (query_fails : bool) (p : param) : list holding :=
  if useMemory w then
    List.filter (fun h => same_id (user_id h) p) (rows (portfolios (memoryStore w)))
  else if query_fails then []
  else
    match bound p with
    | Some n =>
        filter (fun h => user_id h = n)
          (rows (Sqlite.portfolios_table (Sqlite.current (db w))))
    | None => []
    end.

(** [getTransactions].  In memory the records of the account are reversed.
    In SQL they are ordered by [timestamp], latest first; the order of two
    records with the same timestamp is not fixed, so the operation is the
    relation between the store and the lists it may return. *)
Definition getTransactions (w : backend) (query_fails : bool) (p : param)
    (result : list transaction) : Prop :=
  if useMemory w then
    result = reverse (List.filter (fun t => same_id (tx_user_id t) p)
                        (transactions (memoryStore w)))
  else if query_fails then result = []
  else
    match bound p with
    | Some n =>
        result ≡ₚ filter (fun t => tx_user_id t = n)
                    (Sqlite.transactions_table (Sqlite.current (db w))) /\
        Sorted not_before result
    | None => result = []
    end.

End Reads.

(** ** The routes of server.js *)

(** The messages of the refusals: '缺少交易参数', '用户不存在', the message
    of the error thrown by [executeTrade], '注册失败，用户名可能已存在'. *)
Inductive message : Type :=
| Missing_trade_parameters
| User_does_not_exist
| Trade_failed (e : error)
| Registration_failed.

#[global] Instance message_eq_dec : EqDecision message.
Proof. solve_decision. Defined.

(** What a handler sends: [res.json({ success: true, data })], or
    [res.status(code).json({ success: false, message })]; nothing while the
    promise it awaits is pending. *)
Inductive response (A : Type) : Type :=
| Answer (data : A)
| Refusal (code : Z) (msg : message)
| No_answer.

Arguments Answer {A} data.
Arguments Refusal {A} code msg.
Arguments No_answer {A}.

#[global] Instance response_eq_dec {A : Type} `{EqDecision A} : EqDecision (response A).
Proof. solve_decision. Defined.

(** [req.query.userId || 1]: the value of the query string is a string,
    and the empty string is falsy. *)
Definition query_userId (q : option string) : param :=
  match q with
  | Some s => if bool_decide (s = ""%string) then Num 1 else Str s
  | None => Num 1
  end.

(** The body of POST /api/trade, for a request whose [userId] is a JSON
    integer, whose [symbol] and [type] are JSON strings and whose
    [quantity] and [price] are JSON numbers or strings; each may be
    missing (or [null]). *)
Record trade_body : Type := TradeBody {
  body_userId : option Z;
  body_symbol : option string;
  body_type : option string;
  body_quantity : option JS.json;
  body_price : option JS.json
}.

(** [userId || 1] *)
Definition body_user (b : trade_body) : Z :=
  match body_userId b with
  | Some n => if bool_decide (n = 0%Z) then 1%Z else n
  | None => 1%Z
  end.

Section Routes.

Variable hashSync : string -> string.
Variable numeric : string -> option Z.

(** GET /api/user *)
Definition get_user (w : backend) (query_fails : bool) (q : option string)
    : response user_view :=
  match getUserById numeric w query_fails (query_userId q) with
  | Some user => Answer user
  | None => Refusal 404 User_does_not_exist
  end.

(** GET /api/transactions *)
Definition get_transactions (w : backend) (query_fails : bool) (q : option string)
    (r : response (list transaction)) : Prop :=
  exists txs, getTransactions numeric w query_fails (query_userId q) txs /\ r = Answer txs.

(** What the route makes of the promise of [executeTrade]:
    [res.json(result)] when it resolves, status 400 with the message of
    the error when it is rejected. *)
Definition trade_response (r : outcome * backend)
    : response (JS.value * option transaction) * backend :=
  match r with
  | (Resolved bal tx, w') => (Answer (bal, tx), w')
  | (Rejected e, w') => (Refusal 400 (Trade_failed e), w')
  | (Pending, w') => (No_answer, w')
  end.

(** POST /api/trade: the test [!symbol || !type || !quantity || !price] is
    made on the values of the body, and [executeTrade] is called with
    [parseFloat(price)] and [parseInt(quantity)]. *)
Definition post_trade (w : backend) (record_fails : bool) (order : list nat)
    (b : trade_body) (now : string)
    : response (JS.value * option transaction) * backend :=
  match body_symbol b, body_type b, body_quantity b, body_price b with
  | Some sym, Some type, Some quantity, Some price =>
      if bool_decide (sym = ""%string) || bool_decide (type = ""%string)
         || negb (JS.truthy quantity) || negb (JS.truthy price)
      then (Refusal 400 Missing_trade_parameters, w)
      else
        trade_response
          (executeTrade w record_fails order (body_user b) sym type
             (JS.parseFloat price) (JS.parseInt quantity) now)
  | _, _, _, _ => (Refusal 400 Missing_trade_parameters, w)
  end.

(** POST /api/auth/register, for a body whose [username] is a string;
    [pass] is the password when it is a string. *)
Definition post_register (w : backend) (name : string) (pass : option string) (now : string)
    : response (Z * string) * backend :=
  match createUser hashSync w name pass now with
  | (Some user, w') => (Answer (id user, username user), w')
  | (None, w') => (Refusal 400 Registration_failed, w')
  end.

End Routes.

(** ** The trading panel (TradingPanel.jsx) *)

(** The props and the state [handleTrade] reads.  [stock] is the symbol
    with the price, which may be missing; [balance] and [holdings] are
    what the server last answered; [tradeQuantity] is a number, or [null]
    when the input is empty. *)
Record panel : Type := Panel {
  stock : option (string * option float);
  currentPrice : option float;
  activeTab : string;
  panel_balance : JS.value;
  panel_holdings : JS.value;
  tradeQuantity : JS.value
}.

(** What [handleTrade] does: nothing, one of its three messages, or the
    request it sends. *)
Inductive panel_action : Type :=
| Nothing
| Invalid_quantity
| Balance_too_low
| Holdings_too_low
| Send (b : trade_body).

#[global] Instance trade_body_eq_dec : EqDecision trade_body.
Proof. solve_decision. Defined.
#[global] Instance panel_action_eq_dec : EqDecision panel_action.
Proof. solve_decision. Defined.

(** [a || b] on numbers: 0, NaN and [undefined] are falsy. *)
Definition or_else (a : option float) (b : float) : float :=
  match a with
  | Some x => if (x =? 0)%float || is_nan x then b else x
  | None => b
  end.

(** A number or [null] in the body of the request. *)
Definition body_number (v : JS.value) : option JS.json :=
  match v with
  | JS.Number x => JS.stringify x
  | JS.Null => None
  end.

Definition handleTrade (p : panel) : panel_action :=
  match stock p with
  | None => Nothing
  | Some (sym, stock_price) =>
      if (JS.to_number (tradeQuantity p) <=? 0)%float then Invalid_quantity
      else
        let price := or_else (currentPrice p) (or_else stock_price 0) in
        let totalCost := (price * JS.to_number (tradeQuantity p))%float in
        let request :=
          Send (TradeBody (Some 1%Z) (Some sym) (Some (activeTab p))
                  (body_number (tradeQuantity p)) (JS.stringify price)) in
        if bool_decide (activeTab p = "BUY"%string) then
          if JS.lt (panel_balance p) (JS.Number totalCost) then Balance_too_low
          else request
        else
          if JS.lt (panel_holdings p) (tradeQuantity p) then Holdings_too_low
          else request
  end.

(** ** Relations between stores *)

(** The transaction ids of the log are 1, 2, ... in order. *)
Definition numbered (txs : list transaction) : Prop :=
  tx_id <$> txs = Z.of_nat <$> seq 1 (length txs).

#[global] Instance numbered_dec (txs : list transaction) : Decision (numbered txs).
Proof. unfold numbered. apply _. Defined.

(** An in-memory store and an SQLite store with the same balances, the
    same quantities held and the same log. *)
Definition same_content (m s : backend) : Prop :=
  useMemory m = true /\ useMemory s = false /\
  (forall j, account m j = account s j) /\
  (forall k, quantity <$> positions m !! k = quantity <$> positions s !! k) /\
  ledger m = ledger s.

(** Every balance and every quantity held is a number with the sign bit
    clear. *)
Definition unsigned_numbers (w : backend) : Prop :=
  every_account (fun u => exists b, balance u = JS.Number b /\ JS.unsigned b) w /\
  map_Forall (fun _ p => exists q, quantity p = JS.Number q /\ JS.unsigned q) (positions w).

(** Every position entry is stored under its own account and symbol. *)
Definition keyed (w : backend) : Prop :=
  map_Forall (fun k h => user_id h = k.1 /\ symbol h = k.2) (positions w).

#[global] Instance keyed_dec (w : backend) : Decision (keyed w).
Proof. unfold keyed. apply _. Defined.

(** A transaction record without its type. *)
Definition untyped (tx : transaction) : transaction :=
  Transaction (tx_id tx) (tx_user_id tx) (tx_symbol tx) "" (tx_price tx) (tx_quantity tx)
    (total_amount tx) (timestamp tx).

(** A text converts to an integer: the decimal digits of 1, for the
    examples. *)
Definition only_one (s : string) : option Z :=
  if bool_decide (s = "1"%string) then Some 1%Z else None.

(** In memory the ids of the accounts are 1, 2, ... in the order of
    registration. *)
Definition memory_ids (w : backend) : Prop :=
  useMemory w = true ->
  id <$> users (memoryStore w) = Z.of_nat <$> seq 1 (length (users (memoryStore w))).

#[global] Instance memory_ids_dec (w : backend) : Decision (memory_ids w).
Proof. unfold memory_ids. apply _. Defined.

(** A morning with failures of the storage, a registration without a
    password and statements that complete out of order. *)
Definition rough_morning : list event :=
  [Submit (Trade 1 "AAPL" "BUY" 100 10 "2025-05-14T09:30:00.000Z" false
             [0; 0; 2; 3]%nat);
   Submit (Trade 1 "XYZ" "SELL" 10 1 "2025-05-14T09:30:30.000Z" false
             [0; 0; 1]%nat);
   Register "alice" (Some "s3cret"%string) "2025-05-14T09:31:00.000Z";
   Register "bob" None "2025-05-14T09:31:30.000Z";
   Submit (Trade 2 "MSFT" "BUY" 50.25 3 "2025-05-14T09:32:00.000Z" true
             [0; 0; 1; 1]%nat);
   Register "alice" (Some "again"%string) "2025-05-14T09:32:30.000Z";
   Submit (Trade 2 "MSFT" "BUY" 50.25 3 "2025-05-14T09:33:00.000Z" false []);
   Submit (Trade 1 "AAPL" "SELL" 180.1 10 "2025-05-14T09:35:00.000Z" false
             [0; 0; 1; 2; 1]%nat)].

(** The timestamp of [a] is strictly before that of [b]. *)
Definition earlier (a b : transaction) : Prop :=
  String.ltb (timestamp a) (timestamp b) = true.

#[global] Instance earlier_dec (a b : transaction) : Decision (earlier a b).
Proof. unfold earlier. apply _. Defined.

(** The answers of the calls [ts], one after the other. *)
Fixpoint answers (w : backend) (ts : list trade) : list outcome :=
  match ts with
  | [] => []
  | t :: ts' => fst (submit w t) :: answers (snd (submit w t)) ts'
  end.

(** The same answer, up to the transaction record only the in-memory
    backend returns. *)
Definition same_answer (a b : outcome) : Prop :=
  match a, b with
  | Resolved bal _, Resolved bal' _ => bal = bal'
  | Rejected e, Rejected e' => e = e'
  | _, _ => False
  end.

(** A call the two backends can be compared on: the price and the
    quantity are above zero and the amount is finite, the storage does not
    fail and the statements complete in the order in which they were
    issued. *)
Definition plain (t : trade) : Prop :=
  ((0 <? at_price t)%float = true /\ (0 <? of_quantity t)%float = true /\
   is_finite (amount t) = true) /\
  storage_fails t = false /\ completion t = [].

#[global] Instance plain_dec (t : trade) : Decision (plain t).
Proof. unfold plain. apply _. Defined.

(** A string without the character ['-']. *)
Fixpoint no_dash (s : string) : Prop :=
  match s with
  | EmptyString => True
  | String c s' => c <> "-"%char /\ no_dash s'
  end.

(** The store, the statements and the answers without the types of the
    transaction records. *)
Definition untyped_tables (t : Sqlite.tables) : Sqlite.tables :=
  Sqlite.Tables (Sqlite.users_table t) (Sqlite.portfolios_table t)
    (untyped <$> Sqlite.transactions_table t).

Definition untyped_database (d : Sqlite.database) : Sqlite.database :=
  Sqlite.Database (untyped_tables (Sqlite.current d)) (untyped_tables <$> Sqlite.at_begin d).

Definition untyped_sql (s : Sqlite.sql) : Sqlite.sql :=
  match s with
  | Sqlite.INSERT_transaction userId sym _ price qty total now =>
      Sqlite.INSERT_transaction userId sym "" price qty total now
  | _ => s
  end.

Definition untyped_issued (i : Sqlite.issued) : Sqlite.issued :=
  Sqlite.Issued (untyped_sql (Sqlite.statement i)) (Sqlite.on_completion i)
    (Sqlite.serialized i).

Definition untyped_call (c : Sqlite.call) : Sqlite.call :=
  Sqlite.Call (untyped_database (Sqlite.conn c)) (untyped_issued <$> Sqlite.queue c)
    (Sqlite.promise c).

Definition untyped_store (m : store) : store :=
  Store (users m) (portfolios m) (untyped <$> transactions m).

Definition untyped_backend (w : backend) : backend :=
  Backend (useMemory w) (untyped_store (memoryStore w)) (untyped_database (db w)).

Definition untyped_outcome (o : outcome) : outcome :=
  match o with
  | Resolved bal tx => Resolved bal (untyped <$> tx)
  | _ => o
  end.

(** * Lemmas *)

(** ** Numbers *)

(** *** Rounding *)

Lemma digits2_pos_log2 (m : positive) :
  Z.pos (digits2_pos m) = Z.succ (Z.log2 (Z.pos m)).
Proof.
  assert (H : forall p, digits2_pos p = Pos.size p).
  { induction p as [p IH|p IH|]; cbn; by rewrite ?IH. }
  destruct m as [p|p|]; cbn; rewrite ?H; lia.
Qed.

Lemma digits2_pos_bounds (m : positive) :
  2 ^ (Z.pos (digits2_pos m) - 1) <= Z.pos m < 2 ^ Z.pos (digits2_pos m).
Proof.
  rewrite digits2_pos_log2. replace (Z.succ (Z.log2 (Z.pos m)) - 1) with (Z.log2 (Z.pos m)) by lia.
  apply Z.log2_spec. lia.
Qed.

Lemma shr_1_m (r : shr_record) : 0 <= shr_m r -> shr_m (shr_1 r) = Z.div2 (shr_m r).
Proof. destruct r as [[|[p|p|]|p] r s]; cbn; try done; lia. Qed.

Lemma iter_pos_shr_1 (p : positive) (r : shr_record) :
  0 <= shr_m r -> shr_m (SpecFloat.iter_pos shr_1 p r) = Z.shiftr (shr_m r) (Z.pos p).
Proof.
  revert r. induction p as [p IH|p IH|]; intros r Hr; cbn [SpecFloat.iter_pos].
  - assert (H1 : 0 <= shr_m (shr_1 r)) by (rewrite shr_1_m by done; apply Z.div2_nonneg; lia).
    assert (H2 : 0 <= shr_m (SpecFloat.iter_pos shr_1 p (shr_1 r))).
    { rewrite IH by done. apply Z.shiftr_nonneg. done. }
    rewrite IH, IH, shr_1_m by done.
    rewrite Z.div2_spec, !Z.shiftr_shiftr by lia. f_equal. lia.
  - assert (H2 : 0 <= shr_m (SpecFloat.iter_pos shr_1 p r)).
    { rewrite IH by done. apply Z.shiftr_nonneg. done. }
    rewrite IH, IH by done. rewrite Z.shiftr_shiftr by lia. f_equal. lia.
  - rewrite shr_1_m by done. by rewrite Z.div2_spec.
Qed.

Lemma shr_record_of_loc_m (m : Z) (l : location) : shr_m (shr_record_of_loc m l) = m.
Proof. by destruct l as [|[]]. Qed.

Lemma fexp_emin (e : Z) : emin <= fexp prec emax e.
Proof. unfold fexp. lia. Qed.

Lemma shr_fexp_nonneg (m e : Z) (l : location) :
  0 <= m -> 0 <= shr_m (shr_fexp prec emax m e l).1.
Proof.
  intros Hm. unfold shr_fexp, shr.
  destruct (fexp prec emax (Zdigits2 m + e) - e) as [|p|p]; cbn [fst];
    rewrite ?iter_pos_shr_1, ?shr_record_of_loc_m by (by rewrite shr_record_of_loc_m);
    try done.
  by apply Z.shiftr_nonneg.
Qed.

Lemma shr_fexp_pos (m e : Z) (l : location) :
  0 < m -> emin <= e ->
  0 < shr_m (shr_fexp prec emax m e l).1 /\
  emin <= (shr_fexp prec emax m e l).2.
Proof.
  intros Hm He. unfold shr_fexp, shr.
  destruct (fexp prec emax (Zdigits2 m + e) - e) as [|p|p] eqn:Hn; cbn [fst snd];
    rewrite ?shr_record_of_loc_m; try done.
  rewrite iter_pos_shr_1 by (rewrite shr_record_of_loc_m; lia).
  rewrite shr_record_of_loc_m. split; [|lia].
  destruct m as [|q|q]; try lia. cbn [Zdigits2] in Hn.
  pose proof (digits2_pos_bounds q) as [Hlow _].
  rewrite Z.shiftr_div_pow2 by lia.
  apply Z.div_str_pos. split; [lia|].
  etrans; [|exact Hlow]. apply Z.pow_le_mono_r; [lia|].
  unfold fexp, SpecFloat.emin, prec, emax in *. lia.
Qed.

Lemma round_nearest_even_ge (m : Z) (l : location) : m <= round_nearest_even m l.
Proof. destruct l as [|[]]; cbn; try lia. destruct (Z.even m); lia. Qed.

(** A rounded number keeps the sign it is given and is not NaN. *)
Lemma binary_round_aux_sign (sx : bool) (m e : Z) (l : location) :
  0 <= m ->
  Double.shape_of (binary_round_aux prec emax sx m e l) <> Double.NotANumber /\
  Double.sign_of (binary_round_aux prec emax sx m e l) = sx.
Proof.
  intros Hm. unfold binary_round_aux.
  pose proof (shr_fexp_nonneg m e l Hm) as H1.
  destruct (shr_fexp prec emax m e l) as [r1 e1]. cbn [fst] in H1.
  pose proof (round_nearest_even_ge (shr_m r1) (loc_of_shr_record r1)) as H2.
  pose proof (shr_fexp_nonneg (round_nearest_even (shr_m r1) (loc_of_shr_record r1)) e1
                loc_Exact ltac:(lia)) as H3.
  destruct (shr_fexp prec emax _ e1 loc_Exact) as [r2 e2]. cbn [fst] in H3.
  destruct (shr_m r2); [done| |lia]. by destruct (_ <=? _).
Qed.

(** Above the smallest exponent a positive number does not round to zero. *)
Lemma binary_round_aux_pos (sx : bool) (m e : Z) (l : location) :
  0 < m -> emin <= e ->
  Double.shape_of (binary_round_aux prec emax sx m e l) = Double.Finite \/
  Double.shape_of (binary_round_aux prec emax sx m e l) = Double.Infinite.
Proof.
  intros Hm He. unfold binary_round_aux.
  pose proof (shr_fexp_pos m e l Hm He) as [H1 He1].
  destruct (shr_fexp prec emax m e l) as [r1 e1]. cbn [fst snd] in H1, He1.
  pose proof (round_nearest_even_ge (shr_m r1) (loc_of_shr_record r1)) as H2.
  pose proof (shr_fexp_pos (round_nearest_even (shr_m r1) (loc_of_shr_record r1)) e1
                loc_Exact ltac:(lia) He1) as [H3 _].
  destruct (shr_fexp prec emax _ e1 loc_Exact) as [r2 e2]. cbn [fst] in H3.
  destruct (shr_m r2); [lia| |lia]. destruct (_ <=? _); auto.
Qed.


Lemma shl_align_spec (mx : positive) (ex ex' : Z) :
  (shl_align mx ex ex').2 = Z.min ex ex' /\
  Z.pos (shl_align mx ex ex').1 = Z.pos mx * 2 ^ (ex - Z.min ex ex').
Proof.
  unfold shl_align. destruct (ex' - ex) as [|d|d] eqn:Hd; cbn [fst snd].
  - replace (Z.min ex ex') with ex by lia. rewrite Z.sub_diag. lia.
  - replace (Z.min ex ex') with ex by lia. rewrite Z.sub_diag. lia.
  - replace (Z.min ex ex') with ex' by lia. split; [done|].
    change (Pos.iter xO mx d) with (shift_pos d mx).
    rewrite shift_pos_correct, Z.pow_pos_fold.
    replace (ex - ex') with (Z.pos d) by lia. lia.
Qed.

Lemma binary_round_sign (sx : bool) (mx : positive) (ex : Z) :
  Double.shape_of (binary_round prec emax sx mx ex) <> Double.NotANumber /\
  Double.sign_of (binary_round prec emax sx mx ex) = sx /\
  (emin <= ex ->
   Double.shape_of (binary_round prec emax sx mx ex) = Double.Finite \/
   Double.shape_of (binary_round prec emax sx mx ex) = Double.Infinite).
Proof.
  unfold binary_round.
  pose proof (shl_align_spec mx ex (fexp prec emax (Z.pos (digits2_pos mx) + ex))) as [He _].
  destruct (shl_align mx ex _) as [mz ez]. cbn [snd] in He.
  destruct (binary_round_aux_sign sx (Z.pos mz) ez loc_Exact ltac:(lia)) as [H1 H2].
  split; [done|]. split; [done|]. intros Hex.
  apply binary_round_aux_pos; [lia|].
  pose proof (fexp_emin (Z.pos (digits2_pos mx) + ex)). lia.
Qed.

(** The sum or difference [m * 2^e] of two numbers, rounded: its sign is
    that of [m], it is never NaN, and it is zero only when [m] is. *)
Lemma binary_normalize_sign (m e : Z) :
  Double.shape_of (binary_normalize prec emax m e false) <> Double.NotANumber /\
  (0 <= m -> Double.sign_of (binary_normalize prec emax m e false) = false) /\
  (m < 0 -> Double.sign_of (binary_normalize prec emax m e false) = true) /\
  (m <> 0 -> emin <= e ->
   Double.shape_of (binary_normalize prec emax m e false) = Double.Finite \/
   Double.shape_of (binary_normalize prec emax m e false) = Double.Infinite).
Proof.
  destruct m as [|p|p]; cbn [binary_normalize].
  - by repeat split.
  - destruct (binary_round_sign false p e) as (H1 & H2 & H3). repeat split; auto; lia.
  - destruct (binary_round_sign true p e) as (H1 & H2 & H3). repeat split; auto; lia.
Qed.

(** The order of two positive numbers in canonical form is that of their
    mantissas once aligned. *)
Lemma compare_aligned (m1 m2 : positive) (e1 e2 : Z) :
  bounded prec emax m1 e1 = true -> bounded prec emax m2 e2 = true ->
  match e1 ?= e2 with
  | Lt => Lt
  | Gt => Gt
  | Eq => Pos.compare_cont Eq m1 m2
  end
  = (Z.pos (shl_align m1 e1 (Z.min e1 e2)).1 ?= Z.pos (shl_align m2 e2 (Z.min e1 e2)).1).
Proof.
  unfold bounded, canonical_mantissa. intros H1 H2.
  apply andb_prop in H1 as [H1 _], H2 as [H2 _].
  apply Z.eqb_eq in H1, H2.
  pose proof (digits2_pos_bounds m1) as [L1 U1].
  pose proof (digits2_pos_bounds m2) as [L2 U2].
  destruct (shl_align_spec m1 e1 (Z.min e1 e2)) as [_ ->].
  destruct (shl_align_spec m2 e2 (Z.min e1 e2)) as [_ ->].
  replace (Z.min e1 (Z.min e1 e2)) with (Z.min e1 e2) by lia.
  replace (Z.min e2 (Z.min e1 e2)) with (Z.min e1 e2) by lia.
  unfold fexp, SpecFloat.emin, prec, emax in *.
  destruct (e1 ?= e2) eqn:Hc.
  - apply Z.compare_eq in Hc. subst e2. rewrite Z.min_id, Z.sub_diag, !Z.mul_1_r. done.
  - rewrite Z.compare_lt_iff in Hc. symmetry. apply Z.compare_lt_iff.
    replace (Z.min e1 e2) with e1 by lia. rewrite Z.sub_diag, Z.mul_1_r.
    assert (Hd2 : Z.pos (digits2_pos m2) = 53) by lia.
    assert (Hd1 : Z.pos (digits2_pos m1) <= 53) by lia.
    rewrite Hd2 in L2. change (2 ^ (53 - 1)) with 4503599627370496 in L2.
    assert (Z.pos m1 < 9007199254740992).
    { eapply Z.lt_le_trans; [exact U1|]. change 9007199254740992 with (2 ^ 53).
      apply Z.pow_le_mono_r; lia. }
    assert (2 <= 2 ^ (e2 - e1)).
    { change 2 with (2 ^ 1) at 1. apply Z.pow_le_mono_r; lia. }
    nia.
  - rewrite Z.compare_gt_iff in Hc. symmetry. apply Z.compare_gt_iff.
    replace (Z.min e1 e2) with e2 by lia. rewrite Z.sub_diag, Z.mul_1_r.
    assert (Hd1 : Z.pos (digits2_pos m1) = 53) by lia.
    assert (Hd2 : Z.pos (digits2_pos m2) <= 53) by lia.
    rewrite Hd1 in L1. change (2 ^ (53 - 1)) with 4503599627370496 in L1.
    assert (Z.pos m2 < 9007199254740992).
    { eapply Z.lt_le_trans; [exact U2|]. change 9007199254740992 with (2 ^ 53).
      apply Z.pow_le_mono_r; lia. }
    assert (2 <= 2 ^ (e1 - e2)).
    { change 2 with (2 ^ 1) at 1. apply Z.pow_le_mono_r; lia. }
    nia.
Qed.

Lemma bounded_emin (m : positive) (e : Z) : bounded prec emax m e = true -> emin <= e.
Proof.
  unfold bounded, canonical_mantissa. intros H. apply andb_prop in H as [H _].
  apply Z.eqb_eq in H. pose proof (fexp_emin (Z.pos (digits2_pos m) + e)). lia.
Qed.


(** *** Signs of sums, differences and products *)

Lemma normalized (m e : Z) :
  (0 <= m -> Double.unsigned (binary_normalize prec emax m e false)) /\
  (0 < m -> emin <= e -> Double.positive (binary_normalize prec emax m e false)).
Proof.
  destruct (binary_normalize_sign m e) as (Hnan & Hpos & _ & Hnz).
  split.
  - intros Hm. specialize (Hpos Hm).
    destruct (binary_normalize prec emax m e false); cbn in *; done.
  - intros Hm He. specialize (Hpos ltac:(lia)). specialize (Hnz ltac:(lia) He).
    destruct (binary_normalize prec emax m e false); cbn in *; try done; by destruct Hnz.
Qed.

Lemma SFsub_sign (x y : spec_float) :
  valid_binary x = true -> valid_binary y = true ->
  x <> S754_nan -> Double.finite y -> SFltb x y = false ->
  Double.nonneg (SF64sub x y) /\ (Double.unsigned x -> Double.unsigned (SF64sub x y)).
Proof.
  intros Vx Vy Hx Hy Hlt. unfold SF64sub.
  destruct x as [sx|sx| |sx mx ex], y as [sy|sy| |sy my ey]; try done;
    unfold SFltb in Hlt; cbn in Hlt |- *.
  - by destruct sx, sy.
  - by destruct sy.
  - by destruct sx.
  - by destruct sx.
  - by destruct sx.
  - pose proof (compare_aligned mx my ex ey Vx Vy) as Hc.
    destruct (shl_align_spec mx ex (Z.min ex ey)) as [_ Hmx].
    destruct (shl_align_spec my ey (Z.min ex ey)) as [_ Hmy].
    set (a := Z.pos (shl_align mx ex (Z.min ex ey)).1) in *.
    set (b := Z.pos (shl_align my ey (Z.min ex ey)).1) in *.
    assert (Ha : 0 < a) by done. assert (Hb : 0 < b) by done.
    assert (Hge : 0 <= cond_Zopp sx a - cond_Zopp sy b).
    { destruct sx, sy; cbn [cond_Zopp]; try done; try lia.
      - assert (Hle : (a ?= b) <> Gt).
        { rewrite <- Hc. intros Hgt. revert Hlt.
          destruct (ex ?= ey); try done. by rewrite Hgt. }
        rewrite Z.compare_gt_iff in Hle. lia.
      - assert (Hle : (a ?= b) <> Lt).
        { rewrite <- Hc. intros Hgt. revert Hlt.
          destruct (ex ?= ey); try done. by rewrite Hgt. }
        rewrite Z.compare_lt_iff in Hle. lia. }
    destruct (normalized (cond_Zopp sx a - cond_Zopp sy b) (Z.min ex ey)) as [Hu _].
    specialize (Hu Hge).
    destruct (binary_normalize _ _ _ _ _); cbn in *; done.
Qed.

Lemma SFadd_sign (x y : spec_float) :
  valid_binary x = true -> valid_binary y = true ->
  Double.nonneg x -> Double.nonneg y ->
  Double.nonneg (SF64add x y) /\
  (Double.unsigned x -> Double.unsigned y -> Double.unsigned (SF64add x y)) /\
  (Double.positive x \/ Double.positive y -> Double.positive (SF64add x y)).
Proof.
  intros Vx Vy Hx Hy. unfold SF64add.
  destruct x as [sx|sx| |sx mx ex], y as [sy|sy| |sy my ey]; try done; cbn in Hx, Hy |- *;
    subst; try (by intuition); try (by destruct sx, sy; intuition).
  destruct (shl_align_spec mx ex (Z.min ex ey)) as [_ Hmx].
  destruct (shl_align_spec my ey (Z.min ex ey)) as [_ Hmy].
  set (a := Z.pos (shl_align mx ex (Z.min ex ey)).1) in *.
  set (b := Z.pos (shl_align my ey (Z.min ex ey)).1) in *.
  assert (Ha : 0 < a) by done. assert (Hb : 0 < b) by done.
  destruct (normalized (a + b) (Z.min ex ey)) as [Hu Hp].
  specialize (Hu ltac:(lia)).
  pose proof (bounded_emin mx ex Vx). pose proof (bounded_emin my ey Vy).
  specialize (Hp ltac:(lia) ltac:(lia)).
  destruct (binary_normalize _ _ _ _ _); cbn in *; done.
Qed.

Lemma SFmul_sign (x y : spec_float) :
  Double.positive x -> Double.positive y -> Double.unsigned (SF64mul x y).
Proof.
  intros Hx Hy. unfold SF64mul.
  destruct x as [sx|sx| |sx mx ex], y as [sy|sy| |sy my ey]; try done; cbn in Hx, Hy |- *;
    subst; try done.
  destruct (binary_round_aux_sign false (Z.pos (mx * my)) (ex + ey) loc_Exact ltac:(lia))
    as [H1 H2].
  destruct (binary_round_aux _ _ _ _ _ _); cbn in *; done.
Qed.

Lemma SFsub_diag (x : spec_float) : Double.finite x -> Double.shape_of (SF64sub x x) = Double.Zero.
Proof.
  destruct x as [sx|sx| |sx mx ex]; try done; intros _; cbn.
  - by destruct sx.
  - by rewrite Z.sub_diag.
Qed.


(** *** The primitive operations *)

Lemma leb_0 (x : float) : (0 <=? x)%float = true <-> Double.nonneg (Prim2SF x).
Proof.
  rewrite FloatAxioms.leb_spec. change (Prim2SF 0) with (S754_zero false). unfold SFleb.
  destruct (Prim2SF x) as [s|s| |s m e]; cbn; try done; destruct s; done.
Qed.

Lemma ltb_0 (x : float) : (0 <? x)%float = true <-> Double.positive (Prim2SF x).
Proof.
  rewrite FloatAxioms.ltb_spec. change (Prim2SF 0) with (S754_zero false). unfold SFltb.
  destruct (Prim2SF x) as [s|s| |s m e]; cbn; try done; destruct s; done.
Qed.

Lemma eqb_0 (x : float) :
  (x =? 0)%float = true <-> Double.shape_of (Prim2SF x) = Double.Zero.
Proof.
  rewrite FloatAxioms.eqb_spec. change (Prim2SF 0) with (S754_zero false). unfold SFeqb.
  destruct (Prim2SF x) as [s|s| |s m e]; cbn; try done; destruct s; done.
Qed.

Lemma SFcompare_refl (s : spec_float) : s <> S754_nan -> SFcompare s s = Some Eq.
Proof.
  destruct s as [s|s| |s m e]; try done; intros _; cbn; try (by destruct s).
  rewrite Z.compare_refl, Pos.compare_cont_refl. by destruct s.
Qed.

Lemma is_nan_spec (x : float) : is_nan x = true <-> Prim2SF x = S754_nan.
Proof.
  unfold is_nan. rewrite FloatAxioms.eqb_spec. unfold SFeqb.
  destruct (Prim2SF x) as [s|s| |s m e] eqn:Hs; [| |done|];
    rewrite SFcompare_refl by done; done.
Qed.

Lemma is_finite_spec (x : float) : is_finite x = true <-> Double.finite (Prim2SF x).
Proof.
  unfold is_finite, is_nan, is_infinity. rewrite !FloatAxioms.eqb_spec, FloatAxioms.abs_spec.
  change (Prim2SF infinity) with (S754_infinity false). unfold SFeqb.
  destruct (Prim2SF x) as [s|s| |s m e] eqn:Hs; [| |done|];
    rewrite SFcompare_refl by done; cbn; try done; by destruct s.
Qed.

Lemma not_nan (x : float) : Prim2SF x <> S754_nan -> is_nan x = false.
Proof. intros Hx. destruct (is_nan x) eqn:Hn; [|done]. by apply is_nan_spec in Hn. Qed.

Lemma at_least_zero_not_nan (x : float) : (0 <=? x)%float = true -> is_nan x = false.
Proof.
  rewrite leb_0. intros Hx. apply not_nan. by destruct (Prim2SF x).
Qed.

Lemma unsigned_at_least_zero (x : float) : JS.unsigned x -> (0 <=? x)%float = true.
Proof. unfold JS.unsigned. rewrite leb_0. by destruct (Prim2SF x). Qed.

Lemma above_zero_unsigned (x : float) : (0 <? x)%float = true -> JS.unsigned x.
Proof. unfold JS.unsigned. rewrite ltb_0. by destruct (Prim2SF x). Qed.

Lemma above_zero_at_least (x : float) : (0 <? x)%float = true -> (0 <=? x)%float = true.
Proof. intros Hx. by apply unsigned_at_least_zero, above_zero_unsigned. Qed.


Lemma above_zero_not_zero (x : float) : (0 <? x)%float = true -> (x =? 0)%float = false.
Proof.
  rewrite ltb_0. intros Hx. destruct (x =? 0)%float eqn:Hz; [|done].
  apply eqb_0 in Hz. by destruct (Prim2SF x).
Qed.

(** The zero with the sign bit clear is 0. *)
Lemma unsigned_zero (x : float) : JS.unsigned x -> (x =? 0)%float = true -> x = 0%float.
Proof.
  unfold JS.unsigned. rewrite eqb_0. intros Hx Hz. apply Prim2SF_inj.
  change (Prim2SF 0) with (S754_zero false).
  destruct (Prim2SF x) as [s|s| |s m e]; try done. cbn in Hx. by subst.
Qed.

(** What is at least 0 is not below what is at most 0. *)
Lemma not_below (b t : float) :
  (0 <=? b)%float = true -> (t <=? 0)%float = true -> (b <? t)%float = false.
Proof.
  rewrite leb_0. rewrite (FloatAxioms.leb_spec t), FloatAxioms.ltb_spec.
  change (Prim2SF 0) with (S754_zero false). unfold SFleb, SFltb.
  destruct (Prim2SF b) as [sb|sb| |sb mb eb], (Prim2SF t) as [st|st| |st mt et];
    cbn; try done; destruct sb, st; done.
Qed.

Lemma not_below_zero (b : float) : (0 <=? b)%float = true -> (b <? 0)%float = false.
Proof. intros Hb. by apply not_below. Qed.

(** [b - t] when [b] is not below [t]: at least 0, and with the sign bit
    clear when [b] has it clear. *)
Lemma sub_sign (b t : float) :
  is_nan b = false -> is_finite t = true -> (b <? t)%float = false ->
  (0 <=? b - t)%float = true /\ (JS.unsigned b -> JS.unsigned (b - t)).
Proof.
  intros Hb Ht Hlt. unfold JS.unsigned. rewrite leb_0, FloatAxioms.sub_spec.
  apply is_finite_spec in Ht. rewrite FloatAxioms.ltb_spec in Hlt.
  apply SFsub_sign; try done; try apply Prim2SF_valid.
  intros Hnan. apply is_nan_spec in Hnan. congruence.
Qed.

Lemma add_sign (a b : float) :
  (0 <=? a)%float = true -> (0 <=? b)%float = true ->
  (0 <=? a + b)%float = true /\
  (JS.unsigned a -> JS.unsigned b -> JS.unsigned (a + b)) /\
  ((0 <? a)%float = true \/ (0 <? b)%float = true -> (0 <? a + b)%float = true).
Proof.
  unfold JS.unsigned. rewrite !leb_0, !ltb_0, FloatAxioms.add_spec.
  intros Ha Hb. apply SFadd_sign; try done; apply Prim2SF_valid.
Qed.

Lemma mul_sign (p q : float) :
  (0 <? p)%float = true -> (0 <? q)%float = true -> JS.unsigned (p * q).
Proof.
  unfold JS.unsigned. rewrite !ltb_0, FloatAxioms.mul_spec. apply SFmul_sign.
Qed.

(** A finite number less itself is zero. *)
Lemma sub_diag (x : float) : is_finite x = true -> (x - x =? 0)%float = true.
Proof.
  rewrite is_finite_spec, eqb_0, FloatAxioms.sub_spec. apply SFsub_diag.
Qed.

(** [0 + q] is [q], unless [q] is -0. *)
Lemma zero_add (q : float) : (0 <? q)%float = true -> (0 + q)%float = q.
Proof.
  rewrite ltb_0. intros Hq. apply Prim2SF_inj. rewrite FloatAxioms.add_spec.
  change (Prim2SF 0) with (S754_zero false).
  by destruct (Prim2SF q) as [s|s| |s m e].
Qed.

(** A factor of a finite product with a factor above zero is finite. *)
Lemma finite_factor (p q : float) :
  (0 <? p)%float = true -> is_finite (p * q) = true -> is_finite q = true.
Proof.
  rewrite ltb_0, !is_finite_spec, FloatAxioms.mul_spec.
  destruct (Prim2SF p) as [sp|sp| |sp mp ep], (Prim2SF q) as [sq|sq| |sq mq eq]; done.
Qed.

(** *** Numbers in the database *)

Lemma bind_unsigned (x : float) : JS.unsigned x -> Sqlite.bind x = JS.Number x.
Proof.
  intros Hx. unfold Sqlite.bind.
  rewrite at_least_zero_not_nan by (by apply unsigned_at_least_zero).
  destruct (x =? 0)%float eqn:Hz; [|done]. by rewrite (unsigned_zero x).
Qed.

Lemma real_at_least_zero (x : float) :
  (0 <=? x)%float = true -> Sqlite.real x = JS.Number x.
Proof. intros Hx. unfold Sqlite.real. by rewrite at_least_zero_not_nan. Qed.

Lemma bind_finite (x : float) :
  is_finite x = true ->
  exists y, Sqlite.bind x = JS.Number y /\ is_finite y = true /\
            (forall b, (b <? y)%float = (b <? x)%float) /\
            (forall b, (y <? b)%float = (x <? b)%float).
Proof.
  intros Hx. unfold Sqlite.bind.
  assert (Hnan : is_nan x = false).
  { apply not_nan. apply is_finite_spec in Hx. by destruct (Prim2SF x). }
  rewrite Hnan. destruct (x =? 0)%float eqn:Hz.
  - exists 0%float. split; [done|]. split; [done|].
    apply eqb_0 in Hz. split; intros b; rewrite !FloatAxioms.ltb_spec;
      change (Prim2SF 0) with (S754_zero false);
      destruct (Prim2SF x) as [s|s| |s m e]; try done;
      unfold SFltb; by destruct (Prim2SF b) as [sb|sb| |sb mb eb].
  - by exists x.
Qed.

(** *** Numbers in text *)

(** [Number::toString], [parseInt] and [parseFloat] on some values. *)
Lemma to_string_examples :
  JS.to_string 0.5 = "0.5"%string /\ JS.to_string 100000 = "100000"%string /\
  JS.to_string 170.11 = "170.11"%string /\ JS.to_string (-1) = "-1"%string /\
  JS.to_string 1e21 = "1e+21"%string /\ JS.to_string 5e-7 = "5e-7"%string /\
  JS.to_string 123456789012345680000 = "123456789012345680000"%string /\
  JS.to_string 0.000001 = "0.000001"%string /\
  JS.to_string nan = "NaN"%string /\ JS.to_string neg_infinity = "-Infinity"%string.
Proof. vm_compute. repeat split. Qed.

Lemma parse_examples :
  JS.parseInt (JS.JString "12px") = 12%float /\
  JS.parseInt (JS.JString "  -42") = (-42)%float /\
  JS.parseInt (JS.JString "0x1A") = 26%float /\
  JS.parseInt (JS.JString "abc") = nan /\
  JS.parseInt (JS.JString "") = nan /\
  JS.parseInt (JS.JNumber 0.5) = 0%float /\
  JS.parseInt (JS.JNumber 1e21) = 1%float /\
  JS.parseInt (JS.JNumber 5e-7) = 5%float /\
  JS.parseFloat (JS.JString "170.11") = 170.11%float /\
  JS.parseFloat (JS.JString "1e3") = 1000%float /\
  JS.parseFloat (JS.JString ".5x") = 0.5%float /\
  JS.parseFloat (JS.JString "-Infinity") = neg_infinity /\
  JS.parseFloat (JS.JString "e5") = nan /\
  JS.parseFloat (JS.JNumber 33333.333333333336) = 33333.333333333336%float.
Proof. apply (bool_decide_unpack _). vm_compute. exact I. Qed.

(** ** The statement queue *)

Section Queue.

Variables (userId : Z) (sym type : string) (price qty : float) (now : string).

Lemma run_in_order (record_fails : bool) (fuel : nat) (d : Sqlite.database)
    (q : list Sqlite.issued) (p : outcome) :
  Sqlite.run userId sym type price qty now record_fails [] (S fuel) (Sqlite.Call d q p) =
    match q with
    | [] => Sqlite.Call d q p
    | s :: rest =>
        Sqlite.run userId sym type price qty now record_fails [] fuel
          (Sqlite.step userId sym type price qty now record_fails s (Sqlite.Call d rest p))
    end.
Proof. by destruct q. Qed.

Lemma run_unfold (record_fails : bool) (order : list nat) (fuel : nat)
    (d : Sqlite.database) (q : list Sqlite.issued) (p : outcome) :
  Sqlite.run userId sym type price qty now record_fails order (S fuel) (Sqlite.Call d q p) =
    match Sqlite.pick (hd O order) q with
    | None => Sqlite.Call d q p
    | Some (s, rest) =>
        Sqlite.run userId sym type price qty now record_fails (tl order) fuel
          (Sqlite.step userId sym type price qty now record_fails s (Sqlite.Call d rest p))
    end.
Proof. reflexivity. Qed.

Lemma run_done (record_fails : bool) (order : list nat) (fuel : nat)
    (d : Sqlite.database) (p : outcome) :
  Sqlite.run userId sym type price qty now record_fails order fuel (Sqlite.Call d [] p)
  = Sqlite.Call d [] p.
Proof. destruct fuel; [done|]. cbn. by destruct (hd O order). Qed.

End Queue.

Lemma pick_single (n : nat) (s : Sqlite.issued) : Sqlite.pick n [s] = Some (s, []).
Proof. by destruct n. Qed.

Lemma pick_serialized (n : nat) (s : Sqlite.issued) (rest : list Sqlite.issued) :
  Sqlite.serialized s = true -> Sqlite.pick n (s :: rest) = Some (s, rest).
Proof. intros Hs. destruct n, rest; cbn; by rewrite ?Hs. Qed.

(** ** The SQLite call under every completion order *)

Lemma alter_present {K A} `{Countable K} (f : A -> A) (k : K) (x : A) (m : gmap K A) :
  m !! k = Some x -> alter f k m = <[k := f x]> m.
Proof.
  intros Hk. apply map_eq. intros j. destruct (decide (k = j)) as [->|Hne].
  - by rewrite lookup_alter_eq, lookup_insert_eq, Hk.
  - by rewrite lookup_alter_ne, lookup_insert_ne.
Qed.

(** Evaluation that leaves the maps and the arithmetic alone, and the run
    of the statement queue one statement at a time, with the outcome of
    each test taken from the context. *)
Ltac evaluate :=
  cbn -[lookup alter insert delete PrimFloat.add PrimFloat.sub PrimFloat.mul PrimFloat.div
        PrimFloat.ltb PrimFloat.leb PrimFloat.eqb is_nan JS.lt Sqlite.bind Sqlite.minus
        Sqlite.plus bool_decide Sqlite.next_id Z.add Z.sub Sqlite.run Sqlite.pick].

Ltac use_tests :=
  repeat match goal with
    | H : _ = _ |- _ => rewrite H
    | |- _ => rewrite lookup_alter_eq
    end.

(** The statement that completes next, one case for each that may. *)
Ltac choose :=
  repeat first
    [ rewrite pick_single
    | rewrite pick_serialized by reflexivity
    | match goal with
      | |- context [Sqlite.pick ?n (_ :: _ :: _)] =>
          is_var n; destruct n;
          cbn [Sqlite.pick Sqlite.serialized Sqlite.db_run Sqlite.db_get orb]
      end ].

Ltac advance :=
  match goal with
  | |- context [Sqlite.run _ _ _ _ _ _ _ ?o (S _) (Sqlite.Call _ (_ :: _) _)] =>
      rewrite run_unfold;
      let n := fresh "n" in
      let o' := fresh "order" in
      generalize (hd O o) (tl o); intros n o'; try clear o;
      choose; unfold Sqlite.step; evaluate; repeat (progress (use_tests; evaluate))
  end.

Ltac finish :=
  rewrite ?run_done;
  unfold Sqlite.in_any_order, Sqlite.unheld, Sqlite.written, Sqlite.bought, Sqlite.sold,
    Sqlite.set_portfolios;
  evaluate; use_tests; evaluate.

Ltac answer :=
  first [ done | by left | by right
        | by exists true, true | by exists true, false
        | by exists false, true | by exists false, false
        | by exists true | by exists false ].

Ltac conclude := split; [done | split; [done | first [answer | split; answer]]].

Section Orders.

Variables (userId : Z) (sym type : string) (price qty : float) (now : string).

(** Whatever the order in which the statements complete, the call ends
    with an empty queue, outside a transaction, and in one of the ways
    [in_any_order] lists. *)
Lemma executeTrade_in_any_order (record_fails : bool) (order : list nat)
    (t : Sqlite.tables) :
  let c := Sqlite.executeTrade userId sym type price qty now record_fails order
             (Sqlite.Database t None) in
  Sqlite.queue c = [] /\
  Sqlite.at_begin (Sqlite.conn c) = None /\
  Sqlite.in_any_order userId sym type price qty now record_fails t
    (Sqlite.promise c) (Sqlite.current (Sqlite.conn c)).
Proof.
  unfold Sqlite.executeTrade, Sqlite.start.
  destruct t as [us pfs txs]. cbv zeta.
  destruct (us !! userId) as [u|] eqn:Hu.
  2: { repeat advance. finish. conclude. }
  destruct (bool_decide (type = "BUY"%string)) eqn:Htype.
  - destruct (JS.lt (balance u) (JS.Number (Sqlite.total price qty))) eqn:Hfunds.
    { repeat advance. finish. conclude. }
    destruct (pfs !! (userId, sym)) as [pf|] eqn:Hpf; destruct record_fails;
      repeat advance; finish; rewrite ?(alter_present _ _ pf) by done; conclude.
  - destruct (pfs !! (userId, sym)) as [pf|] eqn:Hpf.
    + destruct (JS.lt (quantity pf) (JS.Number qty)) eqn:Hheld.
      { destruct record_fails; repeat advance; finish; conclude. }
      destruct (JS.to_number (quantity pf) - qty =? 0)%float eqn:Hzero; destruct record_fails;
        repeat advance; finish; rewrite ?(alter_present _ _ pf) by done; conclude.
    + destruct record_fails; repeat advance; finish; conclude.
Qed.

End Orders.

(** The statement at the front of the queue completes. *)
Ltac advance_in_order :=
  match goal with
  | |- context [Sqlite.run _ _ _ _ _ _ _ [] (S _) (Sqlite.Call _ (_ :: _) _)] =>
      rewrite run_in_order;
      unfold Sqlite.step; evaluate; repeat (progress (use_tests; evaluate))
  end.

Section InOrder.

Variables (userId : Z) (sym type : string) (price qty : float) (now : string).

(** When the statements complete in the order in which they were issued
    the call is its closed form. *)
Lemma executeTrade_in_order (record_fails : bool) (t : Sqlite.tables) :
  let c := Sqlite.executeTrade userId sym type price qty now record_fails []
             (Sqlite.Database t None) in
  Sqlite.queue c = [] /\
  Sqlite.at_begin (Sqlite.conn c) = None /\
  (Sqlite.promise c, Sqlite.current (Sqlite.conn c)) =
    Sqlite.net_effect userId sym type price qty now record_fails t.
Proof.
  unfold Sqlite.executeTrade, Sqlite.start, Sqlite.net_effect.
  destruct t as [us pfs txs]. cbv zeta.
  destruct (us !! userId) as [u|] eqn:Hu.
  2: { repeat advance_in_order. finish. done. }
  destruct (bool_decide (type = "BUY"%string)) eqn:Htype.
  - destruct (JS.lt (balance u) (JS.Number (Sqlite.total price qty))) eqn:Hfunds.
    { repeat advance_in_order. finish. done. }
    destruct (pfs !! (userId, sym)) as [pf|] eqn:Hpf; destruct record_fails;
      repeat advance_in_order; finish; rewrite ?(alter_present _ _ pf) by done; done.
  - destruct (pfs !! (userId, sym)) as [pf|] eqn:Hpf.
    + destruct (JS.lt (quantity pf) (JS.Number qty)) eqn:Hheld.
      { destruct record_fails; repeat advance_in_order; finish; done. }
      destruct (JS.to_number (quantity pf) - qty =? 0)%float eqn:Hzero; destruct record_fails;
        repeat advance_in_order; finish; rewrite ?(alter_present _ _ pf) by done; done.
    + destruct record_fails; repeat advance_in_order; finish; done.
Qed.

End InOrder.

(** ** The call on either backend *)

Lemma executeTrade_transient (w : backend) (record_fails : bool) (order : list nat)
    (userId : Z) (sym type : string) (price qty : float) (now : string) :
  useMemory w = true ->
  executeTrade w record_fails order userId sym type price qty now =
    let r := Memory.executeTrade (memoryStore w) userId sym type price qty now in
    (fst r, Backend true (snd r) (db w)).
Proof. unfold executeTrade. by intros ->. Qed.

Lemma executeTrade_closed_form (w : backend) (record_fails : bool) (order : list nat)
    (userId : Z) (sym type : string) (price qty : float) (now : string) :
  idle w -> useMemory w = true \/ order = [] ->
  executeTrade w record_fails order userId sym type price qty now =
    closed_form w record_fails userId sym type price qty now.
Proof.
  intros Hidle Horder. destruct (useMemory w) eqn:Hmode.
  - rewrite executeTrade_transient by done.
    unfold closed_form, Memory.executeTrade, account, positions, commit, applied, bought,
      recorded, stored, debited, credited, first_quantity, first_average, write_fails,
      returned, next_record_id.
    rewrite Hmode. destruct w as [mode m d]. cbn in Hmode. subst mode. evaluate.
    destruct (find_user userId (users m)) as [u|] eqn:Hu; evaluate; [|done].
    case_bool_decide; evaluate.
    + destruct (JS.lt _ _); evaluate; [done|].
      destruct (portfolios m !! (userId, sym)); done.
    + destruct (portfolios m !! (userId, sym)) as [p|]; evaluate; [|done].
      unfold sold, positions, stored. evaluate.
      destruct (JS.lt _ _); [done|]. by destruct (_ =? _)%float.
  - destruct Horder as [ ? | -> ]; [done|].
    destruct w as [mode m [t b]]. unfold idle in Hidle. cbn in Hmode, Hidle. subst mode b.
    pose proof (executeTrade_in_order userId sym type price qty now record_fails t) as Hs.
    cbv zeta in Hs. destruct Hs as (_ & Hb & Heq).
    unfold executeTrade. cbn [useMemory db memoryStore].
    destruct (Sqlite.executeTrade _ _ _ _ _ _ _ _ _) as [[t' b'] q o].
    cbn [Sqlite.conn Sqlite.promise Sqlite.current Sqlite.at_begin] in *. subst b'.
    apply (f_equal fst) in Heq as Ho. apply (f_equal snd) in Heq as Ht.
    cbn [fst snd] in Ho, Ht. subst o t'. clear Heq.
    unfold closed_form, Sqlite.net_effect, Sqlite.written, Sqlite.bought, Sqlite.sold,
      Sqlite.record, Sqlite.debit, Sqlite.credit, Sqlite.total, account, positions, commit,
      applied, bought, recorded, stored, debited, credited, first_quantity, first_average,
      write_fails, returned, next_record_id.
    evaluate.
    destruct (Sqlite.users_table t !! userId) as [u|] eqn:Hu; evaluate; [|done].
    case_bool_decide; evaluate.
    + destruct (JS.lt _ _); evaluate; [done|]. destruct record_fails; evaluate; [done|].
      rewrite (alter_present _ _ u) by done.
      destruct (Sqlite.portfolios_table t !! (userId, sym)); done.
    + destruct (Sqlite.portfolios_table t !! (userId, sym)) as [p|]; evaluate; [|done].
      destruct (JS.lt _ _); evaluate; [done|]. destruct record_fails; evaluate; [done|].
      rewrite (alter_present _ _ u) by done.
      unfold sold, positions, stored. evaluate. by destruct (_ =? _)%float.
Qed.

Lemma applied_nothing (userId : Z) (u : user) (bal : JS.value) (pf : gmap key holding)
    (tx : transaction) (w : backend) :
  idle w -> applied false false false userId u bal pf tx w = w.
Proof.
  unfold idle, applied. destruct w as [[] [us ps txs] [[ut pt tt] b]]; cbn; by intros ->.
Qed.

Lemma executeTrade_may_end (w : backend) (record_fails : bool) (order : list nat)
    (userId : Z) (sym type : string) (price qty : float) (now : string) :
  idle w ->
  may_end w record_fails userId sym type price qty now
    (executeTrade w record_fails order userId sym type price qty now).
Proof.
  intros Hidle. destruct (useMemory w) eqn:Hmode.
  - rewrite executeTrade_closed_form by auto.
    unfold may_end, closed_form, passed, unheld, write_fails. rewrite Hmode. cbn [negb andb].
    destruct (account w userId); [|done].
    repeat first [case_bool_decide | case_match]; try done; by (split; [left|]).
  - destruct w as [mode m [t b]]. unfold idle in Hidle. cbn in Hmode, Hidle. subst mode b.
    pose proof (executeTrade_in_any_order userId sym type price qty now record_fails
                  order t) as Hs.
    cbv zeta in Hs. destruct Hs as (_ & Hb & Hany).
    unfold executeTrade. cbn [useMemory db memoryStore].
    destruct (Sqlite.executeTrade _ _ _ _ _ _ _ _ _) as [[t' b'] q o].
    cbn [Sqlite.conn Sqlite.promise Sqlite.current Sqlite.at_begin] in *. subst b'.
    unfold may_end, passed, unheld, Sqlite.in_any_order, Sqlite.unheld, Sqlite.written,
      Sqlite.bought, Sqlite.sold, Sqlite.record, Sqlite.debit, Sqlite.credit, Sqlite.total,
      account, positions, commit, applied, bought, sold, recorded, stored, debited, credited,
      first_quantity, first_average, write_fails, returned, next_record_id in *.
    destruct t as [us pfs txs]. revert Hany. evaluate.
    destruct (us !! userId) as [u|] eqn:Hu; [|by intros [-> ->]].
    rewrite ?(alter_present _ _ u) by done.
    case_bool_decide; destruct record_fails; evaluate;
      destruct (pfs !! (userId, sym)) as [pf|] eqn:Hpf; evaluate;
      repeat match goal with
        | |- context [JS.lt ?a ?b] => destruct (JS.lt a b)
        | |- context [(?a =? ?b)%float] => destruct (a =? b)%float
        end; naive_solver.
Qed.

Lemma find_user_update_first (userId j : Z) (b : JS.value) (us : list user) :
  find_user j (update_first userId (set_balance b) us) =
    if bool_decide (j = userId) then set_balance b <$> find_user j us
    else find_user j us.
Proof.
  unfold find_user. induction us as [|v us IH]; cbn.
  - by case_bool_decide.
  - destruct (bool_decide (id v = userId)) eqn:Hv; cbn.
    + apply bool_decide_eq_true in Hv. subst userId.
      destruct (bool_decide (id v = j)) eqn:Hj.
      * apply bool_decide_eq_true in Hj. subst j.
        by rewrite bool_decide_eq_true_2.
      * apply bool_decide_eq_false in Hj.
        by rewrite (bool_decide_eq_false_2 (j = id v)).
    + apply bool_decide_eq_false in Hv.
      destruct (bool_decide (id v = j)) eqn:Hj; [|done].
      apply bool_decide_eq_true in Hj. subst j.
      by rewrite bool_decide_eq_false_2.
Qed.

Lemma Forall_update_first (P : user -> Prop) (userId : Z) (b : JS.value) (u : user)
    (us : list user) :
  find_user userId us = Some u -> P (set_balance b u) -> Forall P us ->
  Forall P (update_first userId (set_balance b) us).
Proof.
  unfold find_user. intros Hu Hb HP. induction HP as [|v us Hv HP IH]; cbn in *; [done|].
  destruct (bool_decide (id v = userId)).
  - injection Hu as ->. by constructor.
  - constructor; [done|]. by apply IH.
Qed.

Section Applied.

Variables (balance_too portfolio_too record_too : bool) (userId : Z) (u : user) (bal : JS.value)
  (pf : gmap key holding) (tx : transaction) (w : backend).

Lemma applied_mode :
  useMemory (applied balance_too portfolio_too record_too userId u bal pf tx w)
  = useMemory w.
Proof. unfold applied. by destruct (useMemory w). Qed.

Lemma applied_idle :
  idle w -> idle (applied balance_too portfolio_too record_too userId u bal pf tx w).
Proof. unfold applied, idle. by destruct (useMemory w). Qed.

Lemma applied_positions :
  positions (applied balance_too portfolio_too record_too userId u bal pf tx w)
  = if portfolio_too then pf else positions w.
Proof. unfold applied, positions. by destruct (useMemory w). Qed.

Lemma applied_ledger :
  ledger (applied balance_too portfolio_too record_too userId u bal pf tx w)
  = if record_too then ledger w ++ [tx] else ledger w.
Proof. unfold applied, ledger. by destruct (useMemory w). Qed.

Lemma applied_account (j : Z) :
  account w userId = Some u ->
  account (applied balance_too portfolio_too record_too userId u bal pf tx w) j =
    if balance_too && bool_decide (j = userId) then Some (set_balance bal u)
    else account w j.
Proof.
  unfold applied, account.
  destruct (useMemory w), balance_too; cbn [useMemory memoryStore users db andb]; try done.
  - intros Hu. rewrite find_user_update_first. case_bool_decide; [|done].
    subst j. by rewrite Hu.
  - intros _. cbn. case_bool_decide.
    + subst j. by rewrite lookup_insert_eq.
    + by rewrite lookup_insert_ne.
Qed.

Lemma applied_every_account (P : user -> Prop) :
  account w userId = Some u -> P (set_balance bal u) ->
  every_account P w ->
  every_account P (applied balance_too portfolio_too record_too userId u bal pf tx w).
Proof.
  unfold applied, account, every_account.
  destruct (useMemory w), balance_too; cbn [useMemory memoryStore users db]; try done.
  - apply Forall_update_first.
  - intros _ Hb HP. cbn. by apply map_Forall_insert_2.
Qed.

End Applied.

Section Commit.

Variables (userId : Z) (u : user) (bal : JS.value) (pf : gmap key holding) (tx : transaction)
  (w : backend).

Lemma commit_mode : useMemory (commit userId u bal pf tx w) = useMemory w.
Proof. apply applied_mode. Qed.

Lemma commit_idle : idle w -> idle (commit userId u bal pf tx w).
Proof. apply applied_idle. Qed.

Lemma commit_positions : positions (commit userId u bal pf tx w) = pf.
Proof. apply applied_positions. Qed.

Lemma commit_ledger : ledger (commit userId u bal pf tx w) = ledger w ++ [tx].
Proof. apply applied_ledger. Qed.

Lemma commit_account (j : Z) :
  account w userId = Some u ->
  account (commit userId u bal pf tx w) j =
    if bool_decide (j = userId) then Some (set_balance bal u) else account w j.
Proof. apply applied_account. Qed.

Lemma commit_every_account (P : user -> Prop) :
  account w userId = Some u -> P (set_balance bal u) ->
  every_account P w -> every_account P (commit userId u bal pf tx w).
Proof. apply applied_every_account. Qed.

End Commit.

(** The cases of [may_end] for one call, in the context. *)
Ltac ends w record_fails order userId sym type price qty now Hidle :=
  let Hend := fresh "Hend" in
  pose proof (executeTrade_may_end w record_fails order userId sym type price qty now Hidle)
    as Hend;
  unfold may_end, passed, unheld in Hend;
  destruct (executeTrade w record_fails order userId sym type price qty now) as [?o ?w'];
  cbn [fst snd] in *.

Ltac unpack :=
  repeat first
    [ progress destruct_and?
    | progress destruct_or?
    | match goal with H : ex _ |- _ => destruct H end ];
  simplify_eq; cbn [fst snd] in *.

(** Every call settles, and an idle connection is idle again afterwards,
    whatever the order of completion. *)
Lemma executeTrade_settles (w : backend) (record_fails : bool) (order : list nat)
    (userId : Z) (sym type : string) (price qty : float) (now : string) :
  idle w ->
  fst (executeTrade w record_fails order userId sym type price qty now) <> Pending /\
  idle (snd (executeTrade w record_fails order userId sym type price qty now)).
Proof.
  intros Hidle. ends w record_fails order userId sym type price qty now Hidle.
  destruct (account w userId); [|by injection Hend as -> ->].
  repeat first [case_bool_decide | case_match]; unpack;
    split; first [done | by apply applied_idle | by apply commit_idle].
Qed.


(** ** Numbers in the store *)

Lemma bind_at_least_zero (t : float) :
  (0 <=? t)%float = true ->
  exists y, Sqlite.bind t = JS.Number y /\ (0 <=? y)%float = true.
Proof.
  intros Ht. unfold Sqlite.bind. rewrite at_least_zero_not_nan by done.
  destruct (t =? 0)%float; [by exists 0%float | by exists t].
Qed.

Lemma stored_unsigned (w : backend) (x : float) : JS.unsigned x -> stored w x = JS.Number x.
Proof. intros Hx. unfold stored. destruct (useMemory w); [done|]. by apply bind_unsigned. Qed.

Lemma stored_above_zero (w : backend) (x : float) :
  (0 <? x)%float = true -> stored w x = JS.Number x.
Proof. intros Hx. by apply stored_unsigned, above_zero_unsigned. Qed.

Lemma first_quantity_above_zero (w : backend) (qty : float) :
  (0 <? qty)%float = true -> first_quantity w qty = JS.Number qty.
Proof.
  intros Hq. unfold first_quantity. destruct (useMemory w).
  - by rewrite zero_add.
  - by apply bind_unsigned, above_zero_unsigned.
Qed.

Lemma unsigned_not_nan (x : float) : JS.unsigned x -> is_nan x = false.
Proof. intros Hx. by apply at_least_zero_not_nan, unsigned_at_least_zero. Qed.

(** The balance after a purchase that passes the funds test. *)
Lemma debited_at_least_zero (w : backend) (b : JS.value) (t : float) :
  JS.at_least_zero b = true -> is_finite t = true -> JS.lt b (JS.Number t) = false ->
  JS.at_least_zero (debited w b t) = true.
Proof.
  destruct b as [x|]; [|done]. unfold JS.lt. cbn. intros Hx Ht Hlt.
  unfold debited. destruct (useMemory w); cbn.
  - apply sub_sign; try done. by apply at_least_zero_not_nan.
  - destruct (bind_finite t Ht) as (y & -> & Hy & Hby & _). unfold Sqlite.minus.
    assert (Hsub : (0 <=? x - y)%float = true).
    { apply sub_sign; try done; [by apply at_least_zero_not_nan | by rewrite Hby]. }
    by rewrite real_at_least_zero.
Qed.

Lemma debited_unsigned (w : backend) (b t : float) :
  JS.unsigned b -> JS.unsigned t -> is_finite t = true -> (b <? t)%float = false ->
  debited w (JS.Number b) t = JS.Number (b - t) /\ JS.unsigned (b - t).
Proof.
  intros Hb Ht Hfin Hlt.
  destruct (sub_sign b t) as [Hsub Hsign]; try done; [by apply unsigned_not_nan|].
  split; [|by apply Hsign]. unfold debited. destruct (useMemory w); [done|].
  rewrite bind_unsigned by done. unfold Sqlite.minus. by rewrite real_at_least_zero.
Qed.

(** The balance after a sale. *)
Lemma credited_at_least_zero (w : backend) (b : JS.value) (t : float) :
  JS.at_least_zero b = true -> (0 <=? t)%float = true ->
  JS.at_least_zero (credited w b t) = true.
Proof.
  destruct b as [x|]; [|done]. cbn. intros Hx Ht.
  unfold credited. destruct (useMemory w); cbn.
  - by apply add_sign.
  - destruct (bind_at_least_zero t Ht) as (y & -> & Hy). unfold Sqlite.plus.
    assert (Hadd : (0 <=? x + y)%float = true) by by apply add_sign.
    by rewrite real_at_least_zero.
Qed.

Lemma credited_unsigned (w : backend) (b t : float) :
  JS.unsigned b -> JS.unsigned t ->
  credited w (JS.Number b) t = JS.Number (b + t) /\ JS.unsigned (b + t).
Proof.
  intros Hb Ht.
  destruct (add_sign b t) as (Hadd & Hsign & _); try (by apply unsigned_at_least_zero).
  split; [|by apply Hsign]. unfold credited. destruct (useMemory w); [done|].
  rewrite bind_unsigned by done. unfold Sqlite.plus. by rewrite real_at_least_zero.
Qed.

(** The same for a balance that is at least 0 and an amount above 0. *)
Lemma credited_above_zero (w : backend) (b t : float) :
  (0 <=? b)%float = true -> JS.unsigned t ->
  credited w (JS.Number b) t = JS.Number (b + t).
Proof.
  intros Hb Ht.
  destruct (add_sign b t) as (Hadd & _); try done; [by apply unsigned_at_least_zero|].
  unfold credited. destruct (useMemory w); [done|].
  rewrite bind_unsigned by done. unfold Sqlite.plus. by rewrite real_at_least_zero.
Qed.

(** * The claims *)

(** Concrete equalities are decided by evaluation. *)
Ltac by_evaluation := apply (bool_decide_unpack _); vm_compute; exact I.


(** C1.  On the SQLite backend a rejected call can leave a trace.  [demo]
    holds no XYZ and sells 1 XYZ @ 10.00: the INSERT into [transactions] is
    issued together with the query on [portfolios], outside [db.serialize].
    When the INSERT completes before the query, the COMMIT issued by its
    callback is ahead of the ROLLBACK issued by the callback of the query:
    the call is rejected with "Insufficient holdings" and the record of the
    attempt stays in the log.  When the statements complete in the order in
    which they were issued, the ROLLBACK comes first and nothing is left. *)
Theorem rejected_sale_leaves_record :
  positions sqlite0 !! (1%Z, "XYZ"%string) = None /\
  fst (executeTrade sqlite0 false [0; 0; 1]%nat 1 "XYZ" "SELL" 10 1
         "2025-05-14T09:30:00.000Z") = Rejected Insufficient_holdings /\
  ledger (snd (executeTrade sqlite0 false [0; 0; 1]%nat 1 "XYZ" "SELL" 10 1
                 "2025-05-14T09:30:00.000Z"))
    = [Transaction 1 1 "XYZ" "SELL" (JS.Number 10) (JS.Number 1) (JS.Number 10)
         "2025-05-14T09:30:00.000Z"] /\
  snd (executeTrade sqlite0 false [0; 0; 1]%nat 1 "XYZ" "SELL" 10 1
         "2025-05-14T09:30:00.000Z") <> sqlite0 /\
  snd (executeTrade sqlite0 false [] 1 "XYZ" "SELL" 10 1
         "2025-05-14T09:30:00.000Z") = sqlite0.
Proof. by_evaluation. Qed.

(** C7, as the specification has it, fails: the test is made on the
    product as the code computes it, a double.  The price 33333.333333333336
    is a double above 100000/3, so three shares cost more than the balance
    of 100000.00; the product rounds to 100000, the test passes, and the
    purchase is committed and leaves a balance of 0. *)
Lemma rounded_cost_passes_funds_test :
  (exists p : Q, JS.exact 33333.333333333336 = Some p /\ (100000 < p * 3)%Q) /\
  (balance <$> account memory0 1) = Some (JS.Number 100000) /\
  fst (executeTrade memory0 false [] 1 "AAPL" "BUY" 33333.333333333336 3
         "2025-05-14T09:30:00.000Z")
    = Resolved (JS.Number 0)
        (Some (Transaction 1 1 "AAPL" "BUY" (JS.Number 33333.333333333336) (JS.Number 3)
                 (JS.Number 100000) "2025-05-14T09:30:00.000Z")) /\
  fst (executeTrade memory0 false [] 1 "AAPL" "BUY" 33333.333333333336 3
         "2025-05-14T09:30:00.000Z")
    <> Rejected Insufficient_funds.
Proof.
  split; [|by_evaluation].
  eexists. split; vm_compute; reflexivity.
Qed.

(** C7, amended.  A BUY on an existing account is rejected with
    "Insufficient funds" exactly when the balance is strictly below
    price × quantity as the code computes it, the product rounded to a
    double; the rejection changes nothing: the balance stays, no position
    appears and the transaction log is as before. *)
Theorem insufficient_funds_iff (w : backend) (record_fails : bool) (order : list nat)
    (userId : Z) (sym : string) (price qty : float) (now : string) (u : user) :
  idle w ->
  account w userId = Some u ->
  (fst (executeTrade w record_fails order userId sym "BUY" price qty now)
     = Rejected Insufficient_funds
   <-> JS.lt (balance u) (JS.Number (price * qty)) = true) /\
  (fst (executeTrade w record_fails order userId sym "BUY" price qty now)
     = Rejected Insufficient_funds ->
   snd (executeTrade w record_fails order userId sym "BUY" price qty now) = w /\
   account (snd (executeTrade w record_fails order userId sym "BUY" price qty now)) userId
     = Some u /\
   positions (snd (executeTrade w record_fails order userId sym "BUY" price qty now))
     = positions w /\
   ledger (snd (executeTrade w record_fails order userId sym "BUY" price qty now))
     = ledger w).
Proof.
  intros Hidle Hu. ends w record_fails order userId sym "BUY"%string price qty now Hidle.
  rewrite Hu in Hend. rewrite bool_decide_eq_true_2 in Hend by done.
  destruct (JS.lt (balance u) (JS.Number (price * qty))); [by injection Hend as -> ->|].
  destruct (write_fails w record_fails); unpack; split; try done; by split.
Qed.

Lemma insufficient_funds_iff_witness :
  fst (executeTrade poor false [] 1 "AAPL" "BUY" 100 1
         "2025-05-14T09:30:00.000Z") = Rejected Insufficient_funds /\
  snd (executeTrade poor false [] 1 "AAPL" "BUY" 100 1
         "2025-05-14T09:30:00.000Z") = poor.
Proof.
  assert (Hidle : idle poor) by reflexivity.
  assert (Hu : account poor 1 =
            Some (User 1 "demo" "password123" (JS.Number 50) "2025-05-14T09:00:00.000Z"))
    by reflexivity.
  destruct (insufficient_funds_iff poor false [] 1 "AAPL" 100 1
              "2025-05-14T09:30:00.000Z" _ Hidle Hu) as [Hiff Hsame].
  assert (Hrej : fst (executeTrade poor false [] 1 "AAPL" "BUY" 100 1
                        "2025-05-14T09:30:00.000Z") = Rejected Insufficient_funds)
    by (apply Hiff; vm_compute; reflexivity).
  split; [exact Hrej | exact (proj1 (Hsame Hrej))].
Defined.

(** C10.  The in-memory backend opens every account with a balance of
    100000.00: the [demo] account seeded by [initMemoryData], which is the
    first and only user of a fresh store, and every account returned by
    [createUser], whose id is the current number of users plus one.
    ([createUser] returns an account for every password that is a string,
    and none for another value, for which [hashSync] throws.) *)
Theorem transient_accounts_open_with_100000 (hashSync : string -> string) :
  (forall (now : string) (m : store),
     exists u, users (initMemoryData hashSync now m) = users m ++ [u] /\
       balance u = JS.Number 100000 /\ id u = 1%Z) /\
  (forall (opened : option Sqlite.tables) (created : bool) (now : string),
     useMemory (initDatabase hashSync opened created now) = true ->
     exists u, users (memoryStore (initDatabase hashSync opened created now)) = [u] /\
       balance u = JS.Number 100000 /\ id u = (Z.of_nat (length (@nil user)) + 1)%Z) /\
  (forall (w : backend) (name pass now : string),
     useMemory w = true ->
     exists u, fst (createUser hashSync w name (Some pass) now) = Some u /\
       balance u = JS.Number 100000 /\
       id u = (Z.of_nat (length (users (memoryStore w))) + 1)%Z /\
       users (memoryStore (snd (createUser hashSync w name (Some pass) now)))
         = users (memoryStore w) ++ [u] /\
       useMemory (snd (createUser hashSync w name (Some pass) now)) = true) /\
  (forall (w : backend) (name now : string),
     createUser hashSync w name None now = (None, w)).
Proof.
  repeat split.
  - intros now m. eexists. cbn. done.
  - intros opened created now. unfold initDatabase.
    destruct opened as [t|]; [destruct created|].
    + case_bool_decide; [destruct (insert_user _ _ _ _ _) as [[? ?]|]|]; done.
    + intros _. eexists. cbn. done.
    + intros _. eexists. cbn. done.
  - intros w name pass now Hmode. unfold createUser. rewrite Hmode. cbn.
    eexists. done.
Qed.

Lemma transient_accounts_open_with_100000_witness :
  exists u, fst (createUser clear_text memory0 "alice" (Some "s3cret"%string)
                   "2025-05-14T10:00:00.000Z")
              = Some u /\ balance u = JS.Number 100000 /\ id u = 2%Z.
Proof.
  destruct (proj1 (proj2 (proj2 (transient_accounts_open_with_100000 clear_text)))
              memory0 "alice" "s3cret" "2025-05-14T10:00:00.000Z" eq_refl)
    as (u & Hu & Hbal & Hid & _).
  exists u. repeat split; [exact Hu | exact Hbal | exact Hid].
Defined.




Lemma after_idle (w : backend) (ts : list trade) : idle w -> idle (after w ts).
Proof.
  revert w. induction ts as [|t ts IH]; intros w Hidle; [done|].
  cbn. apply IH. by apply executeTrade_settles.
Qed.

(** An invariant of the store kept by every call is kept by a sequence. *)
Lemma after_invariant (I : backend -> Prop) (ok : trade -> Prop) :
  (forall w t, idle w -> I w -> ok t -> I (snd (submit w t))) ->
  forall ts w, idle w -> I w -> Forall ok ts -> I (after w ts).
Proof.
  intros Hstep ts. induction ts as [|t ts IH]; intros w Hidle HI Hok; [done|].
  inversion Hok; subst. cbn. apply IH; [by apply executeTrade_settles | by apply Hstep | done].
Qed.

Lemma every_account_lookup (P : user -> Prop) (w : backend) (userId : Z) (u : user) :
  every_account P w -> account w userId = Some u -> P u.
Proof.
  unfold every_account, account. destruct (useMemory w).
  - intros HP Hu. apply find_some in Hu as [Hin _].
    rewrite Forall_forall in HP. apply HP. by apply list_elem_of_In.
  - intros HP Hu. by apply (HP userId).
Qed.

(** C2, as the specification has it, fails: a sale at a negative price is
    committed and takes the balance below zero.  From the seeded in-memory
    store, BUY 1 @ 1.00 and then SELL 1 @ -200000.00 are both committed and
    leave [demo] with -100001.00. *)
Lemma negative_price_sale_overdraws :
  let w1 := snd (executeTrade memory0 false [] 1 "AAPL" "BUY" 1 1
                   "2025-05-14T09:30:00.000Z") in
  let r2 := executeTrade w1 false [] 1 "AAPL" "SELL" (-200000) 1
              "2025-05-14T09:31:00.000Z" in
  fst (executeTrade memory0 false [] 1 "AAPL" "BUY" 1 1 "2025-05-14T09:30:00.000Z")
    = Resolved (JS.Number 99999)
        (Some (Transaction 1 1 "AAPL" "BUY" (JS.Number 1) (JS.Number 1) (JS.Number 1)
                 "2025-05-14T09:30:00.000Z")) /\
  fst r2 = Resolved (JS.Number (-100001))
             (Some (Transaction 2 1 "AAPL" "SELL" (JS.Number (-200000)) (JS.Number 1)
                      (JS.Number (-200000)) "2025-05-14T09:31:00.000Z")) /\
  account (snd r2) 1
    = Some (User 1 "demo" "password123" (JS.Number (-100001)) "2025-05-14T09:00:00.000Z") /\
  ~ solvent (snd r2).
Proof. cbv zeta. by_evaluation. Qed.

(** A purchase at a price that is not a number does the same to the
    balance.  The price 'abc' passes the test of the route, [parseFloat]
    makes NaN of it, the funds test [balance < NaN] is false, and the
    balance becomes NaN on the in-memory backend and NULL on SQLite. *)
Lemma nan_price_purchase_voids_balance :
  JS.parseFloat (JS.JString "abc") = nan /\
  fst (post_trade memory0 false []
         (TradeBody (Some 1%Z) (Some "AAPL"%string) (Some "BUY"%string)
            (Some (JS.JNumber 1)) (Some (JS.JString "abc")))
         "2025-05-14T09:30:00.000Z")
    = Answer (JS.Number nan,
              Some (Transaction 1 1 "AAPL" "BUY" (JS.Number nan) (JS.Number 1)
                      (JS.Number nan) "2025-05-14T09:30:00.000Z")) /\
  ~ solvent (snd (executeTrade memory0 false [] 1 "AAPL" "BUY" nan 1
                    "2025-05-14T09:30:00.000Z")) /\
  (balance <$> account (snd (executeTrade sqlite0 false [] 1 "AAPL" "BUY" nan 1
                               "2025-05-14T09:30:00.000Z")) 1) = Some JS.Null /\
  ~ solvent (snd (executeTrade sqlite0 false [] 1 "AAPL" "BUY" nan 1
                    "2025-05-14T09:30:00.000Z")).
Proof. by_evaluation. Qed.

Lemma solvent_step (w : backend) (t : trade) :
  idle w -> solvent w ->
  (side t = "BUY"%string -> is_finite (amount t) = true) /\
  (side t <> "BUY"%string -> (0 <=? amount t)%float = true) ->
  solvent (snd (submit w t)).
Proof.
  intros Hidle Hs [Hfinite Hsign]. unfold submit, solvent, amount in *.
  ends w (storage_fails t) (completion t) (by_user t) (on_symbol t) (side t) (at_price t)
    (of_quantity t) (at_time t) Hidle.
  destruct (account w (by_user t)) as [u|] eqn:Hu; [|by injection Hend as _ ->].
  pose proof (every_account_lookup _ _ _ _ Hs Hu) as Hbal. cbn in Hbal.
  assert (Hbuy : side t = "BUY"%string ->
            JS.lt (balance u) (JS.Number (at_price t * of_quantity t)) = false ->
            JS.at_least_zero
              (balance (set_balance (debited w (balance u) (at_price t * of_quantity t)) u))
            = true).
  { intros Hside Hfunds. cbn. apply debited_at_least_zero; auto. }
  assert (Hsell : side t <> "BUY"%string ->
            JS.at_least_zero
              (balance (set_balance (credited w (balance u) (at_price t * of_quantity t)) u))
            = true).
  { intros Hside. cbn. apply credited_at_least_zero; auto. }
  assert (Hsame : JS.at_least_zero (balance (set_balance (balance u) u)) = true) by done.
  repeat first [case_bool_decide | case_match]; unpack; try done;
    apply (applied_every_account _ _ _ _ _ _ _ _ _
             (fun v => JS.at_least_zero (balance v) = true)); auto.
Qed.

(** C2, amended.  Starting from a store in which every balance is a number
    that is at least zero, after any sequence of calls to [executeTrade]
    in which price × quantity is finite (not NaN, not an infinity) for
    every BUY and at least 0 for every other call, every balance is a
    number that is at least zero. *)
Theorem solvency_preserved (w : backend) (ts : list trade) :
  idle w -> solvent w ->
  Forall (fun t => (side t = "BUY"%string -> is_finite (amount t) = true) /\
                   (side t <> "BUY"%string -> (0 <=? amount t)%float = true)) ts ->
  solvent (after w ts).
Proof.
  intros Hidle Hs Hok.
  by apply (after_invariant solvent
              (fun t => (side t = "BUY"%string -> is_finite (amount t) = true) /\
                        (side t <> "BUY"%string -> (0 <=? amount t)%float = true))
              solvent_step).
Qed.

Lemma solvency_preserved_witness :
  solvent (after sqlite0
             [Trade 1 "AAPL" "BUY" 100 10 "2025-05-14T09:30:00.000Z" false
                [0; 0; 2; 1]%nat;
              Trade 1 "AAPL" "SELL" 120 5 "2025-05-14T09:31:00.000Z" true
                [0; 0; 1]%nat]).
Proof.
  apply solvency_preserved.
  - reflexivity.
  - apply (bool_decide_unpack _). vm_compute. exact I.
  - apply (bool_decide_unpack _). vm_compute. exact I.
Defined.


(** A sale of a quantity that is not a number does the same.  The
    quantity 'abc' passes the test of the route, [parseInt] makes NaN of
    it, the holdings test [quantity < NaN] is false, and the position is
    left with the quantity NaN (NULL on SQLite). *)
Lemma nan_quantity_sale_voids_position :
  JS.parseInt (JS.JString "abc") = nan /\
  positions (snd (executeTrade memory1 false [] 1 "AAPL" "SELL" 100 nan
                    "2025-05-14T09:31:00.000Z")) !! (1%Z, "AAPL"%string)
    = Some (Holding 1 "AAPL" (JS.Number nan) (JS.Number 100) "2025-05-14T09:31:00.000Z") /\
  ~ positive_holdings (snd (executeTrade memory1 false [] 1 "AAPL" "SELL" 100 nan
                              "2025-05-14T09:31:00.000Z")) /\
  positions (snd (executeTrade sqlite1 false [] 1 "AAPL" "SELL" 100 nan
                    "2025-05-14T09:31:00.000Z")) !! (1%Z, "AAPL"%string)
    = Some (Holding 1 "AAPL" JS.Null (JS.Number 10) "2025-05-14T09:31:00.000Z").
Proof. by_evaluation. Qed.





(** A first purchase of zero shares is committed as well, and its average
    cost is NaN on the in-memory backend. *)
Lemma zero_quantity_purchase_average :
  fst (executeTrade memory0 false [] 1 "AAPL" "BUY" 10 0 "2025-05-14T09:30:00.000Z")
    = Resolved (JS.Number 100000)
        (Some (Transaction 1 1 "AAPL" "BUY" (JS.Number 10) (JS.Number 0) (JS.Number 0)
                 "2025-05-14T09:30:00.000Z")) /\
  positions (snd (executeTrade memory0 false [] 1 "AAPL" "BUY" 10 0
                    "2025-05-14T09:30:00.000Z")) !! (1%Z, "AAPL"%string)
    = Some (Holding 1 "AAPL" (JS.Number 0) (JS.Number nan) "2025-05-14T09:30:00.000Z").
Proof. by_evaluation. Qed.



(** C8, as the specification has it, fails in its example: BUY 5 @ 10.00
    followed by SELL 5 @ 12.00 removes the position, but over the two trades
    the balance goes from 100000.00 to 100010.00, up 10.00 and not 60.00. *)
Lemma full_liquidation_net_gain :
  let w1 := snd (executeTrade memory0 false [] 1 "AAPL" "BUY" 10 5
                   "2025-05-14T09:30:00.000Z") in
  let w2 := snd (executeTrade w1 false [] 1 "AAPL" "SELL" 12 5
                   "2025-05-14T09:31:00.000Z") in
  (balance <$> account memory0 1) = Some (JS.Number 100000) /\
  (balance <$> account w1 1) = Some (JS.Number 99950) /\
  (balance <$> account w2 1) = Some (JS.Number 100010) /\
  positions w2 !! (1%Z, "AAPL"%string) = None /\
  (100010 - 100000)%float <> 60%float.
Proof. cbv zeta. by_evaluation. Qed.

(** Nor is the increase exactly price × quantity: the sum is rounded.  With
    a balance of 99970.00, the sale of 3 shares at the price 0.1 leaves
    99970.3, and the difference of the two balances is not three times the
    price. *)
Lemma sale_credit_is_rounded :
  let w1 := snd (executeTrade memory0 false [] 1 "AAPL" "BUY" 10 3
                   "2025-05-14T09:30:00.000Z") in
  let w2 := snd (executeTrade w1 false [] 1 "AAPL" "SELL" 0.1 3
                   "2025-05-14T09:31:00.000Z") in
  (balance <$> account w1 1) = Some (JS.Number 99970) /\
  (balance <$> account w2 1) = Some (JS.Number 99970.3) /\
  positions w2 !! (1%Z, "AAPL"%string) = None /\
  exists before after price : Q,
    JS.exact 99970 = Some before /\ JS.exact 99970.3 = Some after /\
    JS.exact 0.1 = Some price /\
    ~ (after - before == price * 3)%Q.
Proof.
  cbv zeta. split; [by_evaluation|]. split; [by_evaluation|]. split; [by_evaluation|].
  do 3 eexists. split; [vm_compute; reflexivity|]. split; [vm_compute; reflexivity|].
  split; [vm_compute; reflexivity|].
  intros Heq. apply Qeq_bool_iff in Heq. vm_compute in Heq. discriminate Heq.
Qed.

(** C8, amended.  A committed SELL of the whole quantity of a position, a
    finite number, removes the position entry, so that a later lookup of
    the (account, symbol) pair finds no entry.  The new balance is the old
    one plus price × quantity in the arithmetic of the backend; when the
    old balance is a number that is at least zero and the price and the
    quantity are above zero it is the double nearest to the sum of the
    balance and the product, itself rounded.  (In the example the SELL adds
    60.00; net of the 50.00 paid for the purchase the two trades add
    10.00.) *)
Theorem full_sale_removes_position (w : backend) (record_fails : bool) (order : list nat)
    (userId : Z) (sym : string) (price qty : float) (now : string) (u : user)
    (p : holding) (b : JS.value) (tx : option transaction) :
  idle w ->
  account w userId = Some u ->
  positions w !! (userId, sym) = Some p ->
  quantity p = JS.Number qty ->
  is_finite qty = true ->
  fst (executeTrade w record_fails order userId sym "SELL" price qty now) = Resolved b tx ->
  positions (snd (executeTrade w record_fails order userId sym "SELL" price qty now))
    !! (userId, sym) = None /\
  account (snd (executeTrade w record_fails order userId sym "SELL" price qty now)) userId
    = Some (set_balance (credited w (balance u) (price * qty)) u) /\
  (forall b0, balance u = JS.Number b0 -> (0 <=? b0)%float = true ->
     (0 <? price)%float = true -> (0 <? qty)%float = true ->
     credited w (balance u) (price * qty) = JS.Number (b0 + price * qty)).
Proof.
  intros Hidle Hu Hp Hq Hfinite.
  ends w record_fails order userId sym "SELL"%string price qty now Hidle.
  rewrite Hu, Hp in Hend.
  rewrite (bool_decide_eq_false_2 ("SELL"%string = "BUY"%string)) in Hend by done.
  assert (Hheld : JS.lt (quantity p) (JS.Number qty) = false).
  { rewrite Hq. unfold JS.lt. cbn. rewrite FloatAxioms.ltb_spec. unfold SFltb.
    apply is_finite_spec in Hfinite.
    rewrite SFcompare_refl; [done|]. by destruct (Prim2SF qty). }
  rewrite Hheld in Hend.
  intros Hres. subst o.
  assert (Hw' : w' = commit userId u (credited w (balance u) (price * qty))
                  (sold w p userId sym qty now)
                  (recorded w userId sym "SELL" price qty now) w).
  { repeat first [case_bool_decide | case_match]; unpack; done. }
  subst w'. rewrite commit_positions, commit_account by done.
  rewrite bool_decide_eq_true_2 by done. unfold sold.
  rewrite Hq. cbn [JS.to_number]. rewrite sub_diag by done.
  split; [by rewrite lookup_delete_eq|]. split; [done|].
  intros b0 -> Hb0 Hprice Hqty. apply credited_above_zero; [done|]. by apply mul_sign.
Qed.

Lemma full_sale_removes_position_witness :
  positions (snd (executeTrade sqlite1 false [0; 0; 1; 2; 1]%nat 1 "AAPL" "SELL" 12 5
                    "2025-05-14T09:31:00.000Z")) !! (1%Z, "AAPL"%string) = None /\
  account (snd (executeTrade sqlite1 false [0; 0; 1; 2; 1]%nat 1 "AAPL" "SELL" 12 5
                  "2025-05-14T09:31:00.000Z")) 1
    = Some (set_balance
              (credited sqlite1 (JS.Number 99950) (12 * 5))
              (User 1 "demo" "password123" (JS.Number 99950) "2025-05-14T09:00:00.000Z")) /\
  credited sqlite1 (JS.Number 99950) (12 * 5) = JS.Number (99950 + 12 * 5).
Proof.
  destruct (full_sale_removes_position sqlite1 false [0; 0; 1; 2; 1]%nat 1 "AAPL" 12 5
           "2025-05-14T09:31:00.000Z"
           (User 1 "demo" "password123" (JS.Number 99950) "2025-05-14T09:00:00.000Z")
           (Holding 1 "AAPL" (JS.Number 5) (JS.Number 10) "2025-05-14T09:30:00.000Z")
           (JS.Number 99950) None) as (Hgone & Hbal & Hsum).
  - vm_compute. reflexivity.
  - apply (bool_decide_unpack _). vm_compute. exact I.
  - apply (bool_decide_unpack _). vm_compute. exact I.
  - reflexivity.
  - reflexivity.
  - apply (bool_decide_unpack _). vm_compute. exact I.
  - split; [exact Hgone|]. split; [exact Hbal|].
    apply (Hsum 99950%float); reflexivity.
Defined.

(** On success the in-memory backend returns the transaction record; the
    SQLite backend never does. *)
Lemma returned_record (w : backend) (record_fails : bool) (order : list nat)
    (userId : Z) (sym type : string) (price qty : float) (now : string) (b : JS.value)
    (tx : option transaction) :
  idle w ->
  fst (executeTrade w record_fails order userId sym type price qty now) = Resolved b tx ->
  tx = returned w (recorded w userId sym type price qty now).
Proof.
  intros Hidle. ends w record_fails order userId sym type price qty now Hidle.
  intros ->. unfold returned in *.
  destruct (account w userId); [|by injection Hend as ? ?].
  destruct (useMemory w) eqn:Hmode;
    repeat first [case_bool_decide | case_match]; unpack; done.
Qed.

(** C6.  The same request, BUY 1 @ 10.00 by [demo], on the two freshly
    seeded backends: both take the balance to 99990.00, but only the
    in-memory backend returns the transaction record.  On SQLite the
    balance returned is the balance before the trade when the INSERT into
    [transactions] and the query issued by its callback complete before
    the UPDATE of the balance.  A first purchase of zero shares also
    leaves different positions in the two stores. *)
Theorem backends_return_different_results :
  fst (executeTrade sqlite0 false [0; 0; 2; 3]%nat 1 "AAPL" "BUY" 10 1
         "2025-05-14T09:30:00.000Z")
    = Resolved (JS.Number 100000) None /\
  balance <$> account (snd (executeTrade sqlite0 false [0; 0; 2; 3]%nat 1 "AAPL" "BUY"
                              10 1 "2025-05-14T09:30:00.000Z")) 1
    = Some (JS.Number 99990) /\
  fst (executeTrade memory0 false [] 1 "AAPL" "BUY" 10 1 "2025-05-14T09:30:00.000Z")
    = Resolved (JS.Number 99990)
        (Some (Transaction 1 1 "AAPL" "BUY" (JS.Number 10) (JS.Number 1) (JS.Number 10)
                 "2025-05-14T09:30:00.000Z")) /\
  fst (executeTrade sqlite0 false [] 1 "AAPL" "BUY" 10 1 "2025-05-14T09:30:00.000Z")
    = Resolved (JS.Number 99990) None /\
  ledger (snd (executeTrade sqlite0 false [] 1 "AAPL" "BUY" 10 1
                 "2025-05-14T09:30:00.000Z"))
    = [Transaction 1 1 "AAPL" "BUY" (JS.Number 10) (JS.Number 1) (JS.Number 10)
         "2025-05-14T09:30:00.000Z"] /\
  positions (snd (executeTrade memory0 false [] 1 "AAPL" "BUY" 10 0
                    "2025-05-14T09:30:00.000Z")) !! (1%Z, "AAPL"%string)
    = Some (Holding 1 "AAPL" (JS.Number 0) (JS.Number nan) "2025-05-14T09:30:00.000Z") /\
  positions (snd (executeTrade sqlite0 false [] 1 "AAPL" "BUY" 10 0
                    "2025-05-14T09:30:00.000Z")) !! (1%Z, "AAPL"%string)
    = Some (Holding 1 "AAPL" (JS.Number 0) (JS.Number 10) "2025-05-14T09:30:00.000Z").
Proof. by_evaluation. Qed.

(** C9, as the specification has it, fails: the opening balance of an
    account is not in its log.  On the freshly seeded store the log of
    [demo] is empty and replaying it from an empty balance gives 0, while
    the balance of [demo] is 100000.00. *)
Lemma replay_from_zero_misses_opening_balance :
  log memory0 1 = [] /\
  cash (replay 1 0 (log memory0 1)) = 0%float /\
  (balance <$> account memory0 1) = Some (JS.Number 100000) /\
  (balance <$> account memory0 1) <> Some (JS.Number (cash (replay 1 0 (log memory0 1)))).
Proof. by_evaluation. Qed.

(** Nor does the replay reproduce the average cost of a position on the
    in-memory backend: after BUY 7 @ 170.11 the store has the rounded
    quotient, the replay the price. *)
Lemma replay_misses_rounded_average :
  let w := snd (executeTrade memory0 false [] 1 "AAPL" "BUY" 170.11 7
                  "2025-05-14T09:30:00.000Z") in
  average_price <$> positions w !! (1%Z, "AAPL"%string)
    = Some (JS.Number 170.10999999999999) /\
  average_price <$> holdings (replay 1 opening_balance (log w 1)) !! "AAPL"%string
    = Some (JS.Number 170.11) /\
  positions w !! (1%Z, "AAPL"%string)
    <> holdings (replay 1 opening_balance (log w 1)) !! "AAPL"%string.
Proof. cbv zeta. by_evaluation. Qed.

Lemma replay_snoc (userId : Z) (opening : float) (txs : list transaction) (tx : transaction) :
  replay userId opening (txs ++ [tx]) = replay_step userId (replay userId opening txs) tx.
Proof. unfold replay. by rewrite foldl_app. Qed.

Lemma log_commit (userId : Z) (u : user) (bal : JS.value) (pf : gmap key holding)
    (tx : transaction) (w : backend) (j : Z) :
  log (commit userId u bal pf tx w) j =
    log w j ++ (if bool_decide (tx_user_id tx = j) then [tx] else []).
Proof.
  unfold log. rewrite commit_ledger, filter_app. f_equal.
  rewrite filter_cons, filter_nil. case_bool_decide; by case_decide.
Qed.

Lemma update_first_length (userId : Z) (f : user -> user) (us : list user) :
  length (update_first userId f us) = length us.
Proof.
  induction us as [|v us IH]; [done|]. cbn. case_bool_decide; cbn; by rewrite ?IH.
Qed.

Lemma update_first_ids (P : Z -> Prop) (userId : Z) (b : JS.value) (us : list user) :
  Forall (fun u => P (id u)) us ->
  Forall (fun u => P (id u)) (update_first userId (set_balance b) us).
Proof.
  induction 1 as [|v us Hv HP IH]; cbn; [done|].
  case_bool_decide; constructor; done.
Qed.

Lemma without_average_eq (p p' : holding) :
  without_average <$> Some p = without_average <$> Some p' ->
  user_id p = user_id p' /\ symbol p = symbol p' /\ quantity p = quantity p' /\
  updated_at p = updated_at p'.
Proof. cbn. unfold without_average. by intros [= -> -> -> ->]. Qed.

(** A commit whose balance and positions are those of one more replay
    step keeps the store consistent. *)
Lemma consistent_commit (w : backend) (userId : Z) (u : user) (bal : JS.value)
    (pf : gmap key holding) (tx : transaction) :
  consistent w ->
  account w userId = Some u ->
  tx_user_id tx = userId ->
  bal = JS.Number
          (cash (replay_step userId (replay userId opening_balance (log w userId)) tx)) ->
  JS.unsigned (cash (replay_step userId (replay userId opening_balance (log w userId)) tx)) ->
  (forall sym,
     without_average <$> pf !! (userId, sym)
     = without_average <$>
         holdings (replay_step userId (replay userId opening_balance (log w userId)) tx)
           !! sym) ->
  (forall j sym, j <> userId -> pf !! (j, sym) = positions w !! (j, sym)) ->
  map_Forall (fun _ p => exists q, quantity p = JS.Number q /\ JS.unsigned q) pf ->
  consistent (commit userId u bal pf tx w).
Proof.
  intros [Hidle Hcash Hheld Hqty Hown Hids] Hu Htx Hbal Hsign Hmine Hothers Hpf. split.
  - by apply commit_idle.
  - intros j v. rewrite commit_account, log_commit by done. rewrite Htx.
    destruct (decide (j = userId)) as [->|Hj].
    + rewrite !bool_decide_eq_true_2 by done. intros [= <-].
      by rewrite replay_snoc.
    + rewrite bool_decide_eq_false_2 by done.
      rewrite (bool_decide_eq_false_2 (userId = j)) by done.
      rewrite app_nil_r. apply Hcash.
  - intros j sym. rewrite commit_positions, log_commit. rewrite Htx.
    destruct (decide (j = userId)) as [->|Hj].
    + rewrite bool_decide_eq_true_2 by done. by rewrite replay_snoc.
    + rewrite (bool_decide_eq_false_2 (userId = j)) by done.
      rewrite app_nil_r, Hothers by done. apply Hheld.
  - by rewrite commit_positions.
  - rewrite commit_ledger. apply Forall_app. split.
    + eapply Forall_impl; [exact Hown|]. cbn. intros t Ht.
      rewrite commit_account by done. by case_bool_decide.
    + constructor; [|done]. rewrite commit_account, Htx by done.
      by rewrite bool_decide_eq_true_2.
  - rewrite commit_mode. intros Hmode. specialize (Hids Hmode).
    unfold commit, applied. rewrite Hmode. cbn [memoryStore users].
    rewrite update_first_length.
    by apply (update_first_ids
                (fun i => (1 <= i <= Z.of_nat (length (users (memoryStore w))))%Z)).
Qed.

Lemma consistent_submit (w : backend) (t : trade) :
  consistent w ->
  (0 <? at_price t)%float = true /\ (0 <? of_quantity t)%float = true /\
  is_finite (amount t) = true ->
  useMemory w = true \/ completion t = [] ->
  consistent (snd (submit w t)).
Proof.
  intros Hw (Hprice & Hquantity & Hfinite) Horder.
  destruct Hw as [Hidle Hcash Hheld Hqty Hown Hids] eqn:Hrec. clear Hrec.
  unfold amount in Hfinite.
  assert (Hcost : JS.unsigned (at_price t * of_quantity t)) by by apply mul_sign.
  assert (Hfinite' : is_finite (of_quantity t) = true) by by apply (finite_factor (at_price t)).
  unfold submit. rewrite executeTrade_closed_form by done. unfold closed_form.
  destruct (account w (by_user t)) as [u|] eqn:Hu; [|done].
  destruct (Hcash _ _ Hu) as [Hbal Hsign].
  specialize (Hheld (by_user t)).
  remember (replay (by_user t) opening_balance (log w (by_user t))) as a eqn:Ha.
  assert (Hrecorded :
    recorded w (by_user t) (on_symbol t) (side t) (at_price t) (of_quantity t) (at_time t)
    = Transaction (next_record_id w) (by_user t) (on_symbol t) (side t)
        (JS.Number (at_price t)) (JS.Number (of_quantity t))
        (JS.Number (at_price t * of_quantity t)) (at_time t)).
  { unfold recorded.
    by rewrite (stored_above_zero w _ Hprice), (stored_above_zero w _ Hquantity),
      (stored_unsigned w _ Hcost). }
  rewrite Hrecorded.
  case_bool_decide as Hside.
  - (* BUY *)
    destruct (JS.lt _ _) eqn:Hfunds; [done|].
    destruct (write_fails w (storage_fails t)); [done|]. cbn [snd].
    rewrite Hbal in Hfunds |- *. unfold JS.lt in Hfunds. cbn in Hfunds.
    destruct (debited_unsigned w (cash a) (at_price t * of_quantity t)) as [Hnew Hnew'];
      try done.
    apply consistent_commit; try done; rewrite <- ?Ha.
    + unfold replay_step. cbn. by rewrite bool_decide_eq_true_2 by done.
    + unfold replay_step. cbn. by rewrite bool_decide_eq_true_2 by done.
    + intros sym. unfold replay_step. cbn. rewrite bool_decide_eq_true_2 by done. cbn.
      destruct (decide (sym = on_symbol t)) as [->|Hsym].
      * rewrite !lookup_insert_eq. unfold bought. specialize (Hheld (on_symbol t)).
        destruct (positions w !! (by_user t, on_symbol t)) as [p|] eqn:Hp,
          (holdings a !! on_symbol t) as [p'|]; try done.
        -- apply without_average_eq in Hheld as (Hid & Hsy & Hqq & _).
           destruct (Hqty _ _ Hp) as (q0 & Hq0 & Hq0'). cbn in Hq0.
           cbn. unfold without_average. cbn. rewrite <- Hid, <- Hsy, <- Hqq, Hq0. cbn.
           rewrite stored_unsigned; [done|].
           apply add_sign; auto using unsigned_at_least_zero, above_zero_at_least,
             above_zero_unsigned.
        -- cbn. unfold without_average. cbn. by rewrite first_quantity_above_zero.
      * rewrite !lookup_insert_ne by congruence. apply Hheld.
    + intros j sym Hj. by rewrite lookup_insert_ne by congruence.
    + apply map_Forall_insert_2; [|done]. unfold bought.
      destruct (positions w !! (by_user t, on_symbol t)) as [p|] eqn:Hp; cbn.
      * destruct (Hqty _ _ Hp) as (q0 & Hq0 & Hq0'). cbn in Hq0. rewrite Hq0. cbn.
        assert (Hsum : JS.unsigned (q0 + of_quantity t)).
        { apply add_sign; auto using unsigned_at_least_zero, above_zero_at_least,
            above_zero_unsigned. }
        rewrite stored_unsigned by done. eauto.
      * rewrite first_quantity_above_zero by done. eauto using above_zero_unsigned.
  - (* SELL *)
    destruct (positions w !! (by_user t, on_symbol t)) as [p|] eqn:Hp; [|done].
    destruct (JS.lt _ _) eqn:Hsold; [done|].
    destruct (write_fails w (storage_fails t)); [done|]. cbn [snd].
    rewrite Hbal.
    destruct (credited_unsigned w (cash a) (at_price t * of_quantity t)) as [Hnew Hnew'];
      try done.
    destruct (Hqty _ _ Hp) as (q0 & Hq0 & Hq0'). cbn in Hq0.
    rewrite Hq0 in Hsold. unfold JS.lt in Hsold. cbn in Hsold.
    destruct (sub_sign q0 (of_quantity t)) as [_ Hrest]; try done;
      [by apply unsigned_not_nan|].
    specialize (Hrest Hq0').
    pose proof (Hheld (on_symbol t)) as Hmine.
    rewrite Hp in Hmine.
    destruct (holdings a !! on_symbol t) as [p'|] eqn:Hp'; [|done].
    apply without_average_eq in Hmine as (Hid & Hsy & Hqq & _).
    apply consistent_commit; try done; rewrite <- ?Ha.
    + unfold replay_step. cbn. by rewrite bool_decide_eq_false_2 by done.
    + unfold replay_step. cbn. by rewrite bool_decide_eq_false_2 by done.
    + intros sym. unfold replay_step, sold. cbn.
      rewrite (bool_decide_eq_false_2 (side t = "BUY"%string)) by done. cbn.
      rewrite Hp', <- Hqq, Hq0. cbn.
      destruct (q0 - of_quantity t =? 0)%float.
      * destruct (decide (sym = on_symbol t)) as [->|Hsym].
        -- by rewrite !lookup_delete_eq.
        -- rewrite !lookup_delete_ne by congruence. apply Hheld.
      * destruct (decide (sym = on_symbol t)) as [->|Hsym].
        -- rewrite !lookup_insert_eq. cbn. unfold without_average. cbn.
           by rewrite stored_unsigned, Hid, Hsy.
        -- rewrite !lookup_insert_ne by congruence. apply Hheld.
    + intros j sym Hj. unfold sold. destruct (_ =? _)%float.
      * by rewrite lookup_delete_ne by congruence.
      * by rewrite lookup_insert_ne by congruence.
    + unfold sold. rewrite Hq0. cbn. destruct (_ =? _)%float.
      * by apply map_Forall_delete.
      * apply map_Forall_insert_2; [|done]. cbn. rewrite stored_unsigned by done. eauto.
Qed.

Lemma find_user_snoc (j : Z) (us : list user) (v : user) :
  find_user j (us ++ [v]) =
    match find_user j us with
    | Some u => Some u
    | None => if bool_decide (id v = j) then Some v else None
    end.
Proof.
  unfold find_user. induction us as [|u us IH]; cbn; [done|].
  by destruct (bool_decide (id u = j)).
Qed.

Lemma find_user_beyond (us : list user) (n : Z) :
  Forall (fun u => (1 <= id u <= n)%Z) us -> find_user (n + 1) us = None.
Proof.
  unfold find_user. induction 1 as [|u us Hu _ IH]; cbn; [done|].
  rewrite bool_decide_eq_false_2 by lia. exact IH.
Qed.

Lemma next_user_id_fresh (us : gmap Z user) : us !! next_user_id us = None.
Proof.
  unfold next_user_id.
  assert (Hmax : forall i, is_Some (us !! i) ->
            (i <= map_fold (fun j (_ : user) acc => Z.max j acc) 0 us)%Z).
  { apply (map_fold_weak_ind
             (fun r (m : gmap Z user) => forall i, is_Some (m !! i) -> (i <= r)%Z)).
    - intros i [? Hi]. by rewrite lookup_empty in Hi.
    - intros j x m r Hj IH i Hi. destruct (decide (i = j)) as [->|Hne]; [lia|].
      rewrite lookup_insert_ne in Hi by done. specialize (IH i Hi). lia. }
  destruct (us !! _) eqn:Hlook; [|done].
  specialize (Hmax _ (mk_is_Some _ _ Hlook)). lia.
Qed.

Lemma log_of_missing_account (w : backend) (userId : Z) :
  Forall (fun tx => is_Some (account w (tx_user_id tx))) (ledger w) ->
  account w userId = None -> log w userId = [].
Proof.
  intros Hown Hnone. unfold log. induction Hown as [|tx txs Htx _ IH]; [done|].
  rewrite filter_cons. case_decide as Hid; [|exact IH].
  rewrite Hid, Hnone in Htx. by destruct Htx.
Qed.

(** A store that differs from a consistent one by one more account, with
    a new id and the opening balance, is consistent. *)
Lemma consistent_new_account (w w' : backend) (i : Z) (v : user) :
  consistent w ->
  idle w' -> positions w' = positions w -> ledger w' = ledger w ->
  account w i = None -> balance v = JS.Number opening_balance ->
  (forall j, account w' j = if bool_decide (j = i) then Some v else account w j) ->
  (useMemory w' = true ->
   Forall (fun u => (1 <= id u <= Z.of_nat (length (users (memoryStore w'))))%Z)
     (users (memoryStore w'))) ->
  consistent w'.
Proof.
  intros [Hidle Hcash Hheld Hqty Hown Hids] Hidle' Hpos Hled Hnew Hbal Hacc Hids'.
  assert (Hlog : forall j, log w' j = log w j) by (intros j; unfold log; by rewrite Hled).
  split; [done| | | | |done].
  - intros j u. rewrite Hacc, Hlog. case_bool_decide as Hj; [|apply Hcash].
    subst j. intros [= <-]. by rewrite (log_of_missing_account w i).
  - intros j sym. rewrite Hpos, Hlog. apply Hheld.
  - by rewrite Hpos.
  - rewrite Hled. eapply Forall_impl; [exact Hown|]. cbn. intros tx Htx.
    rewrite Hacc. by case_bool_decide.
Qed.

Section History.

Variable hashSync : string -> string.

Lemma consistent_createUser (w : backend) (name : string) (pass : option string)
    (now : string) :
  consistent w -> consistent (snd (createUser hashSync w name pass now)).
Proof.
  intros Hw. destruct pass as [pass|]; [|done].
  destruct Hw as [Hidle Hcash Hheld Hqty Hown Hids] eqn:Hrec. clear Hrec.
  unfold createUser. destruct (useMemory w) eqn:Hmode.
  - cbn [snd]. specialize (Hids eq_refl).
    apply (consistent_new_account w _
             (Z.of_nat (length (users (memoryStore w))) + 1)
             (User (Z.of_nat (length (users (memoryStore w))) + 1) name (hashSync pass)
                (JS.Number 100000) now)); try done.
    + unfold positions. by rewrite Hmode.
    + unfold ledger. by rewrite Hmode.
    + unfold account. rewrite Hmode. by apply find_user_beyond.
    + intros j. unfold account. rewrite Hmode. cbn [useMemory memoryStore users].
      rewrite find_user_snoc. cbn [id].
      destruct (find_user j (users (memoryStore w))) as [u|] eqn:Hj.
      * case_bool_decide as Hnew; [|done]. subst j.
        by rewrite find_user_beyond in Hj.
      * by rewrite (bool_decide_ext _ (j = Z.of_nat (length (users (memoryStore w))) + 1)%Z)
          by (split; congruence).
    + intros _. cbn [memoryStore users]. rewrite length_app. cbn [length].
      apply Forall_app. split.
      * eapply Forall_impl; [exact Hids|]. cbn. intros u Hu. lia.
      * constructor; [cbn; lia|done].
  - unfold insert_user. case_bool_decide; cbn [snd]; [done|].
    apply (consistent_new_account w _ (next_user_id (Sqlite.users_table (Sqlite.current (db w))))
             (User (next_user_id (Sqlite.users_table (Sqlite.current (db w)))) name
                (hashSync pass) (JS.Number 100000) now)); try done.
    + unfold positions. by rewrite Hmode.
    + unfold ledger. by rewrite Hmode.
    + unfold account. rewrite Hmode. apply next_user_id_fresh.
    + intros j. unfold account. rewrite Hmode. cbn. case_bool_decide as Hj.
      * subst j. by rewrite lookup_insert_eq.
      * by rewrite lookup_insert_ne.
Qed.

Lemma createUser_mode (w : backend) (name : string) (pass : option string) (now : string) :
  useMemory (snd (createUser hashSync w name pass now)) = useMemory w.
Proof.
  unfold createUser. destruct pass as [pass|]; [|done].
  destruct (useMemory w) eqn:Hmode; [done|].
  destruct (insert_user _ _ _ _ _) as [[? ?]|]; done.
Qed.

Lemma handle_mode (w : backend) (e : event) :
  useMemory (handle hashSync w e) = useMemory w.
Proof.
  destruct e as [name pass now|t]; unfold handle.
  - apply createUser_mode.
  - unfold submit, executeTrade. by destruct (useMemory w).
Qed.

Lemma consistent_history (w : backend) (es : list event) :
  consistent w -> Forall ordinary es ->
  useMemory w = true \/ Forall in_issue_order es ->
  consistent (history hashSync w es).
Proof.
  revert w. induction es as [|e es IH]; intros w Hw Hes Horder; [done|].
  inversion Hes as [|? ? He Hes']; subst. cbn [history foldl]. apply IH; [|done|].
  - destruct e as [name pass now|t]; unfold handle.
    + by apply consistent_createUser.
    + apply consistent_submit; [done..|].
      destruct Horder as [?|Horder]; [by left|]. inversion Horder; subst. by right.
  - rewrite handle_mode. destruct Horder as [?|Horder]; [by left|].
    inversion Horder; subst. by right.
Qed.

Lemma consistent_seeded_memory (d : Sqlite.database) (now : string) :
  Sqlite.at_begin d = None ->
  consistent (Backend true (initMemoryData hashSync now (Store [] ∅ [])) d).
Proof.
  intros Hd. split; try done.
  - intros j u. unfold account, log, ledger, replay. cbn.
    case_bool_decide; [|done]. by intros [= <-].
  - intros _. cbn. repeat constructor; cbn; lia.
Qed.

(** A backend started without a database, or on a new database file. *)
Lemma consistent_initDatabase (opened : option Sqlite.tables) (created : bool)
    (now : string) :
  opened = None \/ opened = Some no_tables ->
  consistent (initDatabase hashSync opened created now).
Proof.
  intros [->| ->]; unfold initDatabase.
  - by apply consistent_seeded_memory.
  - destruct created; [|by apply consistent_seeded_memory].
    rewrite bool_decide_eq_true_2 by done. unfold insert_user.
    rewrite bool_decide_eq_false_2 by apply map_Exists_empty.
    split; try done.
    intros j u. unfold account, log, ledger, replay. cbn.
    destruct (decide (j = next_user_id ∅)) as [->|Hj].
    + rewrite lookup_insert_eq. by intros [= <-].
    + by rewrite lookup_insert_ne.
Qed.

(** C9, amended.  On a backend started without a database or on a new
    database file, after any sequence of registrations and calls to
    [executeTrade] in which every call has a price and a quantity above
    zero and a finite price × quantity and, on the SQLite backend, the
    statements of every call complete in the order in which they were
    issued, the replay of the transaction log of an account, in order and
    in the arithmetic of doubles, from the opening balance of 100000.00 and
    no positions, gives the current balance of the account and, for every
    symbol, its current position but for the average cost: whether there
    is one, and its quantity. *)
Theorem ledger_replay (opened : option Sqlite.tables) (created : bool) (now : string)
    (es : list event) (userId : Z) (u : user) :
  opened = None \/ opened = Some no_tables ->
  Forall ordinary es ->
  useMemory (initDatabase hashSync opened created now) = true \/ Forall in_issue_order es ->
  account (history hashSync (initDatabase hashSync opened created now) es) userId = Some u ->
  JS.Number
    (cash (replay userId opening_balance
             (log (history hashSync (initDatabase hashSync opened created now) es) userId)))
    = balance u /\
  forall sym,
    without_average <$>
      holdings (replay userId opening_balance
                  (log (history hashSync (initDatabase hashSync opened created now) es)
                     userId)) !! sym
    = without_average <$>
        positions (history hashSync (initDatabase hashSync opened created now) es)
          !! (userId, sym).
Proof.
  intros Hfresh Hes Horder Hu.
  destruct (consistent_history _ es (consistent_initDatabase opened created now Hfresh)
              Hes Horder) as [_ Hcash Hheld _ _ _].
  split; [by rewrite (proj1 (Hcash _ _ Hu))|]. intros sym. by rewrite Hheld.
Qed.

End History.

Lemma ledger_replay_witness :
  JS.Number
    (cash (replay 1 opening_balance
             (log (history clear_text
                     (initDatabase clear_text (Some no_tables) true
                        "2025-05-14T09:00:00.000Z")
                     morning) 1)))
    = JS.Number 97900.5 /\
  without_average <$>
    holdings (replay 1 opening_balance
                (log (history clear_text
                        (initDatabase clear_text (Some no_tables) true
                           "2025-05-14T09:00:00.000Z")
                        morning) 1)) !! "AAPL"%string
    = Some (Holding 1 "AAPL" (JS.Number 15) JS.Null "2025-05-14T09:35:00.000Z").
Proof.
  destruct (ledger_replay clear_text (Some no_tables) true "2025-05-14T09:00:00.000Z"
              morning 1
              (User 1 "demo" "password123" (JS.Number 97900.5) "2025-05-14T09:00:00.000Z")
              (or_intror eq_refl)
              ltac:(apply (bool_decide_unpack _); vm_compute; exact I)
              ltac:(right; apply (bool_decide_unpack _); vm_compute; exact I)
              ltac:(apply (bool_decide_unpack _); vm_compute; exact I))
    as [Hcash Hheld].
  split; [exact Hcash|]. rewrite Hheld.
  apply (bool_decide_unpack _). vm_compute. exact I.
Defined.

(** * More of the code *)

(** ** What a call leaves alone *)

Lemma sold_other (w : backend) (p : holding) (userId : Z) (sym : string) (qty : float)
    (now : string) (k : key) :
  k <> (userId, sym) -> sold w p userId sym qty now !! k = positions w !! k.
Proof.
  intros Hk. unfold sold. destruct (_ =? _)%float.
  - by rewrite lookup_delete_ne.
  - by rewrite lookup_insert_ne.
Qed.

Lemma executeTrade_others (w : backend) (record_fails : bool) (order : list nat)
    (userId : Z) (sym type : string) (price qty : float) (now : string) :
  idle w ->
  (forall j, j <> userId ->
     account (snd (executeTrade w record_fails order userId sym type price qty now)) j
     = account w j) /\
  (forall k, k <> (userId, sym) ->
     positions (snd (executeTrade w record_fails order userId sym type price qty now)) !! k
     = positions w !! k).
Proof.
  intros Hidle. ends w record_fails order userId sym type price qty now Hidle.
  destruct (account w userId) as [u|] eqn:Hu; [|by injection Hend as _ ->].
  repeat first [case_bool_decide | case_match]; unpack; try done;
    (split;
     [ intros j Hj; rewrite ?applied_account, ?commit_account by done;
       rewrite ?(bool_decide_eq_false_2 (j = userId)) by done;
       by rewrite ?andb_false_r
     | intros k Hk; rewrite ?applied_positions, ?commit_positions;
       try case_match; rewrite ?lookup_insert_ne, ?sold_other by done; done ]).
Qed.

Lemma executeTrade_ledger (w : backend) (record_fails : bool) (order : list nat)
    (userId : Z) (sym type : string) (price qty : float) (now : string) :
  idle w ->
  ledger (snd (executeTrade w record_fails order userId sym type price qty now)) = ledger w \/
  ledger (snd (executeTrade w record_fails order userId sym type price qty now))
    = ledger w ++ [recorded w userId sym type price qty now].
Proof.
  intros Hidle. ends w record_fails order userId sym type price qty now Hidle.
  destruct (account w userId) as [u|] eqn:Hu; [|by injection Hend as _ ->; left].
  repeat first [case_bool_decide | case_match]; unpack;
    rewrite ?applied_ledger, ?commit_ledger; try case_match; auto.
Qed.

Lemma executeTrade_account (w : backend) (record_fails : bool) (order : list nat)
    (userId : Z) (sym type : string) (price qty : float) (now : string) :
  idle w ->
  match account w userId with
  | Some u =>
      exists b,
        account (snd (executeTrade w record_fails order userId sym type price qty now)) userId
        = Some (set_balance b u) /\
        (b = balance u \/
         b = if bool_decide (type = "BUY"%string) then debited w (balance u) (price * qty)
             else credited w (balance u) (price * qty))
  | None => snd (executeTrade w record_fails order userId sym type price qty now) = w
  end.
Proof.
  intros Hidle. ends w record_fails order userId sym type price qty now Hidle.
  destruct (account w userId) as [u|] eqn:Hu; [|by injection Hend as _ ->].
  assert (Hsame : Some u = Some (set_balance (balance u) u)) by (by destruct u).
  repeat first [case_bool_decide | case_match]; unpack;
    rewrite ?applied_account, ?commit_account by done;
    rewrite ?bool_decide_eq_true_2 by done;
    cbn [andb];
    repeat match goal with |- context [?x && true] => is_var x; destruct x; cbn [andb] end;
    rewrite ?Hu;
    first [ by exists (balance u); split; [f_equal|left]
          | by eexists; split; [reflexivity|right] ].
Qed.

Lemma createUser_idle (hashSync : string -> string) (w : backend) (name : string)
    (pass : option string) (now : string) :
  idle w -> idle (snd (createUser hashSync w name pass now)).
Proof.
  unfold createUser, idle. destruct pass as [pass|]; [|done].
  destruct (useMemory w); [done|].
  by destruct (insert_user _ _ _ _ _) as [[? ?]|].
Qed.

Lemma createUser_positions (hashSync : string -> string) (w : backend)
    (name : string) (pass : option string) (now : string) :
  positions (snd (createUser hashSync w name pass now)) = positions w.
Proof.
  unfold createUser, positions. destruct pass as [pass|]; [|done].
  destruct (useMemory w) eqn:Hmode; cbn; [by rewrite ?Hmode|].
  unfold insert_user. case_bool_decide; cbn; by rewrite ?Hmode.
Qed.

Lemma createUser_ledger (hashSync : string -> string) (w : backend)
    (name : string) (pass : option string) (now : string) :
  ledger (snd (createUser hashSync w name pass now)) = ledger w.
Proof.
  unfold createUser, ledger. destruct pass as [pass|]; [|done].
  destruct (useMemory w) eqn:Hmode; cbn; [by rewrite ?Hmode|].
  unfold insert_user. case_bool_decide; cbn; by rewrite ?Hmode.
Qed.

Lemma initDatabase_idle (hashSync : string -> string) (opened : option Sqlite.tables)
    (created : bool) (now : string) :
  idle (initDatabase hashSync opened created now).
Proof.
  unfold initDatabase, idle. destruct opened as [t|]; [|done].
  destruct created; [|done]. case_bool_decide; [|done].
  by destruct (insert_user _ _ _ _ _) as [[? ?]|].
Qed.

(** An invariant kept by every registration and every call is kept by a
    history. *)
Lemma history_invariant (hashSync : string -> string) (I : backend -> Prop) :
  (forall w name pass now, idle w -> I w -> I (snd (createUser hashSync w name pass now))) ->
  (forall w t, idle w -> I w -> I (snd (submit w t))) ->
  forall es w, idle w -> I w -> I (history hashSync w es).
Proof.
  intros Hreg Htrade es. induction es as [|e es IH]; intros w Hidle HI; [done|].
  cbn [history foldl]. destruct e as [name pass now|t]; unfold handle; apply IH.
  - by apply createUser_idle.
  - by apply Hreg.
  - by apply executeTrade_settles.
  - by apply Htrade.
Qed.

(** ** The ids of the transaction records *)

Lemma largest_of_run (start n : nat) :
  foldr Z.max 0%Z (Z.of_nat <$> seq start n)
  = if decide (n = 0%nat) then 0%Z else (Z.of_nat start + Z.of_nat n - 1)%Z.
Proof.
  revert start. induction n as [|n IH]; intros start; [done|].
  cbn [seq fmap list_fmap foldr]. rewrite IH.
  destruct (decide (n = 0%nat)); case_decide; lia.
Qed.

Lemma numbered_next_id (txs : list transaction) :
  numbered txs -> Sqlite.next_id txs = (Z.of_nat (length txs) + 1)%Z.
Proof.
  unfold numbered, Sqlite.next_id. intros ->. rewrite largest_of_run.
  case_decide; lia.
Qed.

Lemma numbered_snoc (txs : list transaction) (tx : transaction) :
  numbered txs -> tx_id tx = (Z.of_nat (length txs) + 1)%Z -> numbered (txs ++ [tx]).
Proof.
  unfold numbered. intros Htxs Htx.
  rewrite fmap_app, length_app, Htxs. cbn [length fmap list_fmap].
  rewrite Nat.add_1_r, seq_S, fmap_app. cbn. rewrite Htx. do 3 f_equal. lia.
Qed.

Lemma numbered_next_record_id (w : backend) :
  numbered (ledger w) -> next_record_id w = (Z.of_nat (length (ledger w)) + 1)%Z.
Proof.
  unfold next_record_id, ledger. destruct (useMemory w); [done|]. apply numbered_next_id.
Qed.

Lemma numbered_submit (w : backend) (t : trade) :
  idle w -> numbered (ledger w) -> numbered (ledger (snd (submit w t))).
Proof.
  intros Hidle Hn. unfold submit.
  destruct (executeTrade_ledger w (storage_fails t) (completion t) (by_user t) (on_symbol t)
              (side t) (at_price t) (of_quantity t) (at_time t) Hidle) as [-> | ->]; [done|].
  apply numbered_snoc; [done|]. cbn. by apply numbered_next_record_id.
Qed.

(** X1.  The transaction records are numbered 1, 2, 3, ... in the order of the
    log, on both backends, whatever the registrations and calls after the
    start and whatever the order in which the statements of a call
    complete, provided the records of the database file, if there is one,
    are. *)
Theorem record_ids_count_from_one (hashSync : string -> string)
    (opened : option Sqlite.tables) (created : bool) (now : string) (es : list event) :
  from_option (fun t => numbered (Sqlite.transactions_table t)) True opened ->
  numbered (ledger (history hashSync (initDatabase hashSync opened created now) es)).
Proof.
  intros Hfile.
  apply (history_invariant hashSync (fun w => numbered (ledger w))).
  - intros w name pass now' _ Hn. by rewrite createUser_ledger.
  - intros w t. apply numbered_submit.
  - apply initDatabase_idle.
  - unfold initDatabase. destruct opened as [t|]; [|done].
    destruct created; [|done]. case_bool_decide; [|done]. unfold insert_user.
    by case_bool_decide.
Qed.

Lemma record_ids_count_from_one_witness :
  numbered (ledger (history clear_text sqlite0 rough_morning)).
Proof.
  apply (record_ids_count_from_one clear_text (Some no_tables) true
           "2025-05-14T09:00:00.000Z" rough_morning).
  reflexivity.
Defined.

(** ** The log only grows *)

(** X2.  A call adds nothing to the log, or one record: that of the request,
    with the next id.  So the log before a history is the beginning of the
    log after it: no record is ever removed or rewritten, whatever fails and
    whatever the order of completion. *)
Theorem log_is_append_only (hashSync : string -> string) (w : backend) :
  idle w ->
  (forall record_fails order userId sym type price qty now,
     ledger (snd (executeTrade w record_fails order userId sym type price qty now))
       = ledger w \/
     ledger (snd (executeTrade w record_fails order userId sym type price qty now))
       = ledger w ++ [recorded w userId sym type price qty now]) /\
  (forall es, ledger w `prefix_of` ledger (history hashSync w es)).
Proof.
  intros Hidle. split.
  - intros. by apply executeTrade_ledger.
  - intros es.
    apply (history_invariant hashSync (fun w' => ledger w `prefix_of` ledger w')); [| |done..].
    + intros w' name pass now _ Hw'. by rewrite createUser_ledger.
    + intros w' t Hidle' Hw'. unfold submit.
      destruct (executeTrade_ledger w' (storage_fails t) (completion t) (by_user t)
                  (on_symbol t) (side t) (at_price t) (of_quantity t) (at_time t) Hidle')
        as [-> | ->]; [done|].
      by apply prefix_app_r.
Qed.

Lemma log_is_append_only_witness :
  ledger sqlite1 `prefix_of` ledger (history clear_text sqlite1 rough_morning).
Proof.
  apply (log_is_append_only clear_text sqlite1).
  apply (bool_decide_unpack _). vm_compute. exact I.
Defined.

(** ** What a call touches *)

(** X3.  A call touches one account and one position.  The other accounts and
    the positions of other (account, symbol) pairs are as before, no account
    appears or disappears, and of the account of the call only the balance
    can change: it stays, or moves by price × quantity.  This holds when the
    storage fails and for every order of completion. *)
Theorem call_touches_one_account_and_position (w : backend) (record_fails : bool)
    (order : list nat) (userId : Z) (sym type : string) (price qty : float)
    (now : string) :
  idle w ->
  (forall j, j <> userId ->
     account (snd (executeTrade w record_fails order userId sym type price qty now)) j
     = account w j) /\
  (forall j s, (j, s) <> (userId, sym) ->
     positions (snd (executeTrade w record_fails order userId sym type price qty now))
       !! (j, s)
     = positions w !! (j, s)) /\
  (forall j,
     is_Some (account (snd (executeTrade w record_fails order userId sym type price qty now))
                j)
     <-> is_Some (account w j)) /\
  (forall u, account w userId = Some u ->
     exists b,
       account (snd (executeTrade w record_fails order userId sym type price qty now)) userId
       = Some (set_balance b u) /\
       (b = balance u \/ b = debited w (balance u) (price * qty)
        \/ b = credited w (balance u) (price * qty))).
Proof.
  intros Hidle.
  pose proof (executeTrade_others w record_fails order userId sym type price qty now Hidle)
    as [Hacc Hpos].
  pose proof (executeTrade_account w record_fails order userId sym type price qty now Hidle)
    as Hown.
  split; [exact Hacc|]. split; [intros j s; apply Hpos|]. split.
  - intros j. destruct (decide (j = userId)) as [->|Hj]; [|by rewrite Hacc].
    destruct (account w userId) as [u|] eqn:Hu.
    + destruct Hown as (b & -> & _). split; by eauto.
    + by rewrite Hown, Hu.
  - intros u Hu. rewrite Hu in Hown. destruct Hown as (b & Hb & Hcases).
    exists b. split; [done|]. case_bool_decide; naive_solver.
Qed.

Lemma call_touches_one_account_and_position_witness :
  account (snd (executeTrade (history clear_text sqlite0 rough_morning) true [0; 0; 2; 1]%nat
                  2 "MSFT" "BUY" 50 1 "2025-05-14T10:00:00.000Z")) 1
  = account (history clear_text sqlite0 rough_morning) 1.
Proof.
  apply (call_touches_one_account_and_position (history clear_text sqlite0 rough_morning)
           true [0; 0; 2; 1]%nat 2 "MSFT" "BUY" 50 1 "2025-05-14T10:00:00.000Z").
  - apply (bool_decide_unpack _). vm_compute. exact I.
  - discriminate.
Defined.

(** ** The account ids *)

Lemma update_first_fmap_id (userId : Z) (b : JS.value) (us : list user) :
  id <$> update_first userId (set_balance b) us = id <$> us.
Proof.
  induction us as [|v us IH]; [done|]. cbn. case_bool_decide; cbn; [done|]. by rewrite IH.
Qed.

Lemma memory_ids_submit (w : backend) (t : trade) :
  memory_ids w -> memory_ids (snd (submit w t)).
Proof.
  unfold memory_ids, submit, executeTrade. destruct (useMemory w) eqn:Hmode; [|done].
  intros Hids _. specialize (Hids eq_refl). cbn [snd useMemory memoryStore].
  unfold Memory.executeTrade.
  repeat first [case_bool_decide | case_match]; cbn [snd users]; try done;
    by rewrite update_first_fmap_id, update_first_length.
Qed.

Lemma memory_ids_createUser (hashSync : string -> string) (w : backend)
    (name : string) (pass : option string) (now : string) :
  memory_ids w -> memory_ids (snd (createUser hashSync w name pass now)).
Proof.
  unfold memory_ids, createUser. destruct pass as [pass|]; [|done].
  destruct (useMemory w) eqn:Hmode.
  - intros Hids _. specialize (Hids eq_refl). cbn [snd useMemory memoryStore users].
    rewrite fmap_app, length_app, Hids. cbn [length fmap list_fmap id].
    rewrite Nat.add_1_r, seq_S, fmap_app. cbn. do 3 f_equal. lia.
  - destruct (insert_user _ _ _ _ _) as [[? ?]|]; cbn; intros ?; congruence.
Qed.

Lemma memory_ids_initDatabase (hashSync : string -> string)
    (opened : option Sqlite.tables) (created : bool) (now : string) :
  memory_ids (initDatabase hashSync opened created now).
Proof.
  unfold memory_ids, initDatabase. destruct opened as [t|]; [|done].
  destruct created; [|done]. case_bool_decide; [|done].
  by destruct (insert_user _ _ _ _ _) as [[? ?]|].
Qed.

Lemma memory_ids_fresh (w : backend) :
  useMemory w = true -> memory_ids w ->
  find_user (Z.of_nat (length (users (memoryStore w))) + 1) (users (memoryStore w)) = None.
Proof.
  intros Hmode Hids. specialize (Hids Hmode). apply find_user_beyond.
  apply Forall_forall. intros u Hu.
  assert (Hin : id u ∈ id <$> users (memoryStore w)) by (by apply list_elem_of_fmap_2).
  rewrite Hids in Hin. apply list_elem_of_fmap in Hin as (n & -> & Hn).
  apply elem_of_seq in Hn. lia.
Qed.

Lemma history_mode (hashSync : string -> string) (w : backend) (es : list event) :
  useMemory (history hashSync w es) = useMemory w.
Proof.
  revert w. induction es as [|e es IH]; intros w; [done|].
  change (history hashSync w (e :: es)) with (history hashSync (handle hashSync w e) es).
  by rewrite IH, handle_mode.
Qed.

(** X4.  On the in-memory backend the ids of the accounts are 1, 2, 3, ... in the
    order of registration, after any history; so the account with id [i]
    is the [i]-th element of [memoryStore.users]. *)
Theorem memory_account_ids_count_from_one (hashSync : string -> string)
    (opened : option Sqlite.tables) (created : bool) (now : string) (es : list event)
    (i : nat) :
  memory_ids (history hashSync (initDatabase hashSync opened created now) es) /\
  (useMemory (initDatabase hashSync opened created now) = true ->
   account (history hashSync (initDatabase hashSync opened created now) es) (Z.of_nat (S i))
   = users (memoryStore (history hashSync (initDatabase hashSync opened created now) es)) !! i).
Proof.
  assert (Hids : memory_ids (history hashSync (initDatabase hashSync opened created now) es)).
  { apply (history_invariant hashSync memory_ids).
    - intros w name pass now' _. apply memory_ids_createUser.
    - intros w t _. apply memory_ids_submit.
    - apply initDatabase_idle.
    - apply memory_ids_initDatabase. }
  split; [done|]. intros Hmode.
  assert (Hmode' : useMemory (history hashSync (initDatabase hashSync opened created now) es)
                   = true).
  { by rewrite history_mode. }
  unfold account. rewrite Hmode'. specialize (Hids Hmode').
  revert Hids. generalize (users (memoryStore
    (history hashSync (initDatabase hashSync opened created now) es))).
  intros us. revert i.
  induction us as [|u us IH] using rev_ind; intros i Hids; [done|].
  rewrite fmap_app, length_app in Hids. cbn [length fmap list_fmap] in Hids.
  rewrite Nat.add_1_r, seq_S, fmap_app in Hids. cbn in Hids.
  apply app_inj_2 in Hids as [Hus Hu]; [|done]. injection Hu as Hu.
  rewrite find_user_snoc. destruct (decide (i < length us)%nat) as [Hi|Hi].
  - rewrite lookup_app_l by done. rewrite <- IH by done.
    destruct (find_user _ us) eqn:Hfind; [done|]. exfalso.
    assert (Hin : Z.of_nat (S i) ∈ id <$> us).
    { rewrite Hus. apply list_elem_of_fmap_2, elem_of_seq. lia. }
    apply list_elem_of_fmap in Hin as (v & Hv & Hin).
    apply list_elem_of_In in Hin. unfold find_user in Hfind.
    eapply find_none in Hfind; [|exact Hin]. cbn in Hfind.
    by rewrite bool_decide_eq_true_2 in Hfind.
  - assert (Hnone : find_user (Z.of_nat (S i)) us = None).
    { destruct (find_user _ us) as [v|] eqn:Hfind; [|done]. exfalso.
      unfold find_user in Hfind.
      apply find_some in Hfind as [Hin Hv]. apply bool_decide_eq_true in Hv.
      apply list_elem_of_In in Hin.
      assert (Hin' : id v ∈ id <$> us) by (by apply list_elem_of_fmap_2).
      rewrite Hus, Hv in Hin'. apply list_elem_of_fmap in Hin' as (n & Hn & Hin').
      apply elem_of_seq in Hin'. lia. }
    rewrite Hnone. destruct (decide (i = length us)) as [->|Hne].
    + rewrite bool_decide_eq_true_2 by lia.
      by rewrite lookup_app_r, Nat.sub_diag by done.
    + rewrite bool_decide_eq_false_2 by lia.
      symmetry. apply lookup_ge_None. rewrite length_app. cbn. lia.
Qed.

Lemma memory_account_ids_count_from_one_witness :
  account (history clear_text
             (initDatabase clear_text None false "2025-05-14T09:00:00.000Z") rough_morning)
    (Z.of_nat 3)
  = Some (User 3 "alice" "again" (JS.Number 100000) "2025-05-14T09:32:30.000Z").
Proof.
  rewrite (proj2 (memory_account_ids_count_from_one clear_text None false
                    "2025-05-14T09:00:00.000Z" rough_morning 2) eq_refl).
  apply (bool_decide_unpack _). vm_compute. exact I.
Defined.

(** ** Registration and the lookups *)

Lemma find_app_first {A : Type} (f : A -> bool) (l1 l2 : list A) :
  find f (l1 ++ l2) = match find f l1 with Some x => Some x | None => find f l2 end.
Proof. induction l1 as [|x l1 IH]; [done|]. cbn. by destruct (f x). Qed.

Lemma find_same_id (n : Z) (us : list user) :
  find (fun u => same_id (id u) (Num n)) us = find_user n us.
Proof. done. Qed.

Lemma rows_insert {K A : Type} `{Countable K} (m : gmap K A) (i : K) (x : A) :
  m !! i = None -> rows (<[i := x]> m) ≡ₚ x :: rows m.
Proof. intros Hi. unfold rows. by rewrite map_to_list_insert. Qed.

Lemma elem_of_rows {K A : Type} `{Countable K} (m : gmap K A) (x : A) :
  x ∈ rows m <-> exists i, m !! i = Some x.
Proof.
  unfold rows. rewrite list_elem_of_fmap. split.
  - intros ([i y] & -> & Hin). exists i. by apply elem_of_map_to_list.
  - intros [i Hi]. exists (i, x). split; [done|]. by apply elem_of_map_to_list.
Qed.

Lemma insert_user_new (name hash : string) (bal : JS.value) (now : string)
    (t t' : Sqlite.tables) (u : user) :
  insert_user name hash bal now t = Some (u, t') ->
  u = User (next_user_id (Sqlite.users_table t)) name hash bal now /\
  t' = Sqlite.Tables (<[id u := u]> (Sqlite.users_table t)) (Sqlite.portfolios_table t)
         (Sqlite.transactions_table t) /\
  (forall i v, Sqlite.users_table t !! i = Some v -> username v <> name).
Proof.
  unfold insert_user. case_bool_decide as Hname; [done|]. intros [= <- <-].
  split; [done|]. split; [done|]. intros i v Hv Hn. apply Hname. by exists i, v.
Qed.

Lemma createUser_new (hashSync : string -> string) (w w' : backend)
    (name pass now : string) (u : user) :
  memory_ids w ->
  createUser hashSync w name (Some pass) now = (Some u, w') ->
  account w (id u) = None /\
  u = User (id u) name (hashSync pass) (JS.Number 100000) now /\
  account w' (id u) = Some u /\
  (forall j, j <> id u -> account w' j = account w j) /\
  useMemory w' = useMemory w.
Proof.
  intros Hids Hreg. unfold createUser in Hreg. destruct (useMemory w) eqn:Hmode.
  - injection Hreg as <- <-. cbn [id].
    pose proof (memory_ids_fresh w Hmode Hids) as Hnew.
    split; [by unfold account; rewrite Hmode|]. split; [done|].
    unfold account. cbn [useMemory memoryStore users]. split; [|split; [|done]].
    + by rewrite find_user_snoc, Hnew, bool_decide_eq_true_2.
    + intros j Hj. rewrite Hmode, find_user_snoc. cbn [id].
      destruct (find_user j _); [done|]. by rewrite bool_decide_eq_false_2.
  - destruct (insert_user _ _ _ _ _) as [[v t']|] eqn:Hins; [|done].
    injection Hreg as -> <-. apply insert_user_new in Hins as (Hu & -> & _).
    assert (Hid : id u = next_user_id (Sqlite.users_table (Sqlite.current (db w))))
      by (by rewrite Hu).
    split; [unfold account; rewrite Hmode, Hid; apply next_user_id_fresh|].
    split; [by rewrite Hu|]. unfold account. cbn. split; [|split; [|done]].
    + by rewrite lookup_insert_eq.
    + intros j Hj. rewrite Hmode. by rewrite lookup_insert_ne.
Qed.

Lemma getUserById_Num (numeric : string -> option Z) (w : backend) (i : Z) :
  getUserById numeric w false (Num i)
  = (if useMemory w then whole else id_username_balance) <$> account w i.
Proof. unfold getUserById, account. by destruct (useMemory w). Qed.

(** X5.  Registration and the lookup by id, on both backends.  A new account
    takes an id that no account has; it is then found by this id, with the
    name given and the opening balance of 100000; the in-memory backend
    returns the whole object, password hash included, the SQLite backend
    the columns id, username and balance.  Nothing else in the store
    changes. *)
Theorem registration_round_trip (hashSync : string -> string)
    (numeric : string -> option Z) (w w' : backend) (name pass now : string) (u : user) :
  memory_ids w ->
  createUser hashSync w name (Some pass) now = (Some u, w') ->
  account w (id u) = None /\
  u = User (id u) name (hashSync pass) (JS.Number 100000) now /\
  getUserById numeric w' false (Num (id u))
    = Some (if useMemory w then whole u else id_username_balance u) /\
  (forall j, j <> id u -> account w' j = account w j) /\
  positions w' = positions w /\
  ledger w' = ledger w.
Proof.
  intros Hids Hreg.
  pose proof (createUser_positions hashSync w name (Some pass) now) as Hpos.
  pose proof (createUser_ledger hashSync w name (Some pass) now) as Hled.
  rewrite Hreg in Hpos, Hled. cbn [snd] in Hpos, Hled.
  destruct (createUser_new hashSync w w' name pass now u Hids Hreg)
    as (Hnew & Hu & Hfound & Hothers & Hmode).
  split; [done|]. split; [done|]. split; [|done].
  rewrite getUserById_Num, Hfound, Hmode. by destruct (useMemory w).
Qed.

Lemma registration_round_trip_witness :
  getUserById only_one
    (snd (createUser clear_text (history clear_text sqlite0 rough_morning) "bob"
            (Some "pw"%string) "2025-05-14T11:00:00.000Z")) false (Num 3)
  = Some (UserView 3 "bob" None (JS.Number 100000) None).
Proof.
  pose proof (registration_round_trip clear_text only_one
                (history clear_text sqlite0 rough_morning)
                (snd (createUser clear_text (history clear_text sqlite0 rough_morning)
                        "bob" (Some "pw"%string) "2025-05-14T11:00:00.000Z"))
                "bob" "pw" "2025-05-14T11:00:00.000Z"
                (User 3 "bob" "pw" (JS.Number 100000) "2025-05-14T11:00:00.000Z")
                ltac:(apply (bool_decide_unpack _); vm_compute; exact I)
                ltac:(apply (bool_decide_unpack _); vm_compute; exact I))
    as (_ & _ & Hfound & _).
  exact Hfound.
Defined.

Lemma sqlite_name_taken (w : backend) (name : string) :
  useMemory w = false ->
  is_Some (getUserByUsername w false name)
  <-> map_Exists (fun _ u => username u = name) (Sqlite.users_table (Sqlite.current (db w))).
Proof.
  intros Hmode. unfold getUserByUsername. rewrite Hmode. split.
  - intros [v Hv]. apply head_Some_elem_of, list_elem_of_filter in Hv as [Hname Hin].
    apply elem_of_rows in Hin as [i Hi]. by exists i, v.
  - intros (i & v & Hv & Hname).
    destruct (filter _ _) as [|x l] eqn:Hfilter; [|by eexists].
    assert (Hin : v ∈ filter (fun u => username u = name)
                     (rows (Sqlite.users_table (Sqlite.current (db w))))).
    { apply list_elem_of_filter. split; [done|]. apply elem_of_rows. by exists i. }
    rewrite Hfilter in Hin. by apply elem_of_nil in Hin.
Qed.

Lemma getUserByUsername_None (w : backend) (name : string) :
  getUserByUsername w false name = None ->
  forall j v, account w j = Some v -> username v <> name.
Proof.
  unfold getUserByUsername, account. destruct (useMemory w).
  - intros Hnone j v Hv Hname. unfold find_user in Hv. apply find_some in Hv as [Hin _].
    eapply find_none in Hnone; [|exact Hin]. cbn in Hnone.
    by rewrite bool_decide_eq_true_2 in Hnone.
  - intros Hnone j v Hv Hname. apply head_None in Hnone.
    assert (Hin : v ∈ filter (fun u => username u = name)
                     (rows (Sqlite.users_table (Sqlite.current (db w))))).
    { apply list_elem_of_filter. split; [done|]. apply elem_of_rows. by exists j. }
    rewrite Hnone in Hin. by apply elem_of_nil in Hin.
Qed.

(** X6.  Registration and the lookup by name, on both backends.  When no
    account has the name, the registration succeeds and the new account is
    then the one found by the name. *)
Theorem registered_name_is_found (hashSync : string -> string) (w : backend)
    (name pass now : string) :
  getUserByUsername w false name = None ->
  exists u,
    fst (createUser hashSync w name (Some pass) now) = Some u /\
    username u = name /\
    getUserByUsername (snd (createUser hashSync w name (Some pass) now)) false name = Some u.
Proof.
  intros Hnone. pose proof (getUserByUsername_None w name Hnone) as Hfree.
  unfold createUser, getUserByUsername, account in *. destruct (useMemory w) eqn:Hmode.
  - eexists. split; [done|]. split; [done|]. cbn [snd useMemory memoryStore users].
    rewrite find_app_first, Hnone. cbn. by rewrite bool_decide_eq_true_2.
  - unfold insert_user. rewrite bool_decide_eq_false_2.
    2: { intros (i & v & Hv & Hname). by apply (Hfree i v). }
    eexists. split; [done|]. split; [done|]. cbn.
    assert (Hrows : filter (fun u => username u = name)
              (rows (<[next_user_id (Sqlite.users_table (Sqlite.current (db w))) :=
                       User (next_user_id (Sqlite.users_table (Sqlite.current (db w))))
                         name (hashSync pass) (JS.Number 100000) now]>
                      (Sqlite.users_table (Sqlite.current (db w)))))
            ≡ₚ [User (next_user_id (Sqlite.users_table (Sqlite.current (db w))))
                  name (hashSync pass) (JS.Number 100000) now]).
    { rewrite rows_insert by apply next_user_id_fresh.
      rewrite filter_cons_True by done. apply head_None in Hnone. by rewrite Hnone. }
    apply Permutation_singleton_r in Hrows. by rewrite Hrows.
Qed.

Lemma registered_name_is_found_witness :
  exists u,
    fst (createUser clear_text sqlite0 "bob" (Some "pw"%string) "2025-05-14T11:00:00.000Z")
    = Some u /\
    username u = "bob"%string /\
    getUserByUsername (snd (createUser clear_text sqlite0 "bob" (Some "pw"%string)
                              "2025-05-14T11:00:00.000Z")) false "bob" = Some u.
Proof.
  apply (registered_name_is_found clear_text sqlite0 "bob" "pw" "2025-05-14T11:00:00.000Z").
  apply (bool_decide_unpack _). vm_compute. exact I.
Defined.

(** X7.  A name that is taken.  The SQLite backend refuses the registration
    and changes nothing (the UNIQUE constraint).  The in-memory backend
    has no such check: it registers a second account under the name, with
    another id, and the lookup by name keeps answering with the first. *)
Theorem taken_username (hashSync : string -> string) (w : backend)
    (name pass now : string) (v : user) :
  memory_ids w ->
  getUserByUsername w false name = Some v ->
  (useMemory w = false -> createUser hashSync w name (Some pass) now = (None, w)) /\
  (useMemory w = true ->
   exists u,
     fst (createUser hashSync w name (Some pass) now) = Some u /\
     username u = name /\ username v = name /\ id u <> id v /\
     getUserByUsername (snd (createUser hashSync w name (Some pass) now)) false name = Some v).
Proof.
  intros Hids Hv. unfold getUserByUsername, createUser in *. split; intros Hmode.
  - rewrite Hmode in *. unfold insert_user. rewrite bool_decide_eq_true_2; [done|].
    apply head_Some_elem_of, list_elem_of_filter in Hv as [Hname Hin].
    apply elem_of_rows in Hin as [i Hi]. by exists i, v.
  - rewrite Hmode in *. specialize (Hids Hmode).
    eexists. split; [done|]. cbn [snd useMemory memoryStore users username id].
    pose proof Hv as Hfound. apply find_some in Hfound as [Hin Hname].
    apply bool_decide_eq_true in Hname. split; [done|]. split; [done|]. split.
    + apply list_elem_of_In in Hin.
      assert (Hin' : id v ∈ id <$> users (memoryStore w)) by (by apply list_elem_of_fmap_2).
      rewrite Hids in Hin'. apply list_elem_of_fmap in Hin' as (n & Hn & Hin').
      apply elem_of_seq in Hin'. lia.
    + by rewrite find_app_first, Hv.
Qed.

Lemma taken_username_witness :
  createUser clear_text sqlite0 "demo" (Some "other"%string) "2025-05-14T11:00:00.000Z"
  = (None, sqlite0).
Proof.
  apply (taken_username clear_text sqlite0 "demo" "other" "2025-05-14T11:00:00.000Z"
           (User 1 "demo" "password123" (JS.Number 100000) "2025-05-14T09:00:00.000Z")).
  - apply (bool_decide_unpack _). vm_compute. exact I.
  - apply (bool_decide_unpack _). vm_compute. exact I.
  - reflexivity.
Defined.

(** ** Ids taken from the query string *)

Lemma find_never {A : Type} (l : list A) : find (fun _ => false) l = None.
Proof. by induction l. Qed.

Lemma filter_never {A : Type} (l : list A) : List.filter (fun _ => false) l = [].
Proof. by induction l. Qed.

(** X8.  GET /api/user, /api/portfolio and /api/transactions read the user id
    from the query string, where it is a string.  On the in-memory backend
    a string is never equal to the number an account, a position or a
    record carries: with any [userId] in the query the account is not found
    (404) and the lists are empty, whatever the store holds.  Without
    [userId] the default, the number 1, is used and account 1 is found.
    On the SQLite backend the string is compared as the number it converts
    to. *)
Theorem query_string_ids (numeric : string -> option Z) (w : backend) (query_fails : bool)
    (s : string) :
  s <> ""%string ->
  (useMemory w = true ->
   get_user numeric w query_fails (Some s) = Refusal 404 User_does_not_exist /\
   getPortfolio numeric w query_fails (query_userId (Some s)) = [] /\
   (forall r, get_transactions numeric w query_fails (Some s) r <-> r = Answer []) /\
   get_user numeric w query_fails None
     = from_option (fun u => Answer (whole u)) (Refusal 404 User_does_not_exist)
         (account w 1)) /\
  (useMemory w = false ->
   forall n, numeric s = Some n ->
     get_user numeric w query_fails (Some s)
       = match getUserById numeric w query_fails (Num n) with
         | Some u => Answer u
         | None => Refusal 404 User_does_not_exist
         end /\
     getPortfolio numeric w query_fails (query_userId (Some s))
       = getPortfolio numeric w query_fails (Num n) /\
     (forall r, get_transactions numeric w query_fails (Some s) r
                <-> exists txs, getTransactions numeric w query_fails (Num n) txs /\
                                r = Answer txs)).
Proof.
  intros Hs.
  unfold get_user, get_transactions, getUserById, getPortfolio, getTransactions, query_userId.
  rewrite bool_decide_eq_false_2 by done. split; intros Hmode; rewrite Hmode.
  - cbn [same_id]. rewrite find_never, !filter_never. cbn.
    split; [done|]. split; [done|]. split; [naive_solver|].
    unfold account, find_user. rewrite Hmode.
    by destruct (find _ _).
  - intros n Hn. cbn [bound]. by rewrite Hn.
Qed.

Lemma query_string_ids_witness :
  account memory1 1
  = Some (User 1 "demo" "password123" (JS.Number 99000) "2025-05-14T09:00:00.000Z") /\
  get_user only_one memory1 false (Some "1"%string) = Refusal 404 User_does_not_exist /\
  getPortfolio only_one memory1 false (query_userId (Some "1"%string)) = [] /\
  getPortfolio only_one memory1 false (Num 1)
  = [Holding 1 "AAPL" (JS.Number 10) (JS.Number 100) "2025-05-14T09:30:00.000Z"].
Proof.
  destruct (proj1 (query_string_ids only_one memory1 false "1" ltac:(discriminate)) eq_refl)
    as (Huser & Hport & _).
  split; [apply (bool_decide_unpack _); vm_compute; exact I|].
  split; [exact Huser|]. split; [exact Hport|].
  apply (bool_decide_unpack _). vm_compute. exact I.
Defined.

(** ** The list of transactions *)

Lemma ltb_lt (a b : string) :
  String.ltb a b = true <-> OrderedTypeEx.String_as_OT.lt a b.
Proof.
  unfold String.ltb. rewrite <- OrderedTypeEx.String_as_OT.cmp_lt.
  unfold OrderedTypeEx.String_as_OT.cmp. by destruct (String.compare a b).
Qed.

Lemma compare_refl (a : string) : String.compare a a = Eq.
Proof. exact (proj2 (OrderedTypeEx.String_as_OT.cmp_eq a a) eq_refl). Qed.

Lemma ltb_irrefl (a : string) : String.ltb a a = false.
Proof. unfold String.ltb. by rewrite compare_refl. Qed.

Lemma ltb_trans (a b c : string) :
  String.ltb a b = true -> String.ltb b c = true -> String.ltb a c = true.
Proof.
  rewrite !ltb_lt. apply OrderedTypeEx.String_as_OT.lt_trans.
Qed.

Lemma leb_ltb (a b : string) :
  String.leb a b = true <-> a = b \/ String.ltb a b = true.
Proof.
  unfold String.leb, String.ltb. destruct (String.compare a b) eqn:Hc.
  - apply String.compare_eq_iff in Hc. naive_solver.
  - naive_solver.
  - split; [done|]. intros [->|?]; [|done]. by rewrite compare_refl in Hc.
Qed.

#[local] Instance earlier_trans : Transitive earlier.
Proof. intros a b c. apply ltb_trans. Qed.

#[local] Instance not_before_trans : Transitive not_before.
Proof.
  intros a b c. unfold not_before. rewrite !leb_ltb.
  intros [Hab|Hab] [Hbc|Hbc]; try (left; congruence).
  - right. by rewrite <- Hab.
  - right. by rewrite Hbc.
  - right. by apply (ltb_trans _ (timestamp b)).
Qed.

Lemma Sorted_weaken {A : Type} (R S : relation A) (l : list A) :
  (forall x y, R x y -> S x y) -> Sorted R l -> Sorted S l.
Proof.
  intros HRS. induction 1 as [|x l _ IH Hhd]; constructor; [done|].
  destruct Hhd; constructor; auto.
Qed.

Lemma earlier_timestamps_differ (l : list transaction) (x y : transaction) :
  Sorted earlier l -> x ∈ l -> y ∈ l -> timestamp x = timestamp y -> x = y.
Proof.
  intros Hl. apply Sorted_StronglySorted in Hl; [|apply _].
  induction Hl as [|z l _ IH Hz]; intros Hx Hy Hts; [by apply elem_of_nil in Hx|].
  rewrite Forall_forall in Hz.
  apply elem_of_cons in Hx as [->|Hx]; apply elem_of_cons in Hy as [->|Hy]; auto.
  - specialize (Hz y Hy). unfold earlier in Hz. by rewrite Hts, ltb_irrefl in Hz.
  - specialize (Hz x Hx). unfold earlier in Hz. by rewrite Hts, ltb_irrefl in Hz.
Qed.

Lemma filter_bool_decide {A : Type} (P : A -> Prop) `{!forall x, Decision (P x)}
    (l : list A) :
  List.filter (fun x => bool_decide (P x)) l = filter P l.
Proof.
  induction l as [|x l IH]; [done|]. cbn [List.filter]. rewrite IH, filter_cons.
  case_bool_decide; by case_decide.
Qed.

(** X9.  [getTransactions] returns the records of the account, all of them and
    no other, the latest first: the reverse of the account's log.  On the
    in-memory backend this is so as it stands; on the SQLite backend, where
    the rows are ordered by timestamp, it is so when the timestamps of the
    account's records strictly increase along the log. *)
Theorem transactions_latest_first (numeric : string -> option Z) (w : backend)
    (userId : Z) (r : list transaction) :
  (useMemory w = false -> Sorted earlier (log w userId)) ->
  getTransactions numeric w false (Num userId) r <-> r = reverse (log w userId).
Proof.
  unfold getTransactions, log, ledger. destruct (useMemory w) eqn:Hmode.
  - intros _. cbn [same_id]. by rewrite filter_bool_decide.
  - intros Hlog. specialize (Hlog eq_refl). cbn [bound].
    set (l := filter _ _) in *.
    assert (Hrev : Sorted not_before (reverse l)).
    { apply (Sorted_weaken (flip earlier)); [|by apply Sorted_reverse].
      intros x y Hxy. unfold not_before. apply leb_ltb. by right. }
    split.
    + intros [Hperm Hsorted].
      apply (Sorted_unique_strong not_before); [|done..|by rewrite reverse_Permutation].
      intros x y Hx Hy Hxy Hyx. rewrite Hperm in Hx. rewrite elem_of_reverse in Hy.
      apply (earlier_timestamps_differ l); [done..|].
      unfold not_before in *. by apply String.leb_antisym.
    + intros ->. split; [apply reverse_Permutation|done].
Qed.

Lemma transactions_latest_first_witness :
  getTransactions only_one (history clear_text sqlite0 rough_morning) false (Num 1)
    (reverse (log (history clear_text sqlite0 rough_morning) 1)) /\
  tx_id <$> reverse (log (history clear_text sqlite0 rough_morning) 1) = [4; 2; 1]%Z.
Proof.
  split.
  - refine (proj2 (transactions_latest_first only_one
                     (history clear_text sqlite0 rough_morning) 1 _ _) eq_refl).
    intros _. apply (bool_decide_unpack _). vm_compute. exact I.
  - vm_compute. reflexivity.
Defined.

(** ** The list of positions *)

Lemma getPortfolio_Num (numeric : string -> option Z) (w : backend) (userId : Z) :
  getPortfolio numeric w false (Num userId)
  = filter (fun h => user_id h = userId) (rows (positions w)).
Proof.
  unfold getPortfolio, positions. destruct (useMemory w); [|done].
  cbn [same_id]. by rewrite filter_bool_decide.
Qed.

Lemma keyed_submit (w : backend) (t : trade) :
  idle w -> keyed w -> keyed (snd (submit w t)).
Proof.
  intros Hidle Hkeyed. unfold submit, keyed in *.
  ends w (storage_fails t) (completion t) (by_user t) (on_symbol t) (side t) (at_price t)
    (of_quantity t) (at_time t) Hidle.
  destruct (account w (by_user t)) as [u|] eqn:Hu; [|by injection Hend as _ ->].
  assert (Hbuy : map_Forall (fun k h => user_id h = k.1 /\ symbol h = k.2)
            (<[(by_user t, on_symbol t) :=
                 bought w (by_user t) (on_symbol t) (at_price t) (of_quantity t) (at_time t)]>
               (positions w))).
  { apply map_Forall_insert_2; [|done]. unfold bought.
    destruct (positions w !! _) as [p|] eqn:Hp; [|done]. by apply Hkeyed in Hp. }
  assert (Hsell : forall p, positions w !! (by_user t, on_symbol t) = Some p ->
            map_Forall (fun k h => user_id h = k.1 /\ symbol h = k.2)
              (sold w p (by_user t) (on_symbol t) (of_quantity t) (at_time t))).
  { intros p Hp. unfold sold.
    destruct (_ =? _)%float.
    - by apply map_Forall_delete.
    - apply map_Forall_insert_2; [|done]. by apply Hkeyed in Hp. }
  repeat first [case_bool_decide | case_match]; unpack; try done;
    rewrite ?applied_positions, ?commit_positions; try case_match; eauto.
Qed.

Lemma keyed_after (w : backend) (ts : list trade) :
  idle w -> keyed w -> keyed (after w ts).
Proof.
  intros Hidle Hkeyed.
  apply (after_invariant keyed (fun _ => True)); [|done..|by apply Forall_true].
  intros w' t Hidle' Hk _. by apply keyed_submit.
Qed.

(** X10.  [getPortfolio] lists the positions of the account, each symbol once
    and no position of another account, after any sequence of calls made
    on a store in which every position entry carries the account and the
    symbol it is stored under. *)
Theorem portfolio_lists_the_positions (numeric : string -> option Z) (w : backend)
    (ts : list trade) (userId : Z) :
  idle w -> keyed w ->
  (forall h, h ∈ getPortfolio numeric (after w ts) false (Num userId)
             <-> positions (after w ts) !! (userId, symbol h) = Some h) /\
  NoDup (symbol <$> getPortfolio numeric (after w ts) false (Num userId)).
Proof.
  intros Hidle Hkeyed. pose proof (keyed_after w ts Hidle Hkeyed) as Hk.
  rewrite getPortfolio_Num. generalize dependent (after w ts). intros w' Hk.
  unfold keyed in Hk. split.
  - intros h. rewrite list_elem_of_filter, elem_of_rows. split.
    + intros [Hid [[j s] Hh]]. pose proof (Hk _ _ Hh) as [Hj Hs]. cbn in Hj, Hs.
      by rewrite <- Hid, Hj, Hs.
    + intros Hh. pose proof (Hk _ _ Hh) as [Hj _]. split; [done|]. by eexists.
  - apply NoDup_fmap_2_strong.
    + intros h1 h2. rewrite !list_elem_of_filter, !elem_of_rows.
      intros [Hid1 [[j1 s1] Hh1]] [Hid2 [[j2 s2] Hh2]] Hsym.
      pose proof (Hk _ _ Hh1) as [Hj1 Hs1]. pose proof (Hk _ _ Hh2) as [Hj2 Hs2].
      cbn in *. assert (Heq : (j1, s1) = (j2, s2)) by congruence.
      rewrite Heq in Hh1. congruence.
    + apply NoDup_filter. unfold rows. apply NoDup_fmap_2_strong.
      * intros [[j1 s1] h1] [[j2 s2] h2] Hin1 Hin2 Heq. cbn in Heq. subst h2.
        apply elem_of_map_to_list in Hin1, Hin2.
        pose proof (Hk _ _ Hin1) as [? ?]. pose proof (Hk _ _ Hin2) as [? ?].
        cbn in *. congruence.
      * apply NoDup_map_to_list.
Qed.

Lemma portfolio_lists_the_positions_witness :
  (Holding 1 "AAPL" (JS.Number 10) (JS.Number 100) "2025-05-14T09:30:00.000Z"
     ∈ getPortfolio only_one
         (after memory0
            [Trade 1 "AAPL" "BUY" 100 10 "2025-05-14T09:30:00.000Z" false []])
         false (Num 1)).
Proof.
  apply (proj1 (portfolio_lists_the_positions only_one memory0
                  [Trade 1 "AAPL" "BUY" 100 10 "2025-05-14T09:30:00.000Z" false []]
                  1 eq_refl ltac:(apply (bool_decide_unpack _); vm_compute; exact I))).
  apply (bool_decide_unpack _). vm_compute. exact I.
Defined.

(** ** POST /api/trade *)

(** X11.  The handler of POST /api/trade always answers, and leaves the
    connection outside a transaction.  It takes a quantity or a price that
    is falsy (the number 0, the empty string) for a missing parameter: such
    a request is refused with status 400 and the store is unchanged.  Every
    record the route adds to the log has a symbol and a type that are not
    empty and a user id other than 0 (0 stands for the default user 1).
    Its quantity can be 0: the quantity 0.5 passes the test, [parseInt]
    makes 0 of it, and the purchase of no share is recorded. *)
Theorem post_trade_always_answers (w : backend) (record_fails : bool)
    (order : list nat) (b : trade_body) (now : string) :
  idle w ->
  fst (post_trade w record_fails order b now) <> No_answer /\
  idle (snd (post_trade w record_fails order b now)) /\
  ((exists v, (body_quantity b = Some v \/ body_price b = Some v) /\ JS.truthy v = false) ->
   post_trade w record_fails order b now = (Refusal 400 Missing_trade_parameters, w)) /\
  (ledger (snd (post_trade w record_fails order b now)) = ledger w \/
   exists tx,
     ledger (snd (post_trade w record_fails order b now)) = ledger w ++ [tx] /\
     tx_symbol tx <> ""%string /\ tx_type tx <> ""%string /\ tx_user_id tx <> 0%Z) /\
  (JS.truthy (JS.JNumber 0) = false /\ JS.truthy (JS.JString "") = false /\
   JS.truthy (JS.JNumber 0.5) = true /\ JS.parseInt (JS.JNumber 0.5) = 0%float /\
   ledger (snd (post_trade memory0 false []
                  (TradeBody (Some 1%Z) (Some "AAPL"%string) (Some "BUY"%string)
                     (Some (JS.JNumber 0.5)) (Some (JS.JNumber 10)))
                  "2025-05-14T09:31:00.000Z"))
   = [Transaction 1 1 "AAPL" "BUY" (JS.Number 10) (JS.Number 0) (JS.Number 0)
        "2025-05-14T09:31:00.000Z"]).
Proof.
  intros Hidle. split; [|split; [|split; [|split]]]; [| | | |by_evaluation];
    unfold post_trade.
  all: destruct (body_symbol b) as [sym|]; [|by auto].
  all: destruct (body_type b) as [type|]; [|by auto].
  all: destruct (body_quantity b) as [qty|]; [|by auto].
  all: destruct (body_price b) as [price|]; [|by auto].
  all: destruct (bool_decide (sym = ""%string)) eqn:Hsym; cbn [orb]; [by auto|].
  all: destruct (bool_decide (type = ""%string)) eqn:Htype; cbn [orb]; [by auto|].
  all: destruct (JS.truthy qty) eqn:Hqty; cbn [orb negb]; [|by auto].
  all: destruct (JS.truthy price) eqn:Hprice; cbn [orb negb]; [|by auto].
  all: apply bool_decide_eq_false in Hsym, Htype.
  all: pose proof (executeTrade_settles w record_fails order (body_user b) sym type
                     (JS.parseFloat price) (JS.parseInt qty) now Hidle) as [Hsettles Hidle'].
  all: pose proof (executeTrade_ledger w record_fails order (body_user b) sym type
                     (JS.parseFloat price) (JS.parseInt qty) now Hidle) as Hledger.
  all: assert (Huser : body_user b <> 0%Z)
         by (unfold body_user; destruct (body_userId b); [case_bool_decide|]; done).
  all: destruct (executeTrade w record_fails order (body_user b) sym type
                   (JS.parseFloat price) (JS.parseInt qty) now)
         as [[bal tx|e|] w']; cbn [fst snd trade_response] in *; try done.
  all: try (intros (v & [[= <-]|[= <-]] & Hv); congruence).
  all: destruct Hledger as [?|?]; [by left|right]; by eexists.
Qed.

Lemma post_trade_always_answers_witness :
  post_trade sqlite1 false []
    (TradeBody (Some 1%Z) (Some "AAPL"%string) (Some "SELL"%string) (Some (JS.JNumber 0))
       (Some (JS.JNumber 12))) "2025-05-14T09:31:00.000Z"
  = (Refusal 400 Missing_trade_parameters, sqlite1).
Proof.
  apply (post_trade_always_answers sqlite1 false []
           (TradeBody (Some 1%Z) (Some "AAPL"%string) (Some "SELL"%string)
              (Some (JS.JNumber 0)) (Some (JS.JNumber 12))) "2025-05-14T09:31:00.000Z").
  - apply (bool_decide_unpack _). vm_compute. exact I.
  - exists (JS.JNumber 0). split; [by left|reflexivity].
Defined.

(** X12.  A first purchase made through the route, when it is answered
    with success, for every order of completion.  The SQLite backend
    stores the position with [parseInt(quantity)] and [parseFloat(price)]
    as it binds them, the numbers themselves when they are above zero.  The
    in-memory backend stores the quantity [0 + parseInt(quantity)] and the
    average cost [(0 × 0 + price × quantity) / (0 + quantity)], in
    doubles. *)
Theorem first_purchase_through_the_route (w : backend) (record_fails : bool)
    (order : list nat) (b : trade_body) (now sym : string) (quantity' price' : JS.json)
    (r : JS.value * option transaction) :
  idle w ->
  body_symbol b = Some sym -> body_type b = Some "BUY"%string ->
  body_quantity b = Some quantity' -> body_price b = Some price' ->
  positions w !! (body_user b, sym) = None ->
  fst (post_trade w record_fails order b now) = Answer r ->
  (useMemory w = false ->
   positions (snd (post_trade w record_fails order b now)) !! (body_user b, sym)
   = Some (Holding (body_user b) sym (Sqlite.bind (JS.parseInt quantity'))
             (Sqlite.bind (JS.parseFloat price')) now) /\
   ((0 <? JS.parseInt quantity')%float = true ->
    Sqlite.bind (JS.parseInt quantity') = JS.Number (JS.parseInt quantity')) /\
   ((0 <? JS.parseFloat price')%float = true ->
    Sqlite.bind (JS.parseFloat price') = JS.Number (JS.parseFloat price'))) /\
  (useMemory w = true ->
   positions (snd (post_trade w record_fails order b now)) !! (body_user b, sym)
   = Some (Holding (body_user b) sym (JS.Number (0 + JS.parseInt quantity'))
             (JS.Number ((0 * 0 + JS.parseFloat price' * JS.parseInt quantity')
                         / (0 + JS.parseInt quantity'))) now)).
Proof.
  intros Hidle Hsym Htype Hqty Hprice Hnone. unfold post_trade.
  rewrite Hsym, Htype, Hqty, Hprice.
  rewrite (bool_decide_eq_false_2 ("BUY"%string = ""%string)) by done.
  destruct (bool_decide (sym = ""%string)); cbn [orb]; [done|].
  destruct (JS.truthy quantity'); cbn [orb negb]; [|done].
  destruct (JS.truthy price'); cbn [orb negb]; [|done].
  ends w record_fails order (body_user b) sym "BUY"%string (JS.parseFloat price')
    (JS.parseInt quantity') now Hidle.
  destruct o as [bal tx| |]; cbn [fst snd trade_response]; [|done..]. intros _.
  destruct (account w (body_user b)) as [u|]; [|by injection Hend as ? ?].
  rewrite bool_decide_eq_true_2 in Hend by done.
  assert (Hw' : w' = commit (body_user b) u
                  (debited w (balance u) (JS.parseFloat price' * JS.parseInt quantity'))
                  (<[(body_user b, sym) :=
                       bought w (body_user b) sym (JS.parseFloat price')
                         (JS.parseInt quantity') now]> (positions w))
                  (recorded w (body_user b) sym "BUY" (JS.parseFloat price')
                     (JS.parseInt quantity') now) w).
  { repeat first [case_bool_decide | case_match]; unpack; done. }
  subst w'. rewrite commit_positions, lookup_insert_eq. unfold bought.
  rewrite Hnone. unfold first_quantity, first_average. split; intros ->; [|done].
  split; [done|]. split; intros Hpos; by apply bind_unsigned, above_zero_unsigned.
Qed.

Lemma first_purchase_through_the_route_witness :
  positions (snd (post_trade memory0 false []
                    (TradeBody None (Some "AAPL"%string) (Some "BUY"%string)
                       (Some (JS.JNumber 3)) (Some (JS.JString "7.5")))
                    "2025-05-14T09:31:00.000Z"))
    !! (1%Z, "AAPL"%string)
  = Some (Holding 1 "AAPL" (JS.Number 3) (JS.Number 7.5) "2025-05-14T09:31:00.000Z").
Proof.
  etrans.
  - exact (proj2 (first_purchase_through_the_route memory0 false []
           (TradeBody None (Some "AAPL"%string) (Some "BUY"%string)
              (Some (JS.JNumber 3)) (Some (JS.JString "7.5")))
           "2025-05-14T09:31:00.000Z" "AAPL" (JS.JNumber 3) (JS.JString "7.5")
           (JS.Number 99977.5,
            Some (Transaction 1 1 "AAPL" "BUY" (JS.Number 7.5) (JS.Number 3) (JS.Number 22.5)
                    "2025-05-14T09:31:00.000Z"))
           eq_refl eq_refl eq_refl eq_refl eq_refl eq_refl
           ltac:(apply (bool_decide_unpack _); vm_compute; exact I)) eq_refl).
  - apply (bool_decide_unpack _). vm_compute. exact I.
Defined.

(** ** A purchase followed by a sale *)

Lemma write_never_fails (w : backend) : write_fails w false = false.
Proof. unfold write_fails. by rewrite andb_false_r. Qed.

(** X13.  Buying and then selling the same quantity of a symbol at the
    same price, when the funds suffice for the purchase, the position
    after it covers the sale and the storage does not fail: both calls are
    committed, whatever the order in which the statements of either call
    complete, two records are added to the log, and the balance is the old
    one less the cost and plus the cost again, each step rounded to a
    double.  That is the old balance in the first example below and not in
    the second, where 99999.7 becomes 99999.69999999998. *)
Theorem purchase_followed_by_sale (w w1 w2 : backend) (order1 order2 : list nat)
    (userId : Z) (sym : string) (price qty : float) (now1 now2 : string) (u : user)
    (r1 r2 : outcome) :
  idle w ->
  account w userId = Some u ->
  JS.lt (balance u) (JS.Number (price * qty)) = false ->
  JS.lt (quantity (bought w userId sym price qty now1)) (JS.Number qty) = false ->
  executeTrade w false order1 userId sym "BUY" price qty now1 = (r1, w1) ->
  executeTrade w1 false order2 userId sym "SELL" price qty now2 = (r2, w2) ->
  ((exists b tx, r1 = Resolved b tx) /\ (exists b tx, r2 = Resolved b tx) /\
   account w2 userId
   = Some (set_balance
             (credited w (debited w (balance u) (price * qty)) (price * qty)) u) /\
   length (ledger w2) = S (S (length (ledger w)))) /\
  (balance <$>
     account (after sqlite1
                [Trade 1 "AAPL" "BUY" 20 4 "2025-05-14T09:40:00.000Z" false [0; 0; 2; 3]%nat;
                 Trade 1 "AAPL" "SELL" 20 4 "2025-05-14T09:41:00.000Z" false
                   [0; 0; 1; 2; 1]%nat]) 1
   = balance <$> account sqlite1 1) /\
  (balance <$>
     account (after memory0
                [Trade 1 "MSFT" "BUY" 0.1 3 "2025-05-14T09:39:00.000Z" false []]) 1
   = Some (JS.Number 99999.7) /\
   balance <$>
     account (after memory0
                [Trade 1 "MSFT" "BUY" 0.1 3 "2025-05-14T09:39:00.000Z" false [];
                 Trade 1 "AAPL" "BUY" 2049.1800000000003 1 "2025-05-14T09:40:00.000Z"
                   false [];
                 Trade 1 "AAPL" "SELL" 2049.1800000000003 1 "2025-05-14T09:41:00.000Z"
                   false []]) 1
   = Some (JS.Number 99999.69999999998)).
Proof.
  intros Hidle Hu Hfunds Hheld H1 H2. split; [|split; by_evaluation].
  pose proof (executeTrade_settles w false order1 userId sym "BUY" price qty now1 Hidle)
    as [_ Hidle1].
  pose proof (executeTrade_may_end w false order1 userId sym "BUY" price qty now1 Hidle)
    as Hend1.
  rewrite H1 in Hidle1, Hend1. cbn [snd] in Hidle1.
  unfold may_end, passed in Hend1. rewrite Hu in Hend1.
  rewrite bool_decide_eq_true_2 in Hend1 by done.
  rewrite Hfunds, write_never_fails in Hend1. cbn [fst snd] in Hend1.
  destruct Hend1 as [Hr1 ->].
  set (t := (price * qty)%float) in *.
  set (pf1 := <[(userId, sym) := bought w userId sym price qty now1]> (positions w)) in *.
  set (tx1 := recorded w userId sym "BUY" price qty now1) in *.
  set (w1 := commit userId u (debited w (balance u) t) pf1 tx1 w) in *.
  assert (Hu1 : account w1 userId = Some (set_balance (debited w (balance u) t) u)).
  { unfold w1. rewrite commit_account by done. by rewrite bool_decide_eq_true_2. }
  assert (Hp1 : positions w1 !! (userId, sym) = Some (bought w userId sym price qty now1)).
  { unfold w1. rewrite commit_positions. apply lookup_insert_eq. }
  assert (Hmode : useMemory w1 = useMemory w) by apply commit_mode.
  pose proof (executeTrade_may_end _ false order2 userId sym "SELL" price qty now2 Hidle1)
    as Hend2.
  rewrite H2 in Hend2. unfold may_end, passed in Hend2. rewrite Hu1, Hp1 in Hend2.
  rewrite (bool_decide_eq_false_2 ("SELL"%string = "BUY"%string)) in Hend2 by done.
  rewrite Hheld, write_never_fails in Hend2. cbn [fst snd balance set_balance] in Hend2.
  fold t in Hend2. destruct Hend2 as [Hr2 ->].
  split; [destruct Hr1 as [->|[_ ->]]; eauto|].
  split; [destruct Hr2 as [->|[_ ->]]; eauto|].
  split.
  - rewrite commit_account by done. rewrite bool_decide_eq_true_2 by done.
    unfold credited. rewrite Hmode. by destruct u.
  - unfold w1. rewrite !commit_ledger, !length_app. cbn. lia.
Qed.

Lemma purchase_followed_by_sale_witness :
  account (snd (executeTrade
                  (snd (executeTrade sqlite1 false [0; 0; 2; 3]%nat 1 "AAPL" "BUY" 20 4
                          "2025-05-14T09:40:00.000Z"))
                  false [0; 0; 1; 2; 1]%nat 1 "AAPL" "SELL" 20 4
                  "2025-05-14T09:41:00.000Z")) 1
  = Some (set_balance (credited sqlite1 (debited sqlite1 (JS.Number 99950) (20 * 4)) (20 * 4))
            (User 1 "demo" "password123" (JS.Number 99950) "2025-05-14T09:00:00.000Z")).
Proof.
  refine (proj1 (proj2 (proj2 (proj1
    (purchase_followed_by_sale sqlite1 _ _ [0; 0; 2; 3]%nat [0; 0; 1; 2; 1]%nat 1 "AAPL"
       20 4 "2025-05-14T09:40:00.000Z" "2025-05-14T09:41:00.000Z"
       (User 1 "demo" "password123" (JS.Number 99950) "2025-05-14T09:00:00.000Z")
       _ _ _ _ _ _ (surjective_pairing _) (surjective_pairing _)))))).
  - apply (bool_decide_unpack _). vm_compute. exact I.
  - apply (bool_decide_unpack _). vm_compute. exact I.
  - vm_compute. reflexivity.
  - vm_compute. reflexivity.
Defined.

(** ** The two backends side by side *)

Lemma held_quantity (w : backend) (userId : Z) (sym : string) :
  held w userId sym = default (JS.Number 0) (quantity <$> positions w !! (userId, sym)).
Proof. unfold held. by destruct (positions w !! (userId, sym)). Qed.

(** The quantity of the position after a purchase of a quantity above
    zero, in a store whose quantities have the sign bit clear. *)
Lemma bought_quantity (w : backend) (userId : Z) (sym : string) (price qty : float)
    (now : string) :
  map_Forall (fun _ p => exists q, quantity p = JS.Number q /\ JS.unsigned q) (positions w) ->
  (0 <? qty)%float = true ->
  quantity (bought w userId sym price qty now)
  = JS.Number (JS.to_number (held w userId sym) + qty) /\
  JS.unsigned (JS.to_number (held w userId sym) + qty).
Proof.
  intros Hqty Hq. unfold bought, held.
  destruct (positions w !! (userId, sym)) as [p|] eqn:Hp; cbn.
  - destruct (Hqty _ _ Hp) as (q0 & Hq0 & Hq0'). cbn in Hq0. rewrite Hq0. cbn.
    assert (Hsum : JS.unsigned (q0 + qty)).
    { apply add_sign; auto using unsigned_at_least_zero, above_zero_at_least,
        above_zero_unsigned. }
    by rewrite stored_unsigned.
  - rewrite first_quantity_above_zero, zero_add by done.
    split; [done|]. by apply above_zero_unsigned.
Qed.

(** The positions after a sale that passes the holdings test. *)
Lemma sold_quantity (w : backend) (p : holding) (userId : Z) (sym : string) (qty q0 : float)
    (now : string) :
  map_Forall (fun _ p => exists q, quantity p = JS.Number q /\ JS.unsigned q) (positions w) ->
  quantity p = JS.Number q0 -> JS.unsigned q0 ->
  is_finite qty = true -> (q0 <? qty)%float = false ->
  quantity <$> sold w p userId sym qty now !! (userId, sym)
  = (if (q0 - qty =? 0)%float then None else Some (JS.Number (q0 - qty))) /\
  map_Forall (fun _ p => exists q, quantity p = JS.Number q /\ JS.unsigned q)
    (sold w p userId sym qty now).
Proof.
  intros Hqty Hq0 Hq0' Hfinite Hheld. unfold sold. rewrite Hq0. cbn.
  destruct (sub_sign q0 qty) as [_ Hrest]; try done; [by apply unsigned_not_nan|].
  specialize (Hrest Hq0').
  destruct (q0 - qty =? 0)%float.
  - rewrite lookup_delete_eq. split; [done|]. by apply map_Forall_delete.
  - rewrite lookup_insert_eq. cbn. rewrite stored_unsigned by done. split; [done|].
    apply map_Forall_insert_2; [|done]. cbn. eauto.
Qed.

Lemma unsigned_numbers_commit (w : backend) (userId : Z) (u : user) (b : float)
    (pf : gmap key holding) (tx : transaction) :
  unsigned_numbers w -> account w userId = Some u -> JS.unsigned b ->
  map_Forall (fun _ p => exists q, quantity p = JS.Number q /\ JS.unsigned q) pf ->
  unsigned_numbers (commit userId u (JS.Number b) pf tx w).
Proof.
  intros [Hbal Hqty] Hu Hb Hpf. split.
  - apply commit_every_account; [done| |done]. cbn. eauto.
  - by rewrite commit_positions.
Qed.

Lemma same_content_commit (m s : backend) (userId : Z) (u : user) (bal : JS.value)
    (pfm pfs : gmap key holding) (tx : transaction) :
  same_content m s -> account m userId = Some u ->
  (forall k, quantity <$> pfm !! k = quantity <$> pfs !! k) ->
  same_content (commit userId u bal pfm tx m) (commit userId u bal pfs tx s).
Proof.
  intros (Hm & Hs & Hacc & Hpos & Hled) Hu Hpf.
  split; [by rewrite commit_mode|]. split; [by rewrite commit_mode|]. split; [|split].
  - intros j. rewrite !commit_account by (by rewrite <- ?Hacc). by rewrite Hacc.
  - by rewrite !commit_positions.
  - by rewrite !commit_ledger, Hled.
Qed.

Lemma same_content_step (m s : backend) (t : trade) :
  same_content m s -> unsigned_numbers m -> unsigned_numbers s ->
  idle m -> idle s -> numbered (ledger s) -> plain t ->
  same_content (snd (submit m t)) (snd (submit s t)) /\
  unsigned_numbers (snd (submit m t)) /\ unsigned_numbers (snd (submit s t)) /\
  same_answer (fst (submit m t)) (fst (submit s t)).
Proof.
  intros Hsame Hum Hus Hidlem Hidles Hn ((Hprice & Hquantity & Hfinite) & Hfail & Horder).
  pose proof Hsame as (Hm & Hs & Hacc & Hpos & Hled).
  pose proof Hum as [Hbm Hqm]. pose proof Hus as [Hbs Hqs].
  unfold amount in Hfinite.
  assert (Hcost : JS.unsigned (at_price t * of_quantity t)) by by apply mul_sign.
  assert (Hfinite' : is_finite (of_quantity t) = true) by by apply (finite_factor (at_price t)).
  unfold submit. rewrite Hfail, Horder.
  rewrite !executeTrade_closed_form by auto. unfold closed_form.
  assert (Hid : next_record_id m = next_record_id s).
  { rewrite (numbered_next_record_id s Hn), <- Hled. unfold next_record_id, ledger.
    by rewrite Hm. }
  assert (Hrec : recorded m (by_user t) (on_symbol t) (side t) (at_price t) (of_quantity t)
                   (at_time t)
                 = recorded s (by_user t) (on_symbol t) (side t) (at_price t) (of_quantity t)
                     (at_time t)).
  { unfold recorded. rewrite Hid.
    by rewrite !(stored_above_zero _ _ Hprice), !(stored_above_zero _ _ Hquantity),
      !(stored_unsigned _ _ Hcost). }
  rewrite !write_never_fails, <- Hacc, Hrec.
  destruct (account m (by_user t)) as [u|] eqn:Hu; [|done].
  destruct (every_account_lookup _ _ _ _ Hbm Hu) as (b & Hb & Hb'). cbn in Hb.
  assert (Hus' : account s (by_user t) = Some u) by (by rewrite <- Hacc).
  assert (Hheld : held m (by_user t) (on_symbol t) = held s (by_user t) (on_symbol t))
    by (by rewrite !held_quantity, Hpos).
  case_bool_decide as Hside.
  - (* BUY *)
    rewrite Hb. destruct (JS.lt _ _) eqn:Hfunds; [done|]. cbn [fst snd].
    unfold JS.lt in Hfunds. cbn in Hfunds.
    destruct (debited_unsigned m b _ Hb' Hcost Hfinite Hfunds) as [-> Hnew].
    destruct (debited_unsigned s b _ Hb' Hcost Hfinite Hfunds) as [-> _].
    destruct (bought_quantity m (by_user t) (on_symbol t) (at_price t) (of_quantity t)
                (at_time t) Hqm Hquantity) as [Hbqm Hbqm'].
    destruct (bought_quantity s (by_user t) (on_symbol t) (at_price t) (of_quantity t)
                (at_time t) Hqs Hquantity) as [Hbqs Hbqs'].
    split; [|split; [|split; [|done]]].
    + apply same_content_commit; [done..|]. intros k.
      destruct (decide (k = (by_user t, on_symbol t))) as [->|Hk].
      * rewrite !lookup_insert_eq. cbn. by rewrite Hbqm, Hbqs, Hheld.
      * by rewrite !lookup_insert_ne.
    + apply unsigned_numbers_commit; [done..|].
      apply map_Forall_insert_2; [|done]. eauto.
    + apply unsigned_numbers_commit; [done..|].
      apply map_Forall_insert_2; [|done]. eauto.
  - (* SELL *)
    pose proof (Hpos (by_user t, on_symbol t)) as Hmine.
    destruct (positions m !! (by_user t, on_symbol t)) as [pm|] eqn:Hpm,
      (positions s !! (by_user t, on_symbol t)) as [ps|] eqn:Hps; try done.
    injection Hmine as Hmine. rewrite <- Hmine.
    destruct (Hqm _ _ Hpm) as (q0 & Hq0 & Hq0'). cbn in Hq0. rewrite Hq0.
    destruct (JS.lt _ _) eqn:Hsold; [done|]. cbn [fst snd].
    unfold JS.lt in Hsold. cbn in Hsold. rewrite Hb.
    destruct (credited_unsigned m b (at_price t * of_quantity t) Hb' Hcost) as [-> Hnew].
    destruct (credited_unsigned s b (at_price t * of_quantity t) Hb' Hcost) as [-> _].
    destruct (sold_quantity m pm (by_user t) (on_symbol t) (of_quantity t) q0 (at_time t))
      as [Hsm Hsm']; try done.
    destruct (sold_quantity s ps (by_user t) (on_symbol t) (of_quantity t) q0 (at_time t))
      as [Hss Hss']; try done; [congruence|].
    split; [|split; [|split; [|done]]].
    + apply same_content_commit; [done..|]. intros k.
      destruct (decide (k = (by_user t, on_symbol t))) as [->|Hk].
      * by rewrite Hsm, Hss.
      * by rewrite !sold_other.
    + by apply unsigned_numbers_commit.
    + by apply unsigned_numbers_commit.
Qed.

Lemma numbered_after (w : backend) (ts : list trade) :
  idle w -> numbered (ledger w) -> numbered (ledger (after w ts)).
Proof.
  intros Hidle Hn.
  apply (after_invariant (fun w' => numbered (ledger w')) (fun _ => True));
    [|done..|by apply Forall_true].
  intros w' t Hidle' Hn' _. by apply numbered_submit.
Qed.

Lemma fresh_backends_same_content (hashSync : string -> string) (created : bool)
    (now : string) :
  same_content (initDatabase hashSync None created now)
    (initDatabase hashSync (Some no_tables) true now).
Proof.
  unfold same_content, initDatabase, insert_user, no_tables. cbn [Sqlite.users_table].
  rewrite bool_decide_eq_true_2 by done.
  rewrite bool_decide_eq_false_2 by apply map_Exists_empty.
  assert (Hfirst : next_user_id ∅ = 1%Z) by (unfold next_user_id; by rewrite map_fold_empty).
  rewrite Hfirst. split; [done|]. split; [done|]. split; [|done].
  intros j. unfold account, find_user. cbn.
  destruct (decide (j = 1%Z)) as [->|Hj].
  - by rewrite lookup_insert_eq.
  - rewrite bool_decide_eq_false_2 by done. by rewrite lookup_insert_ne.
Qed.

(** The numbers of two stores with the same content are of the same kind. *)
Lemma same_content_unsigned (m s : backend) :
  same_content m s -> unsigned_numbers m -> unsigned_numbers s.
Proof.
  intros (Hm & Hs & Hacc & Hpos & _) [Hbal Hqty]. split.
  - unfold every_account. rewrite Hs. intros j u Hu.
    apply (every_account_lookup _ m j u Hbal). rewrite Hacc. unfold account. by rewrite Hs.
  - intros k p Hp. specialize (Hpos k). rewrite Hp in Hpos.
    destruct (positions m !! k) as [pm|] eqn:Hpm; [|done].
    injection Hpos as Hpos. cbn. rewrite <- Hpos. by apply (Hqty k).
Qed.

(** X14.  From stores with the same balances, the same quantities held
    and the same log, all numbers with the sign bit clear, the in-memory
    backend and the SQLite backend stay together: after any sequence of
    calls with a price and a quantity above zero and a finite
    price × quantity, made while the storage does not fail and with the
    statements completing in the order of issue, the accounts, the
    quantity of every position and the log are the same, and each call
    was answered alike (resolved with the same balance, or rejected for
    the same reason).  (The average costs are not compared: they differ
    after a first purchase such as BUY 7 @ 170.11.) *)
Theorem backends_agree_in_issue_order (m s : backend) (ts : list trade) :
  same_content m s -> unsigned_numbers m -> idle m -> idle s -> numbered (ledger s) ->
  Forall plain ts ->
  same_content (after m ts) (after s ts) /\
  Forall2 same_answer (answers m ts) (answers s ts).
Proof.
  intros Hsame Hum. pose proof (same_content_unsigned m s Hsame Hum) as Hus.
  revert m s Hsame Hum Hus.
  induction ts as [|t ts IH]; intros m s Hsame Hum Hus Hidlem Hidles Hn Hts.
  { split; [done|constructor]. }
  inversion Hts as [|? ? Ht Hts']; subst.
  destruct (same_content_step m s t Hsame Hum Hus Hidlem Hidles Hn Ht)
    as (Hsame' & Hum' & Hus' & Hanswer).
  destruct (IH (snd (submit m t)) (snd (submit s t))) as [Hafter Hanswers]; try done.
  - by apply executeTrade_settles.
  - by apply executeTrade_settles.
  - by apply numbered_submit.
  - split; [done|]. cbn [answers]. by constructor.
Qed.

Lemma backends_agree_in_issue_order_witness :
  ledger (after memory0
            [Trade 1 "AAPL" "BUY" 170.11 7 "2025-05-14T09:30:00.000Z" false [];
             Trade 1 "MSFT" "SELL" 50 3 "2025-05-14T09:32:00.000Z" false [];
             Trade 1 "AAPL" "SELL" 180 4 "2025-05-14T09:35:00.000Z" false []])
  = ledger (after sqlite0
              [Trade 1 "AAPL" "BUY" 170.11 7 "2025-05-14T09:30:00.000Z" false [];
               Trade 1 "MSFT" "SELL" 50 3 "2025-05-14T09:32:00.000Z" false [];
               Trade 1 "AAPL" "SELL" 180 4 "2025-05-14T09:35:00.000Z" false []]).
Proof.
  apply (backends_agree_in_issue_order memory0 sqlite0).
  - apply (fresh_backends_same_content clear_text false).
  - split.
    + constructor; [|constructor]. exists 100000%float. split; reflexivity.
    + apply map_Forall_empty.
  - reflexivity.
  - reflexivity.
  - reflexivity.
  - apply (bool_decide_unpack _). vm_compute. exact I.
Defined.

(** ** Every call comes to an end *)

(** X15.  Whatever the order in which the statements complete and whether or
    not the storage fails, a call on a connection that is outside a
    transaction settles its promise, leaves no statement waiting and
    leaves the connection outside a transaction: eight statements are
    enough on every path, and every path ends with a COMMIT or a ROLLBACK
    that is run. *)
Theorem every_call_comes_to_an_end (w : backend) (record_fails : bool) (order : list nat)
    (userId : Z) (sym type : string) (price qty : float) (now : string) :
  idle w ->
  fst (executeTrade w record_fails order userId sym type price qty now) <> Pending /\
  idle (snd (executeTrade w record_fails order userId sym type price qty now)) /\
  Sqlite.queue (Sqlite.executeTrade userId sym type price qty now record_fails order (db w))
  = [].
Proof.
  intros Hidle.
  destruct (executeTrade_settles w record_fails order userId sym type price qty now Hidle)
    as [Hsettled Hidle'].
  split; [done|]. split; [done|].
  destruct w as [mode m [t b]]. unfold idle in Hidle. cbn in Hidle. subst b. cbn [db].
  by destruct (executeTrade_in_any_order userId sym type price qty now record_fails order t)
    as (Hqueue & _).
Qed.

Lemma every_call_comes_to_an_end_witness :
  idle (snd (executeTrade sqlite1 true [3; 1; 4; 1; 5; 9; 2; 6]%nat 1 "AAPL" "SELL"
               12 5 "2025-05-14T09:31:00.000Z")) /\
  Sqlite.queue (Sqlite.executeTrade 1 "AAPL" "SELL" 12 5 "2025-05-14T09:31:00.000Z"
                  true [3; 1; 4; 1; 5; 9; 2; 6]%nat (db sqlite1)) = [].
Proof.
  apply (every_call_comes_to_an_end sqlite1 true [3; 1; 4; 1; 5; 9; 2; 6]%nat 1 "AAPL" "SELL"
           12 5 "2025-05-14T09:31:00.000Z").
  apply (bool_decide_unpack _). vm_compute. exact I.
Defined.

(** ** Starting again on the database file *)

Lemma executeTrade_durable (w : backend) (record_fails : bool) (order : list nat)
    (userId : Z) (sym type : string) (price qty : float) (now : string) :
  useMemory w = false ->
  useMemory (snd (executeTrade w record_fails order userId sym type price qty now)) = false /\
  memoryStore (snd (executeTrade w record_fails order userId sym type price qty now))
  = memoryStore w.
Proof. unfold executeTrade. by intros ->. Qed.

Lemma createUser_durable (hashSync : string -> string) (w : backend)
    (name : string) (pass : option string) (now : string) :
  useMemory w = false ->
  useMemory (snd (createUser hashSync w name pass now)) = false /\
  memoryStore (snd (createUser hashSync w name pass now)) = memoryStore w /\
  forall j, is_Some (account w j) ->
            is_Some (account (snd (createUser hashSync w name pass now)) j).
Proof.
  unfold createUser, account. intros Hmode. destruct pass as [pass|]; [|done].
  rewrite Hmode. unfold insert_user.
  case_bool_decide; cbn [snd useMemory memoryStore db]; rewrite ?Hmode; [done|].
  split; [done|]. split; [done|]. intros j Hj. cbn.
  destruct (decide (j = next_user_id (Sqlite.users_table (Sqlite.current (db w)))))
    as [->|Hne].
  - by rewrite lookup_insert_eq.
  - by rewrite lookup_insert_ne.
Qed.

(** X16.  A server started on a database file, run through any history of
    registrations and calls, and started again on the file as it then is,
    finds the store exactly as it was: no second [demo] account is seeded
    and nothing is lost. *)
Theorem restart_keeps_the_database (hashSync : string -> string) (t : Sqlite.tables)
    (now now' : string) (es : list event) :
  initDatabase hashSync
    (Some (Sqlite.current (db (history hashSync (initDatabase hashSync (Some t) true now) es))))
    true now'
  = history hashSync (initDatabase hashSync (Some t) true now) es.
Proof.
  assert (Hinv : (fun w => useMemory w = false /\ memoryStore w = Store [] ∅ [] /\
                           exists j, is_Some (account w j))
                   (history hashSync (initDatabase hashSync (Some t) true now) es)).
  { apply (history_invariant hashSync).
    - intros w name pass now0 _ (Hmode & Hstore & j & Hj).
      destruct (createUser_durable hashSync w name pass now0 Hmode) as (? & ? & Hkeep).
      split; [done|]. split; [congruence|]. exists j. by apply Hkeep.
    - intros w tr Hidle (Hmode & Hstore & j & Hj). unfold submit.
      destruct (executeTrade_durable w (storage_fails tr) (completion tr) (by_user tr)
                  (on_symbol tr) (side tr) (at_price tr) (of_quantity tr) (at_time tr) Hmode)
        as [? ?].
      split; [done|]. split; [congruence|]. exists j.
      destruct (decide (j = by_user tr)) as [->|Hne].
      + pose proof (executeTrade_account w (storage_fails tr) (completion tr) (by_user tr)
                      (on_symbol tr) (side tr) (at_price tr) (of_quantity tr) (at_time tr)
                      Hidle) as Hown.
        destruct (account w (by_user tr)) as [u|]; [|by destruct Hj].
        destruct Hown as (b & -> & _). by eexists.
      + by rewrite (proj1 (executeTrade_others w (storage_fails tr) (completion tr)
                             (by_user tr) (on_symbol tr) (side tr) (at_price tr)
                             (of_quantity tr) (at_time tr) Hidle)).
    - apply initDatabase_idle.
    - unfold initDatabase, account. case_bool_decide as Hsize.
      + unfold insert_user. rewrite bool_decide_eq_false_2.
        2: { apply map_size_empty_iff in Hsize. rewrite Hsize. apply map_Exists_empty. }
        split; [done|]. split; [done|]. eexists. cbn. by rewrite lookup_insert_eq.
      + split; [done|]. split; [done|]. cbn.
        destruct (map_choose (Sqlite.users_table t)) as (j & u & Hj).
        { intros Hempty. apply Hsize. by rewrite Hempty. }
        exists j. by rewrite Hj. }
  pose proof (initDatabase_idle hashSync (Some t) true now) as Hidle0.
  assert (Hidle : idle (history hashSync (initDatabase hashSync (Some t) true now) es)).
  { apply (history_invariant hashSync idle); try done.
    - intros. by apply createUser_idle.
    - intros. by apply executeTrade_settles. }
  destruct (history hashSync (initDatabase hashSync (Some t) true now) es)
    as [mode m [tables b]].
  destruct Hinv as (Hmode & Hstore & j & Hj). unfold idle in Hidle.
  cbn in Hmode, Hstore, Hidle. subst mode m b.
  unfold account in Hj. cbn in Hj. unfold initDatabase. cbn [db Sqlite.current].
  rewrite bool_decide_eq_false_2; [done|].
  intros Hsize. apply map_size_empty_iff in Hsize. rewrite Hsize in Hj.
  rewrite lookup_empty in Hj. by destruct Hj.
Qed.

(** ** The keys of the positions in memory *)

Lemma pretty_N_go_no_dash (x : N) (s : string) :
  no_dash s -> no_dash (pretty_N_go x s).
Proof.
  revert s. induction (N.lt_wf_0 x) as [x _ IH]; intros s Hs.
  assert (x = 0 \/ 0 < x)%N as [->|Hx] by lia; [by rewrite pretty_N_go_0|].
  rewrite pretty_N_go_step by done. apply IH; [by apply N.div_lt|].
  split; [|done]. unfold pretty_N_char. by repeat case_match.
Qed.

Lemma pretty_N_go_length (x : N) (s : string) :
  (String.length s <= String.length (pretty_N_go x s))%nat.
Proof.
  revert s. induction (N.lt_wf_0 x) as [x _ IH]; intros s.
  assert (x = 0 \/ 0 < x)%N as [->|Hx] by lia; [by rewrite pretty_N_go_0|].
  rewrite pretty_N_go_step by done.
  etrans; [|apply IH; by apply N.div_lt]. cbn. lia.
Qed.

Lemma pretty_N_digits (x : N) : no_dash (pretty x) /\ pretty x <> ""%string.
Proof.
  unfold pretty, pretty_N. case_decide as Hx; [by split; [split|]|]. split.
  - by apply pretty_N_go_no_dash.
  - rewrite pretty_N_go_step by lia. intros Hempty.
    pose proof (pretty_N_go_length (x `div` 10)
                  (String (pretty_N_char (x `mod` 10)) "")) as Hlen.
    rewrite Hempty in Hlen. cbn in Hlen. lia.
Qed.

Lemma append_nil (s : string) : "" +:+ s = s.
Proof. reflexivity. Qed.

Lemma append_cons (c : ascii) (a s : string) : String c a +:+ s = String c (a +:+ s).
Proof. reflexivity. Qed.

Lemma no_dash_prefix (a b s1 s2 : string) :
  no_dash a -> no_dash b ->
  a +:+ "-" +:+ s1 = b +:+ "-" +:+ s2 -> a = b /\ s1 = s2.
Proof.
  revert b. induction a as [|c a IH]; intros [|d b] Ha Hb;
    rewrite ?append_nil, ?append_cons, ?append_nil.
  - intros [= Heq]. by rewrite Heq.
  - intros [= <- _]. by destruct Hb.
  - intros [= -> _]. by destruct Ha.
  - intros [= -> Heq]. destruct Ha as [_ Ha], Hb as [_ Hb].
    destruct (IH b Ha Hb Heq) as [-> ->]. done.
Qed.

(** X17.  Two different (account, symbol) pairs never share a key of
    [memoryStore.portfolios]: the string [`${userId}-${symbol}`] determines
    the account and the symbol, even when the symbol contains ['-'] and when
    the id is negative. *)
Theorem portfolio_key_determines_the_pair (userId1 userId2 : Z) (sym1 sym2 : string) :
  safe_integer userId1 -> safe_integer userId2 ->
  portfolio_key userId1 sym1 = portfolio_key userId2 sym2 ->
  userId1 = userId2 /\ sym1 = sym2.
Proof.
  intros _ _. unfold portfolio_key.
  assert (Hnat : forall n : Z, (0 <= n)%Z ->
            no_dash (pretty n) /\ pretty n <> ""%string).
  { intros [|p|p] Hn; [by split; [split|]| |lia]. apply (pretty_N_digits (N.pos p)). }
  assert (Hneg : forall p : positive, pretty (Z.neg p) = "-" +:+ pretty (Z.pos p)) by done.
  destruct (decide (0 <= userId1)%Z) as [H1|H1], (decide (0 <= userId2)%Z) as [H2|H2].
  - destruct (Hnat _ H1) as [Hd1 _], (Hnat _ H2) as [Hd2 _]. intros Heq.
    apply no_dash_prefix in Heq as [Heq ->]; [|done..]. by apply (inj pretty) in Heq.
  - destruct userId2 as [|p|p]; [lia..|]. destruct (Hnat _ H1) as [Hd1 Hne1].
    rewrite Hneg. destruct (pretty userId1) as [|c s]; [done|]. cbn.
    intros [= -> _]. by destruct Hd1.
  - destruct userId1 as [|p|p]; [lia..|]. destruct (Hnat _ H2) as [Hd2 Hne2].
    rewrite Hneg. destruct (pretty userId2) as [|c s]; [done|]. cbn.
    intros [= <- _]. by destruct Hd2.
  - destruct userId1 as [|p1|p1]; [lia..|]. destruct userId2 as [|p2|p2]; [lia..|].
    rewrite !Hneg. cbn. intros [= Heq].
    destruct (Hnat (Z.pos p1) ltac:(lia)) as [Hd1 _].
    destruct (Hnat (Z.pos p2) ltac:(lia)) as [Hd2 _].
    apply no_dash_prefix in Heq as [Heq ->]; [|done..].
    split; [|done]. f_equal. by apply (inj (@pretty positive _)).
Qed.

Lemma portfolio_key_determines_the_pair_witness :
  portfolio_key (-1) "2-X" = "-1-2-X"%string /\ (-1)%Z = (-1)%Z /\ "2-X"%string = "2-X"%string.
Proof.
  split; [reflexivity|].
  apply (portfolio_key_determines_the_pair (-1) (-1) "2-X" "2-X").
  - apply (bool_decide_unpack _). vm_compute. exact I.
  - apply (bool_decide_unpack _). vm_compute. exact I.
  - reflexivity.
Defined.

(** ** The trading panel and the backend *)

Lemma above_zero_or_at_most (q : float) :
  is_nan q = false -> (q <=? 0)%float = false -> (0 <? q)%float = true.
Proof.
  intros Hnan. rewrite ltb_0, FloatAxioms.leb_spec.
  change (Prim2SF 0) with (S754_zero false). unfold SFleb.
  destruct (Prim2SF q) as [s|s| |s m e] eqn:Hq; cbn; try done; try (by destruct s).
  assert (is_nan q = true) by (by apply is_nan_spec). congruence.
Qed.

Lemma at_most_zero_not_above (q : float) :
  (q <=? 0)%float = true -> (0 <? q)%float = false.
Proof.
  rewrite FloatAxioms.leb_spec, FloatAxioms.ltb_spec.
  change (Prim2SF 0) with (S754_zero false). unfold SFleb, SFltb.
  destruct (Prim2SF q) as [s|s| |s m e]; cbn; try done; by destruct s.
Qed.

Lemma finite_not_nan (x : float) : is_finite x = true -> is_nan x = false.
Proof. rewrite is_finite_spec. intros Hx. apply not_nan. by destruct (Prim2SF x). Qed.

(** X18.  The checks of the trading panel are those of the backend.  With the
    balance and the holdings the panel shows equal to those of the store,
    and a quantity that is a finite number, [handleTrade] sends a request
    exactly when the quantity is above zero and [executeTrade] commits it
    (in memory, or with the statements completing in the order of issue,
    and a storage that does not fail).  The request it sends is for user 1
    and carries the quantity and the price as JSON writes them.  POST
    /api/trade refuses it as a missing parameter when the symbol or the
    type is empty or the price is 0 or not finite; otherwise, when
    [parseInt] and [parseFloat] read the quantity and the price back as
    they were sent, it answers with success. *)
Theorem panel_checks_are_the_backend_checks (p : panel) (w : backend) (order : list nat)
    (now sym : string) (stock_price : option float) (q : float) (u : user) :
  idle w -> useMemory w = true \/ order = [] ->
  stock p = Some (sym, stock_price) ->
  tradeQuantity p = JS.Number q -> is_finite q = true ->
  account w 1 = Some u ->
  panel_balance p = balance u ->
  panel_holdings p = held w 1 sym ->
  ((exists b, handleTrade p = Send b) <->
   (0 <? q)%float = true /\
   exists bal tx,
     fst (executeTrade w false order 1 sym (activeTab p)
            (or_else (currentPrice p) (or_else stock_price 0)) q now) = Resolved bal tx) /\
  (forall b, handleTrade p = Send b ->
     b = TradeBody (Some 1%Z) (Some sym) (Some (activeTab p)) (JS.stringify q)
           (JS.stringify (or_else (currentPrice p) (or_else stock_price 0))) /\
     if bool_decide (sym = ""%string) || bool_decide (activeTab p = ""%string)
        || (or_else (currentPrice p) (or_else stock_price 0) =? 0)%float
        || negb (is_finite (or_else (currentPrice p) (or_else stock_price 0)))
     then post_trade w false order b now = (Refusal 400 Missing_trade_parameters, w)
     else JS.parseInt (JS.JNumber q) = q ->
          JS.parseFloat (JS.JNumber (or_else (currentPrice p) (or_else stock_price 0)))
          = or_else (currentPrice p) (or_else stock_price 0) ->
          exists r, fst (post_trade w false order b now) = Answer r).
Proof.
  intros Hidle Horder Hstock Hq Hfinite Hu Hbal Hheld.
  set (price := or_else (currentPrice p) (or_else stock_price 0)).
  pose proof (finite_not_nan q Hfinite) as Hnan.
  assert (Hcalls : (exists b, handleTrade p = Send b) <->
            (0 <? q)%float = true /\
            exists bal tx,
              fst (executeTrade w false order 1 sym (activeTab p) price q now)
              = Resolved bal tx).
  { rewrite executeTrade_closed_form by done. unfold closed_form, handleTrade.
    rewrite Hstock, Hq, Hu, Hbal, Hheld. cbn [JS.to_number]. fold price.
    rewrite write_never_fails. unfold held.
    destruct (q <=? 0)%float eqn:Hpos.
    { split; [by intros [? ?]|]. intros [Habove _].
      by rewrite at_most_zero_not_above in Habove. }
    pose proof (above_zero_or_at_most q Hnan Hpos) as Habove.
    destruct (bool_decide (activeTab p = "BUY"%string)).
    - destruct (JS.lt (balance u) (JS.Number (price * q))); cbn [fst].
      + split; [by intros [? ?]|]. by intros (_ & ? & ? & ?).
      + split; [|by eauto]. intros _. split; [done|by eauto].
    - destruct (positions w !! (1%Z, sym)) as [h|]; cbn [from_option].
      + destruct (JS.lt (quantity h) (JS.Number q)); cbn [fst].
        * split; [by intros [? ?]|]. by intros (_ & ? & ? & ?).
        * split; [|by eauto]. intros _. split; [done|by eauto].
      + unfold JS.lt. cbn [JS.to_number]. rewrite Habove. cbn [fst].
        split; [by intros [? ?]|]. by intros (_ & ? & ? & ?). }
  split; [exact Hcalls|]. intros b Hb.
  assert (Hbody : b = TradeBody (Some 1%Z) (Some sym) (Some (activeTab p)) (JS.stringify q)
                        (JS.stringify price)).
  { unfold handleTrade in Hb. rewrite Hstock, Hq in Hb. cbn [JS.to_number body_number] in Hb.
    fold price in Hb. repeat case_match; by simplify_eq. }
  split; [exact Hbody|].
  destruct (proj1 Hcalls (ex_intro _ b Hb)) as (Hpos & bal & tx & Hres).
  subst b. unfold post_trade, body_user, JS.stringify. cbn.
  rewrite Hfinite, (above_zero_not_zero q Hpos).
  rewrite (bool_decide_eq_false_2 (1 = 0)%Z) by done.
  destruct (is_finite price) eqn:Hprice; cbn [negb orb]; [|by rewrite !orb_true_r].
  rewrite orb_false_r.
  assert (Htruthy : JS.truthy (JS.JNumber q) = true).
  { cbn. by rewrite Hnan, (above_zero_not_zero q Hpos). }
  rewrite Htruthy. cbn [negb]. rewrite orb_false_r.
  destruct (bool_decide (sym = ""%string)); cbn [orb]; [done|].
  destruct (bool_decide (activeTab p = ""%string)); cbn [orb]; [done|].
  destruct (price =? 0)%float eqn:Hzero; [done|].
  cbn. rewrite Hzero, (finite_not_nan price Hprice). cbn.
  intros -> ->.
  destruct (executeTrade w false order 1 sym (activeTab p) price q now) as [o w'].
  cbn [fst] in Hres. subst o. cbn. by eexists.
Qed.

Lemma panel_checks_are_the_backend_checks_witness :
  exists b,
    handleTrade (Panel (Some ("AAPL"%string, Some 175%float)) (Some 176%float) "SELL"
                   (JS.Number 99950) (JS.Number 5) (JS.Number 2)) = Send b.
Proof.
  apply (proj1 (panel_checks_are_the_backend_checks
                  (Panel (Some ("AAPL"%string, Some 175%float)) (Some 176%float) "SELL"
                     (JS.Number 99950) (JS.Number 5) (JS.Number 2))
                  sqlite1 [] "2025-05-14T10:00:00.000Z" "AAPL" (Some 175%float) 2
                  (User 1 "demo" "password123" (JS.Number 99950) "2025-05-14T09:00:00.000Z")
                  ltac:(apply (bool_decide_unpack _); vm_compute; exact I)
                  (or_intror eq_refl) eq_refl eq_refl eq_refl
                  ltac:(apply (bool_decide_unpack _); vm_compute; exact I)
                  ltac:(apply (bool_decide_unpack _); vm_compute; exact I)
                  ltac:(apply (bool_decide_unpack _); vm_compute; exact I))).
  split; [reflexivity|].
  exists (JS.Number (99950 + 176 * 2)), None.
  apply (bool_decide_unpack _). vm_compute. exact I.
Defined.

(** ** Types other than BUY *)

Lemma next_id_untyped (txs : list transaction) :
  Sqlite.next_id (untyped <$> txs) = Sqlite.next_id txs.
Proof. unfold Sqlite.next_id. by rewrite <- list_fmap_compose. Qed.

Lemma exec_untyped (record_fails : bool) (s : Sqlite.sql) (d : Sqlite.database) :
  Sqlite.exec record_fails (untyped_sql s) (untyped_database d)
  = (untyped_database (Sqlite.exec record_fails s d).1.1,
     (Sqlite.exec record_fails s d).1.2, (Sqlite.exec record_fails s d).2).
Proof.
  destruct d as [[us pfs txs] [[us0 pfs0 txs0]|]], s; cbn -[Sqlite.next_id]; try done;
    try (by case_match);
    (destruct record_fails; [done|];
     unfold untyped_database, untyped_tables, Sqlite.change; cbn -[Sqlite.next_id];
     by rewrite fmap_app, next_id_untyped).
Qed.

Lemma complete_untyped (userId : Z) (sym type1 type2 : string) (price qty : float)
    (now : string) (cb : Sqlite.callback) (err : bool) (r : Sqlite.row) :
  type1 <> "BUY"%string -> type2 <> "BUY"%string ->
  untyped_issued <$> (Sqlite.complete userId sym type1 price qty now cb err r).1
  = untyped_issued <$> (Sqlite.complete userId sym type2 price qty now cb err r).1 /\
  (Sqlite.complete userId sym type1 price qty now cb err r).2
  = (Sqlite.complete userId sym type2 price qty now cb err r).2.
Proof.
  intros H1 H2. unfold Sqlite.complete.
  rewrite !(bool_decide_eq_false_2 (_ = "BUY"%string)) by done.
  destruct cb, err, r; try done; repeat case_match; done.
Qed.

Lemma pick_untyped (n : nat) (q : list Sqlite.issued) :
  Sqlite.pick n (untyped_issued <$> q)
  = prod_map untyped_issued (fmap (M:=list) untyped_issued) <$> Sqlite.pick n q.
Proof.
  revert n. induction q as [|s q IH]; intros n; [by destruct n|].
  destruct n as [|n]; [by destruct q|]. destruct q as [|s' q]; [done|].
  change (untyped_issued <$> s :: s' :: q)
    with (untyped_issued s :: (untyped_issued <$> s' :: q)).
  change (untyped_issued <$> s' :: q) with (untyped_issued s' :: (untyped_issued <$> q)) at 1.
  cbn [Sqlite.pick].
  change (untyped_issued s' :: (untyped_issued <$> q)) with (untyped_issued <$> s' :: q).
  rewrite IH. cbn [untyped_issued Sqlite.serialized].
  destruct (Sqlite.serialized s || Sqlite.serialized s'); [done|].
  by destruct (Sqlite.pick n (s' :: q)) as [[x rest]|].
Qed.

Lemma step_untyped (userId : Z) (sym type1 type2 : string) (price qty : float)
    (now : string) (record_fails : bool) (s1 s2 : Sqlite.issued) (c1 c2 : Sqlite.call) :
  type1 <> "BUY"%string -> type2 <> "BUY"%string ->
  untyped_issued s1 = untyped_issued s2 -> untyped_call c1 = untyped_call c2 ->
  untyped_call (Sqlite.step userId sym type1 price qty now record_fails s1 c1)
  = untyped_call (Sqlite.step userId sym type2 price qty now record_fails s2 c2).
Proof.
  intros H1 H2 Hs Hc. unfold Sqlite.step.
  destruct s1 as [st1 cb1 ser1], s2 as [st2 cb2 ser2].
  destruct c1 as [d1 q1 p1], c2 as [d2 q2 p2].
  pose proof (f_equal Sqlite.statement Hs) as Hst.
  pose proof (f_equal Sqlite.on_completion Hs) as Hcb.
  pose proof (f_equal Sqlite.conn Hc) as Hd.
  pose proof (f_equal Sqlite.queue Hc) as Hq.
  pose proof (f_equal Sqlite.promise Hc) as Hp.
  cbn in Hst, Hcb, Hd, Hq, Hp. subst cb2 p2. clear Hs Hc. cbn.
  pose proof (exec_untyped record_fails st1 d1) as E1.
  pose proof (exec_untyped record_fails st2 d2) as E2.
  rewrite Hst, Hd, E2 in E1.
  destruct (Sqlite.exec record_fails st1 d1) as [[d1' err1] r1].
  destruct (Sqlite.exec record_fails st2 d2) as [[d2' err2] r2].
  cbn in E1.
  pose proof (f_equal (fun x => x.1.1) E1) as Hd'.
  pose proof (f_equal (fun x => x.1.2) E1) as Herr.
  pose proof (f_equal snd E1) as Hrow.
  cbn in Hd', Herr, Hrow. subst err2 r2. clear E1 E2.
  destruct cb1 as [cb|]; cbn.
  - destruct (complete_untyped userId sym type1 type2 price qty now cb err1 r1 H1 H2)
      as [Hmore Ho].
    destruct (Sqlite.complete userId sym type1 _ _ _ cb err1 r1) as [more1 o1].
    destruct (Sqlite.complete userId sym type2 _ _ _ cb err1 r1) as [more2 o2].
    cbn in Hmore, Ho. subst o2. unfold untyped_call. cbn.
    by rewrite !fmap_app, Hq, Hmore, Hd'.
  - unfold untyped_call. cbn. by rewrite Hq, Hd'.
Qed.

Lemma run_untyped (userId : Z) (sym type1 type2 : string) (price qty : float)
    (now : string) (record_fails : bool) (order : list nat) (fuel : nat)
    (c1 c2 : Sqlite.call) :
  type1 <> "BUY"%string -> type2 <> "BUY"%string ->
  untyped_call c1 = untyped_call c2 ->
  untyped_call (Sqlite.run userId sym type1 price qty now record_fails order fuel c1)
  = untyped_call (Sqlite.run userId sym type2 price qty now record_fails order fuel c2).
Proof.
  intros H1 H2. revert order c1 c2.
  induction fuel as [|fuel IH]; intros order c1 c2 Hc; [done|].
  destruct c1 as [d1 q1 p1], c2 as [d2 q2 p2]. rewrite !run_unfold.
  pose proof (f_equal Sqlite.conn Hc) as Hd.
  pose proof (f_equal Sqlite.queue Hc) as Hq.
  pose proof (f_equal Sqlite.promise Hc) as Hp.
  cbn in Hd, Hq, Hp.
  pose proof (pick_untyped (hd 0%nat order) q1) as P1.
  pose proof (pick_untyped (hd 0%nat order) q2) as P2.
  rewrite Hq, P2 in P1.
  destruct (Sqlite.pick (hd 0%nat order) q1) as [[s1 rest1]|],
           (Sqlite.pick (hd 0%nat order) q2) as [[s2 rest2]|]; try done.
  assert (Hpair : (untyped_issued s2, untyped_issued <$> rest2)
                  = (untyped_issued s1, untyped_issued <$> rest1))
    by (apply (inj Some); exact P1).
  pose proof (f_equal fst Hpair) as Hs. pose proof (f_equal snd Hpair) as Hrest.
  cbn [fst snd] in Hs, Hrest.
  apply IH. apply step_untyped; [done|done|done|].
  unfold untyped_call. cbn [Sqlite.conn Sqlite.queue Sqlite.promise]. congruence.
Qed.

(** X19.  A type that is not exactly 'BUY' is taken for a sale, whatever it is
    ('SELL', 'buy', 'HOLD', ...): the call answers as the same call with
    type 'SELL' does and leaves the same store, except that the record, if
    one is written, carries the type as given.  This holds on both backends,
    when the storage fails and for every order of completion. *)
Theorem any_other_type_is_a_sale (w : backend) (record_fails : bool) (order : list nat)
    (userId : Z) (sym type : string) (price qty : float) (now : string) :
  type <> "BUY"%string ->
  untyped_outcome (fst (executeTrade w record_fails order userId sym type price qty now))
  = untyped_outcome (fst (executeTrade w record_fails order userId sym "SELL" price qty now))
  /\
  untyped_backend (snd (executeTrade w record_fails order userId sym type price qty now))
  = untyped_backend (snd (executeTrade w record_fails order userId sym "SELL" price qty now)).
Proof.
  intros Htype. unfold executeTrade. destruct (useMemory w) eqn:Hmode.
  - unfold Memory.executeTrade.
    rewrite !(bool_decide_eq_false_2 (_ = "BUY"%string)) by done.
    destruct (find_user userId (users (memoryStore w))) as [u|]; [|done].
    destruct (portfolios (memoryStore w) !! (userId, sym)) as [p|]; [|done].
    destruct (JS.lt _ _); [done|]. cbn [fst snd untyped_outcome]. split; [done|].
    unfold untyped_backend, untyped_store. cbn. by rewrite !fmap_app.
  - cbn [fst snd]. unfold Sqlite.executeTrade.
    pose proof (run_untyped userId sym type "SELL" price qty now record_fails order 8
                  (Sqlite.start userId (db w)) (Sqlite.start userId (db w)) Htype
                  ltac:(done) eq_refl) as Hrun.
    destruct (Sqlite.run userId sym type _ _ _ _ _ _ _) as [d1 q1 p1].
    destruct (Sqlite.run userId sym "SELL" _ _ _ _ _ _ _) as [d2 q2 p2].
    pose proof (f_equal Sqlite.conn Hrun) as Hd.
    pose proof (f_equal Sqlite.promise Hrun) as Hp.
    cbn in Hd, Hp. cbn. subst p2. split; [done|]. unfold untyped_backend. cbn.
    by rewrite Hd.
Qed.

Lemma any_other_type_is_a_sale_witness :
  positions (snd (executeTrade sqlite1 false [0; 0; 1; 2; 1]%nat 1 "AAPL" "buy" 12 5
                    "2025-05-14T09:31:00.000Z")) !! (1%Z, "AAPL"%string) = None /\
  untyped_backend (snd (executeTrade sqlite1 false [0; 0; 1; 2; 1]%nat 1 "AAPL" "buy"
                          12 5 "2025-05-14T09:31:00.000Z"))
  = untyped_backend (snd (executeTrade sqlite1 false [0; 0; 1; 2; 1]%nat 1 "AAPL" "SELL"
                            12 5 "2025-05-14T09:31:00.000Z")).
Proof.
  split; [apply (bool_decide_unpack _); vm_compute; exact I|].
  apply (any_other_type_is_a_sale sqlite1 false [0; 0; 1; 2; 1]%nat 1 "AAPL" "buy"
           12 5 "2025-05-14T09:31:00.000Z").
  discriminate.
Defined.

(** ** POST /api/auth/register *)

(** X20.  The registration route refuses a request (status 400) exactly
    when the password is not a string ([hashSync] throws, on either
    backend) or the SQLite backend is active and the name is taken; the
    store is then unchanged.  Otherwise it answers with the name given and
    an id that no account had, and the account exists afterwards.  On the
    in-memory backend it refuses nothing but a password that is not a
    string. *)
Theorem register_refuses_bad_passwords_and_taken_names (hashSync : string -> string)
    (w : backend) (name : string) (pass : option string) (now : string) :
  (fst (post_register hashSync w name pass now) = Refusal 400 Registration_failed
   <-> pass = None \/
       (useMemory w = false /\ exists v, getUserByUsername w false name = Some v)) /\
  (fst (post_register hashSync w name pass now) = Refusal 400 Registration_failed ->
   snd (post_register hashSync w name pass now) = w) /\
  (forall i n,
     memory_ids w ->
     fst (post_register hashSync w name pass now) = Answer (i, n) ->
     n = name /\ account w i = None /\
     is_Some (account (snd (post_register hashSync w name pass now)) i)).
Proof.
  unfold post_register. destruct pass as [pass|].
  2: { cbn. split; [by split; auto|]. split; [done|]. by intros i n _ [=]. }
  destruct (createUser hashSync w name (Some pass) now) as [[u|] w'] eqn:Hreg; cbn [fst snd].
  - split; [|split; [done|]].
    + split; [done|]. intros [?|[Hmode [v Hv]]]; [done|].
      assert (Htaken : is_Some (getUserByUsername w false name)) by (by eexists).
      apply (sqlite_name_taken w name Hmode) in Htaken.
      unfold createUser, insert_user in Hreg. rewrite Hmode in Hreg.
      by rewrite bool_decide_eq_true_2 in Hreg.
    + intros i n Hids [= <- <-].
      destruct (createUser_new hashSync w w' name pass now u Hids Hreg)
        as (Hnew & Hu & Hfound & _). split; [by rewrite Hu|]. split; [done|].
      by rewrite Hfound.
  - unfold createUser in Hreg. destruct (useMemory w) eqn:Hmode; [done|].
    unfold insert_user in Hreg. case_bool_decide as Htaken; [|done].
    injection Hreg as <-. split; [|done]. split; [|done]. intros _. right. split; [done|].
    apply (sqlite_name_taken w name Hmode) in Htaken. destruct Htaken as [v Hv]. by exists v.
Qed.

Lemma register_refuses_bad_passwords_and_taken_names_witness :
  is_Some (account (snd (post_register clear_text memory0 "demo" (Some "x"%string)
                           "2025-05-14T11:00:00.000Z")) 2%Z) /\
  post_register clear_text memory0 "carol" None "2025-05-14T11:00:00.000Z"
  = (Refusal 400 Registration_failed, memory0).
Proof.
  split.
  - apply (proj2 (proj2 (register_refuses_bad_passwords_and_taken_names clear_text memory0
                           "demo" (Some "x"%string) "2025-05-14T11:00:00.000Z"))
             2%Z "demo"%string).
    + apply (bool_decide_unpack _). vm_compute. exact I.
    + apply (bool_decide_unpack _). vm_compute. exact I.
  - reflexivity.
Defined.

(** ** Rejections in issue order *)


